(** * Verification of [imitation.scripts.analyze]

    A shallow embedding of the aggregation-and-projection core of
    [src/imitation/scripts/analyze.py]: gathering Sacred run records,
    filtering them, deriving the algorithm name and the return summaries,
    selecting the columns of a verbosity tier and building the sorted table.

    Python values are embedded as the JSON fragment that [json.load] yields,
    exceptions as an explicit error result, and the filesystem as an explicit
    [world] that the gathering code reads. *)

From Stdlib Require Import ZArith List Bool Lia Ascii String.
From Stdlib Require Import Floats.SpecFloat.
From stdpp Require Import base gmap strings list sorting pretty.

Set Warnings "-register-all".

Local Open Scope string_scope.
Local Open Scope list_scope.
Local Open Scope Z_scope.

(** ** Binary64 arithmetic and number formatting

    What the interpreter does for [float(int)], for [/] and for the [g] and
    [repr] renderings of a float, over the exact value of the float. *)

Module Num.

Definition prec : Z := 53.
Definition emax : Z := 1024.

(** [float(z)] rounded to nearest, ties to even; an infinity marks overflow. *)
Definition of_int (z : Z) : spec_float := binary_normalize prec emax z 0 false.

(** The correctly rounded quotient of two integers. *)
Definition div_int (a b : Z) : spec_float :=
  match a, b with
  | Z0, _ => S754_zero (b <? 0)
  | _, Z0 => S754_nan
  | _, _ =>
      let '(mz, ez, lz) := SFdiv_core_binary prec emax (Z.abs a) 0 (Z.abs b) 0 in
      binary_round_aux prec emax (xorb (a <? 0) (b <? 0)) mz ez lz
  end.

(** A positive rational [n/d] and the largest [e] with [10^e <= n/d]. *)
Fixpoint scale_up (fuel : nat) (n d e : Z) : Z :=
  match fuel with
  | O => e
  | S fuel' => if n <? d then scale_up fuel' (10 * n) d (e - 1) else e
  end.

Fixpoint scale_down (fuel : nat) (n d e : Z) : Z :=
  match fuel with
  | O => e
  | S fuel' => if 10 * d <=? n then scale_down fuel' n (10 * d) (e + 1) else e
  end.

Definition floor_log10 (n d : Z) : Z :=
  let fuel := Z.to_nat (Z.log2 n + Z.log2 d + 2) in
  if n <? d then scale_up fuel n d 0 else scale_down fuel n d 0.

Definition round_half_even (n d : Z) : Z :=
  let q := n / d in
  let r := n mod d in
  match 2 * r ?= d with
  | Lt => q
  | Gt => q + 1
  | Eq => if Z.even q then q else q + 1
  end.

(** [n/d * 10^s] as a fraction. *)
Definition scale10 (n d s : Z) : Z * Z :=
  if 0 <=? s then (n * 10 ^ s, d) else (n, d * 10 ^ (- s)).

(** The [p] significant decimal digits nearest to [n/d], as an integer of
    exactly [p] digits, with the decimal exponent of its leading digit. *)
Definition sig_digits (p : Z) (n d : Z) : Z * Z :=
  let e := floor_log10 n d in
  let '(n', d') := scale10 n d (p - 1 - e) in
  let m := round_half_even n' d' in
  if m =? 10 ^ p then (10 ^ (p - 1), e + 1) else (m, e).

(** The exact value [m * 2^e] of a finite float as a fraction. *)
Definition frac_of (m : positive) (e : Z) : Z * Z :=
  if 0 <=? e then (Z.pos m * 2 ^ e, 1) else (Z.pos m, 2 ^ (- e)).

Fixpoint strip_zeros_rev (s : list ascii) : list ascii :=
  match s with
  | "0"%char :: s' => strip_zeros_rev s'
  | _ => s
  end.

(** Drop the trailing zeros of a digit string. *)
Definition strip_zeros (s : string) : string :=
  string_of_list_ascii (rev (strip_zeros_rev (rev (list_ascii_of_string s)))).

Fixpoint zeros (n : nat) : string :=
  match n with
  | O => ""
  | S n' => String "0" (zeros n')
  end.

Definition take_str (n : nat) (s : string) : string :=
  string_of_list_ascii (take n (list_ascii_of_string s)).
Definition drop_str (n : nat) (s : string) : string :=
  string_of_list_ascii (drop n (list_ascii_of_string s)).

(** Positional notation of the digits [ds] whose leading digit has decimal
    exponent [e]; [dot0] appends [.0] to an integral result. *)
Definition fixed (ds : string) (e : Z) (dot0 : bool) : string :=
  if e <? 0 then "0." +:+ zeros (Z.to_nat (- e - 1)) +:+ ds
  else
    let k := Z.to_nat (e + 1) in
    let ip := take_str k ds +:+ zeros (k - String.length ds) in
    let fp := drop_str k ds in
    if String.eqb fp "" then (if dot0 then ip +:+ ".0" else ip)
    else ip +:+ "." +:+ fp.

(** Exponent notation: one digit, the others after the point, and a signed
    exponent of at least two digits. *)
Definition scientific (ds : string) (e : Z) : string :=
  let mant :=
    match ds with
    | String c "" => String c ""
    | String c rest => String c ("." +:+ rest)
    | "" => ""
    end in
  let ea := pretty (Z.abs e) in
  mant +:+ "e" +:+ (if e <? 0 then "-" else "+")
       +:+ (if Z.abs e <? 10 then "0" +:+ ea else ea).

Definition signed (s : bool) (body : string) : string :=
  if s then "-" +:+ body else body.

(** [format(x, 'g')] at precision [p] (at least 1): [p] significant digits,
    trailing zeros removed, exponent notation outside [1e-4 <= |x| < 10^p]. *)
Definition repr_g (p : Z) (x : spec_float) : string :=
  match x with
  | S754_nan => "nan"
  | S754_infinity s => signed s "inf"
  | S754_zero s => signed s "0"
  | S754_finite s m e =>
      let '(n, d) := frac_of m e in
      let '(digs, e10) := sig_digits p n d in
      let ds := strip_zeros (pretty digs) in
      signed s (if (-4 <=? e10) && (e10 <? p) then fixed ds e10 false
                else scientific ds e10)
  end.

(** The decimal [c * 10^k] read back as a float. *)
Definition of_decimal (c k : Z) : spec_float :=
  if 0 <=? k then of_int (c * 10 ^ k) else div_int c (10 ^ (- k)).

Definition same_finite (x : spec_float) (m : positive) (e : Z) : bool :=
  match x with
  | S754_finite _ m' e' => Pos.eqb m m' && Z.eqb e e'
  | _ => false
  end.

(** The shortest digit string that reads back as [m * 2^e], the nearest one
    if there are two of that length: tried with 1, 2, ... digits. *)
Fixpoint shortest_from (fuel : nat) (p : Z) (m : positive) (e : Z) : Z * Z :=
  let '(n, d) := frac_of m e in
  match fuel with
  | O => sig_digits p n d
  | S fuel' =>
      let e10 := floor_log10 n d in
      let k := e10 - (p - 1) in
      let '(n', d') := scale10 n d (- k) in
      let lo := n' / d' in
      let hi := lo + 1 in
      let near := round_half_even n' d' in
      let far := if near =? lo then hi else lo in
      if same_finite (of_decimal near k) m e then
        (if near =? 10 ^ p then (10 ^ (p - 1), e10 + 1) else (near, e10))
      else if same_finite (of_decimal far k) m e then
        (if far =? 10 ^ p then (10 ^ (p - 1), e10 + 1) else (far, e10))
      else shortest_from fuel' (p + 1) m e
  end.

(** [repr(x)], which is also [str(x)], of a float. *)
Definition repr_float (x : spec_float) : string :=
  match x with
  | S754_nan => "nan"
  | S754_infinity s => signed s "inf"
  | S754_zero s => signed s "0.0"
  | S754_finite s m e =>
      let '(digs, e10) := shortest_from 16 1 m e in
      let ds := strip_zeros (pretty digs) in
      signed s (if (-4 <=? e10) && (e10 <? 16) then fixed ds e10 true
                else scientific ds e10)
  end.

(** Right-align in a field of [width] characters, the default for numbers. *)
Definition pad_left (width : nat) (s : string) : string :=
  string_of_list_ascii (replicate (width - String.length s) " "%char) +:+ s.

End Num.

(** ** Unicode text

    A [str] is kept as the bytes of its UTF-8 encoding (a lone surrogate, which
    a JSON escape can produce, as the three bytes of its code point).  Case
    mapping and printability are those of the Unicode database of CPython
    3.11 (Unicode 14.0). *)

Module Unicode.

Definition byte (a : ascii) : Z := Z.of_N (N_of_ascii a).
Definition chr (b : Z) : ascii := ascii_of_N (Z.to_N b).

(** A continuation byte. *)
Definition is_cont (b : Z) : bool := (128 <=? b) && (b <=? 191).

(** What a text is made of: code points; a byte outside a well-formed
    sequence is kept as it is. *)
Inductive item : Type :=
  | Cp (c : Z)
  | Raw (a : ascii).

(** The code points of a byte string: at each position the well-formed
    sequence of one to four bytes that starts there, in its shortest form. *)
Fixpoint decode (s : string) : list item :=
  match s with
  | "" => []
  | String a1 s1 =>
      let b1 := byte a1 in
      if b1 <? 128 then Cp b1 :: decode s1
      else
        match s1 with
        | "" => Raw a1 :: decode s1
        | String a2 s2 =>
            let b2 := byte a2 in
            if (194 <=? b1) && (b1 <=? 223) && is_cont b2
            then Cp ((b1 - 192) * 64 + (b2 - 128)) :: decode s2
            else
              match s2 with
              | "" => Raw a1 :: decode s1
              | String a3 s3 =>
                  let b3 := byte a3 in
                  let c3 := (b1 - 224) * 4096 + (b2 - 128) * 64 + (b3 - 128) in
                  if (224 <=? b1) && (b1 <=? 239) && is_cont b2 && is_cont b3
                     && (2048 <=? c3)
                  then Cp c3 :: decode s3
                  else
                    match s3 with
                    | "" => Raw a1 :: decode s1
                    | String a4 s4 =>
                        let b4 := byte a4 in
                        let c4 := (b1 - 240) * 262144 + (b2 - 128) * 4096
                                  + (b3 - 128) * 64 + (b4 - 128) in
                        if (240 <=? b1) && (b1 <=? 244) && is_cont b2
                           && is_cont b3 && is_cont b4
                           && (65536 <=? c4) && (c4 <=? 1114111)
                        then Cp c4 :: decode s4
                        else Raw a1 :: decode s1
                    end
              end
        end
  end.

(** The bytes of a code point. *)
Definition encode_cp (c : Z) : string :=
  if c <? 128 then String (chr c) ""
  else if c <? 2048 then
    String (chr (192 + c / 64)) (String (chr (128 + c mod 64)) "")
  else if c <? 65536 then
    String (chr (224 + c / 4096))
      (String (chr (128 + (c / 64) mod 64)) (String (chr (128 + c mod 64)) ""))
  else
    String (chr (240 + c / 262144))
      (String (chr (128 + (c / 4096) mod 64))
         (String (chr (128 + (c / 64) mod 64))
            (String (chr (128 + c mod 64)) ""))).

Definition encode_item (i : item) : string :=
  match i with
  | Cp c => encode_cp c
  | Raw a => String a ""
  end.

Fixpoint encode (l : list item) : string :=
  match l with
  | [] => ""
  | i :: l' => encode_item i +:+ encode l'
  end.

(** The simple upper-case mappings, as runs [(first, last, stride, offset)]:
    a code point [c] of the run, [first <= c <= last] at a multiple of
    [stride] from [first], maps to [c + offset]. *)
Definition upper_runs : list (Z * Z * Z * Z) :=
  [(97, 122, 1, (-32)); (181, 181, 1, 743); (224, 246, 1, (-32));
   (248, 254, 1, (-32)); (255, 255, 1, 121); (257, 303, 2, (-1));
   (305, 305, 1, (-232)); (307, 311, 2, (-1)); (314, 328, 2, (-1));
   (331, 375, 2, (-1)); (378, 382, 2, (-1)); (383, 383, 1, (-300));
   (384, 384, 1, 195); (387, 389, 2, (-1)); (392, 392, 1, (-1));
   (396, 396, 1, (-1)); (402, 402, 1, (-1)); (405, 405, 1, 97);
   (409, 409, 1, (-1)); (410, 410, 1, 163); (414, 414, 1, 130);
   (417, 421, 2, (-1)); (424, 424, 1, (-1)); (429, 429, 1, (-1));
   (432, 432, 1, (-1)); (436, 438, 2, (-1)); (441, 441, 1, (-1));
   (445, 445, 1, (-1)); (447, 447, 1, 56); (453, 453, 1, (-1));
   (454, 454, 1, (-2)); (456, 456, 1, (-1)); (457, 457, 1, (-2));
   (459, 459, 1, (-1)); (460, 460, 1, (-2)); (462, 476, 2, (-1));
   (477, 477, 1, (-79)); (479, 495, 2, (-1)); (498, 498, 1, (-1));
   (499, 499, 1, (-2)); (501, 501, 1, (-1)); (505, 543, 2, (-1));
   (547, 563, 2, (-1)); (572, 572, 1, (-1)); (575, 576, 1, 10815);
   (578, 578, 1, (-1)); (583, 591, 2, (-1)); (592, 592, 1, 10783);
   (593, 593, 1, 10780); (594, 594, 1, 10782); (595, 595, 1, (-210));
   (596, 596, 1, (-206)); (598, 599, 1, (-205)); (601, 601, 1, (-202));
   (603, 603, 1, (-203)); (604, 604, 1, 42319); (608, 608, 1, (-205));
   (609, 609, 1, 42315); (611, 611, 1, (-207)); (613, 613, 1, 42280);
   (614, 614, 1, 42308); (616, 616, 1, (-209)); (617, 617, 1, (-211));
   (618, 618, 1, 42308); (619, 619, 1, 10743); (620, 620, 1, 42305);
   (623, 623, 1, (-211)); (625, 625, 1, 10749); (626, 626, 1, (-213));
   (629, 629, 1, (-214)); (637, 637, 1, 10727); (640, 640, 1, (-218));
   (642, 642, 1, 42307); (643, 643, 1, (-218)); (647, 647, 1, 42282);
   (648, 648, 1, (-218)); (649, 649, 1, (-69)); (650, 651, 1, (-217));
   (652, 652, 1, (-71)); (658, 658, 1, (-219)); (669, 669, 1, 42261);
   (670, 670, 1, 42258); (837, 837, 1, 84); (881, 883, 2, (-1));
   (887, 887, 1, (-1)); (891, 893, 1, 130); (940, 940, 1, (-38));
   (941, 943, 1, (-37)); (945, 961, 1, (-32)); (962, 962, 1, (-31));
   (963, 971, 1, (-32)); (972, 972, 1, (-64)); (973, 974, 1, (-63));
   (976, 976, 1, (-62)); (977, 977, 1, (-57)); (981, 981, 1, (-47));
   (982, 982, 1, (-54)); (983, 983, 1, (-8)); (985, 1007, 2, (-1));
   (1008, 1008, 1, (-86)); (1009, 1009, 1, (-80)); (1010, 1010, 1, 7);
   (1011, 1011, 1, (-116)); (1013, 1013, 1, (-96)); (1016, 1016, 1, (-1));
   (1019, 1019, 1, (-1)); (1072, 1103, 1, (-32)); (1104, 1119, 1, (-80));
   (1121, 1153, 2, (-1)); (1163, 1215, 2, (-1)); (1218, 1230, 2, (-1));
   (1231, 1231, 1, (-15)); (1233, 1327, 2, (-1)); (1377, 1414, 1, (-48));
   (4304, 4346, 1, 3008); (4349, 4351, 1, 3008); (5112, 5117, 1, (-8));
   (7296, 7296, 1, (-6254)); (7297, 7297, 1, (-6253)); (7298, 7298, 1, (-6244));
   (7299, 7300, 1, (-6242)); (7301, 7301, 1, (-6243)); (7302, 7302, 1, (-6236));
   (7303, 7303, 1, (-6181)); (7304, 7304, 1, 35266); (7545, 7545, 1, 35332);
   (7549, 7549, 1, 3814); (7566, 7566, 1, 35384); (7681, 7829, 2, (-1));
   (7835, 7835, 1, (-59)); (7841, 7935, 2, (-1)); (7936, 7943, 1, 8);
   (7952, 7957, 1, 8); (7968, 7975, 1, 8); (7984, 7991, 1, 8);
   (8000, 8005, 1, 8); (8017, 8023, 2, 8); (8032, 8039, 1, 8);
   (8048, 8049, 1, 74); (8050, 8053, 1, 86); (8054, 8055, 1, 100);
   (8056, 8057, 1, 128); (8058, 8059, 1, 112); (8060, 8061, 1, 126);
   (8112, 8113, 1, 8); (8126, 8126, 1, (-7205)); (8144, 8145, 1, 8);
   (8160, 8161, 1, 8); (8165, 8165, 1, 7); (8526, 8526, 1, (-28));
   (8560, 8575, 1, (-16)); (8580, 8580, 1, (-1)); (9424, 9449, 1, (-26));
   (11312, 11359, 1, (-48)); (11361, 11361, 1, (-1)); (11365, 11365, 1, (-10795));
   (11366, 11366, 1, (-10792)); (11368, 11372, 2, (-1)); (11379, 11379, 1, (-1));
   (11382, 11382, 1, (-1)); (11393, 11491, 2, (-1)); (11500, 11502, 2, (-1));
   (11507, 11507, 1, (-1)); (11520, 11557, 1, (-7264)); (11559, 11559, 1, (-7264));
   (11565, 11565, 1, (-7264)); (42561, 42605, 2, (-1)); (42625, 42651, 2, (-1));
   (42787, 42799, 2, (-1)); (42803, 42863, 2, (-1)); (42874, 42876, 2, (-1));
   (42879, 42887, 2, (-1)); (42892, 42892, 1, (-1)); (42897, 42899, 2, (-1));
   (42900, 42900, 1, 48); (42903, 42921, 2, (-1)); (42933, 42947, 2, (-1));
   (42952, 42954, 2, (-1)); (42961, 42961, 1, (-1)); (42967, 42969, 2, (-1));
   (42998, 42998, 1, (-1)); (43859, 43859, 1, (-928)); (43888, 43967, 1, (-38864));
   (65345, 65370, 1, (-32)); (66600, 66639, 1, (-40)); (66776, 66811, 1, (-40));
   (66967, 66977, 1, (-39)); (66979, 66993, 1, (-39)); (66995, 67001, 1, (-39));
   (67003, 67004, 1, (-39)); (68800, 68850, 1, (-64)); (71872, 71903, 1, (-32));
   (93792, 93823, 1, (-32)); (125218, 125251, 1, (-34))].

(** The code points whose upper case is more than one code point. *)
Definition upper_special : list (Z * list Z) :=
  [(223, [83; 83]); (329, [700; 78]); (496, [74; 780]);
   (912, [921; 776; 769]); (944, [933; 776; 769]); (1415, [1333; 1362]);
   (7830, [72; 817]); (7831, [84; 776]); (7832, [87; 778]);
   (7833, [89; 778]); (7834, [65; 702]); (8016, [933; 787]);
   (8018, [933; 787; 768]); (8020, [933; 787; 769]); (8022, [933; 787; 834]);
   (8064, [7944; 921]); (8065, [7945; 921]); (8066, [7946; 921]);
   (8067, [7947; 921]); (8068, [7948; 921]); (8069, [7949; 921]);
   (8070, [7950; 921]); (8071, [7951; 921]); (8072, [7944; 921]);
   (8073, [7945; 921]); (8074, [7946; 921]); (8075, [7947; 921]);
   (8076, [7948; 921]); (8077, [7949; 921]); (8078, [7950; 921]);
   (8079, [7951; 921]); (8080, [7976; 921]); (8081, [7977; 921]);
   (8082, [7978; 921]); (8083, [7979; 921]); (8084, [7980; 921]);
   (8085, [7981; 921]); (8086, [7982; 921]); (8087, [7983; 921]);
   (8088, [7976; 921]); (8089, [7977; 921]); (8090, [7978; 921]);
   (8091, [7979; 921]); (8092, [7980; 921]); (8093, [7981; 921]);
   (8094, [7982; 921]); (8095, [7983; 921]); (8096, [8040; 921]);
   (8097, [8041; 921]); (8098, [8042; 921]); (8099, [8043; 921]);
   (8100, [8044; 921]); (8101, [8045; 921]); (8102, [8046; 921]);
   (8103, [8047; 921]); (8104, [8040; 921]); (8105, [8041; 921]);
   (8106, [8042; 921]); (8107, [8043; 921]); (8108, [8044; 921]);
   (8109, [8045; 921]); (8110, [8046; 921]); (8111, [8047; 921]);
   (8114, [8122; 921]); (8115, [913; 921]); (8116, [902; 921]);
   (8118, [913; 834]); (8119, [913; 834; 921]); (8124, [913; 921]);
   (8130, [8138; 921]); (8131, [919; 921]); (8132, [905; 921]);
   (8134, [919; 834]); (8135, [919; 834; 921]); (8140, [919; 921]);
   (8146, [921; 776; 768]); (8147, [921; 776; 769]); (8150, [921; 834]);
   (8151, [921; 776; 834]); (8162, [933; 776; 768]); (8163, [933; 776; 769]);
   (8164, [929; 787]); (8166, [933; 834]); (8167, [933; 776; 834]);
   (8178, [8186; 921]); (8179, [937; 921]); (8180, [911; 921]);
   (8182, [937; 834]); (8183, [937; 834; 921]); (8188, [937; 921]);
   (64256, [70; 70]); (64257, [70; 73]); (64258, [70; 76]);
   (64259, [70; 70; 73]); (64260, [70; 70; 76]); (64261, [83; 84]);
   (64262, [83; 84]); (64275, [1348; 1350]); (64276, [1348; 1333]);
   (64277, [1348; 1339]); (64278, [1358; 1350]); (64279, [1348; 1341])].

(** The ranges [(first, last)] of the code points from 128 on that are not
    printable. *)
Definition not_printable : list (Z * Z) :=
  [(128, 160); (173, 173); (888, 889); (896, 899); (907, 907);
   (909, 909); (930, 930); (1328, 1328); (1367, 1368); (1419, 1420);
   (1424, 1424); (1480, 1487); (1515, 1518); (1525, 1541); (1564, 1564);
   (1757, 1757); (1806, 1807); (1867, 1868); (1970, 1983); (2043, 2044);
   (2094, 2095); (2111, 2111); (2140, 2141); (2143, 2143); (2155, 2159);
   (2191, 2199); (2274, 2274); (2436, 2436); (2445, 2446); (2449, 2450);
   (2473, 2473); (2481, 2481); (2483, 2485); (2490, 2491); (2501, 2502);
   (2505, 2506); (2511, 2518); (2520, 2523); (2526, 2526); (2532, 2533);
   (2559, 2560); (2564, 2564); (2571, 2574); (2577, 2578); (2601, 2601);
   (2609, 2609); (2612, 2612); (2615, 2615); (2618, 2619); (2621, 2621);
   (2627, 2630); (2633, 2634); (2638, 2640); (2642, 2648); (2653, 2653);
   (2655, 2661); (2679, 2688); (2692, 2692); (2702, 2702); (2706, 2706);
   (2729, 2729); (2737, 2737); (2740, 2740); (2746, 2747); (2758, 2758);
   (2762, 2762); (2766, 2767); (2769, 2783); (2788, 2789); (2802, 2808);
   (2816, 2816); (2820, 2820); (2829, 2830); (2833, 2834); (2857, 2857);
   (2865, 2865); (2868, 2868); (2874, 2875); (2885, 2886); (2889, 2890);
   (2894, 2900); (2904, 2907); (2910, 2910); (2916, 2917); (2936, 2945);
   (2948, 2948); (2955, 2957); (2961, 2961); (2966, 2968); (2971, 2971);
   (2973, 2973); (2976, 2978); (2981, 2983); (2987, 2989); (3002, 3005);
   (3011, 3013); (3017, 3017); (3022, 3023); (3025, 3030); (3032, 3045);
   (3067, 3071); (3085, 3085); (3089, 3089); (3113, 3113); (3130, 3131);
   (3141, 3141); (3145, 3145); (3150, 3156); (3159, 3159); (3163, 3164);
   (3166, 3167); (3172, 3173); (3184, 3190); (3213, 3213); (3217, 3217);
   (3241, 3241); (3252, 3252); (3258, 3259); (3269, 3269); (3273, 3273);
   (3278, 3284); (3287, 3292); (3295, 3295); (3300, 3301); (3312, 3312);
   (3315, 3327); (3341, 3341); (3345, 3345); (3397, 3397); (3401, 3401);
   (3408, 3411); (3428, 3429); (3456, 3456); (3460, 3460); (3479, 3481);
   (3506, 3506); (3516, 3516); (3518, 3519); (3527, 3529); (3531, 3534);
   (3541, 3541); (3543, 3543); (3552, 3557); (3568, 3569); (3573, 3584);
   (3643, 3646); (3676, 3712); (3715, 3715); (3717, 3717); (3723, 3723);
   (3748, 3748); (3750, 3750); (3774, 3775); (3781, 3781); (3783, 3783);
   (3790, 3791); (3802, 3803); (3808, 3839); (3912, 3912); (3949, 3952);
   (3992, 3992); (4029, 4029); (4045, 4045); (4059, 4095); (4294, 4294);
   (4296, 4300); (4302, 4303); (4681, 4681); (4686, 4687); (4695, 4695);
   (4697, 4697); (4702, 4703); (4745, 4745); (4750, 4751); (4785, 4785);
   (4790, 4791); (4799, 4799); (4801, 4801); (4806, 4807); (4823, 4823);
   (4881, 4881); (4886, 4887); (4955, 4956); (4989, 4991); (5018, 5023);
   (5110, 5111); (5118, 5119); (5760, 5760); (5789, 5791); (5881, 5887);
   (5910, 5918); (5943, 5951); (5972, 5983); (5997, 5997); (6001, 6001);
   (6004, 6015); (6110, 6111); (6122, 6127); (6138, 6143); (6158, 6158);
   (6170, 6175); (6265, 6271); (6315, 6319); (6390, 6399); (6431, 6431);
   (6444, 6447); (6460, 6463); (6465, 6467); (6510, 6511); (6517, 6527);
   (6572, 6575); (6602, 6607); (6619, 6621); (6684, 6685); (6751, 6751);
   (6781, 6782); (6794, 6799); (6810, 6815); (6830, 6831); (6863, 6911);
   (6989, 6991); (7039, 7039); (7156, 7163); (7224, 7226); (7242, 7244);
   (7305, 7311); (7355, 7356); (7368, 7375); (7419, 7423); (7958, 7959);
   (7966, 7967); (8006, 8007); (8014, 8015); (8024, 8024); (8026, 8026);
   (8028, 8028); (8030, 8030); (8062, 8063); (8117, 8117); (8133, 8133);
   (8148, 8149); (8156, 8156); (8176, 8177); (8181, 8181); (8191, 8207);
   (8232, 8239); (8287, 8303); (8306, 8307); (8335, 8335); (8349, 8351);
   (8385, 8399); (8433, 8447); (8588, 8591); (9255, 9279); (9291, 9311);
   (11124, 11125); (11158, 11158); (11508, 11512); (11558, 11558); (11560, 11564);
   (11566, 11567); (11624, 11630); (11633, 11646); (11671, 11679); (11687, 11687);
   (11695, 11695); (11703, 11703); (11711, 11711); (11719, 11719); (11727, 11727);
   (11735, 11735); (11743, 11743); (11870, 11903); (11930, 11930); (12020, 12031);
   (12246, 12271); (12284, 12288); (12352, 12352); (12439, 12440); (12544, 12548);
   (12592, 12592); (12687, 12687); (12772, 12783); (12831, 12831); (42125, 42127);
   (42183, 42191); (42540, 42559); (42744, 42751); (42955, 42959); (42962, 42962);
   (42964, 42964); (42970, 42993); (43053, 43055); (43066, 43071); (43128, 43135);
   (43206, 43213); (43226, 43231); (43348, 43358); (43389, 43391); (43470, 43470);
   (43482, 43485); (43519, 43519); (43575, 43583); (43598, 43599); (43610, 43611);
   (43715, 43738); (43767, 43776); (43783, 43784); (43791, 43792); (43799, 43807);
   (43815, 43815); (43823, 43823); (43884, 43887); (44014, 44015); (44026, 44031);
   (55204, 55215); (55239, 55242); (55292, 63743); (64110, 64111); (64218, 64255);
   (64263, 64274); (64280, 64284); (64311, 64311); (64317, 64317); (64319, 64319);
   (64322, 64322); (64325, 64325); (64451, 64466); (64912, 64913); (64968, 64974);
   (64976, 65007); (65050, 65055); (65107, 65107); (65127, 65127); (65132, 65135);
   (65141, 65141); (65277, 65280); (65471, 65473); (65480, 65481); (65488, 65489);
   (65496, 65497); (65501, 65503); (65511, 65511); (65519, 65531); (65534, 65535);
   (65548, 65548); (65575, 65575); (65595, 65595); (65598, 65598); (65614, 65615);
   (65630, 65663); (65787, 65791); (65795, 65798); (65844, 65846); (65935, 65935);
   (65949, 65951); (65953, 65999); (66046, 66175); (66205, 66207); (66257, 66271);
   (66300, 66303); (66340, 66348); (66379, 66383); (66427, 66431); (66462, 66462);
   (66500, 66503); (66518, 66559); (66718, 66719); (66730, 66735); (66772, 66775);
   (66812, 66815); (66856, 66863); (66916, 66926); (66939, 66939); (66955, 66955);
   (66963, 66963); (66966, 66966); (66978, 66978); (66994, 66994); (67002, 67002);
   (67005, 67071); (67383, 67391); (67414, 67423); (67432, 67455); (67462, 67462);
   (67505, 67505); (67515, 67583); (67590, 67591); (67593, 67593); (67638, 67638);
   (67641, 67643); (67645, 67646); (67670, 67670); (67743, 67750); (67760, 67807);
   (67827, 67827); (67830, 67834); (67868, 67870); (67898, 67902); (67904, 67967);
   (68024, 68027); (68048, 68049); (68100, 68100); (68103, 68107); (68116, 68116);
   (68120, 68120); (68150, 68151); (68155, 68158); (68169, 68175); (68185, 68191);
   (68256, 68287); (68327, 68330); (68343, 68351); (68406, 68408); (68438, 68439);
   (68467, 68471); (68498, 68504); (68509, 68520); (68528, 68607); (68681, 68735);
   (68787, 68799); (68851, 68857); (68904, 68911); (68922, 69215); (69247, 69247);
   (69290, 69290); (69294, 69295); (69298, 69375); (69416, 69423); (69466, 69487);
   (69514, 69551); (69580, 69599); (69623, 69631); (69710, 69713); (69750, 69758);
   (69821, 69821); (69827, 69839); (69865, 69871); (69882, 69887); (69941, 69941);
   (69960, 69967); (70007, 70015); (70112, 70112); (70133, 70143); (70162, 70162);
   (70207, 70271); (70279, 70279); (70281, 70281); (70286, 70286); (70302, 70302);
   (70314, 70319); (70379, 70383); (70394, 70399); (70404, 70404); (70413, 70414);
   (70417, 70418); (70441, 70441); (70449, 70449); (70452, 70452); (70458, 70458);
   (70469, 70470); (70473, 70474); (70478, 70479); (70481, 70486); (70488, 70492);
   (70500, 70501); (70509, 70511); (70517, 70655); (70748, 70748); (70754, 70783);
   (70856, 70863); (70874, 71039); (71094, 71095); (71134, 71167); (71237, 71247);
   (71258, 71263); (71277, 71295); (71354, 71359); (71370, 71423); (71451, 71452);
   (71468, 71471); (71495, 71679); (71740, 71839); (71923, 71934); (71943, 71944);
   (71946, 71947); (71956, 71956); (71959, 71959); (71990, 71990); (71993, 71994);
   (72007, 72015); (72026, 72095); (72104, 72105); (72152, 72153); (72165, 72191);
   (72264, 72271); (72355, 72367); (72441, 72703); (72713, 72713); (72759, 72759);
   (72774, 72783); (72813, 72815); (72848, 72849); (72872, 72872); (72887, 72959);
   (72967, 72967); (72970, 72970); (73015, 73017); (73019, 73019); (73022, 73022);
   (73032, 73039); (73050, 73055); (73062, 73062); (73065, 73065); (73103, 73103);
   (73106, 73106); (73113, 73119); (73130, 73439); (73465, 73647); (73649, 73663);
   (73714, 73726); (74650, 74751); (74863, 74863); (74869, 74879); (75076, 77711);
   (77811, 77823); (78895, 82943); (83527, 92159); (92729, 92735); (92767, 92767);
   (92778, 92781); (92863, 92863); (92874, 92879); (92910, 92911); (92918, 92927);
   (92998, 93007); (93018, 93018); (93026, 93026); (93048, 93052); (93072, 93759);
   (93851, 93951); (94027, 94030); (94088, 94094); (94112, 94175); (94181, 94191);
   (94194, 94207); (100344, 100351); (101590, 101631); (101641, 110575); (110580, 110580);
   (110588, 110588); (110591, 110591); (110883, 110927); (110931, 110947); (110952, 110959);
   (111356, 113663); (113771, 113775); (113789, 113791); (113801, 113807); (113818, 113819);
   (113824, 118527); (118574, 118575); (118599, 118607); (118724, 118783); (119030, 119039);
   (119079, 119080); (119155, 119162); (119275, 119295); (119366, 119519); (119540, 119551);
   (119639, 119647); (119673, 119807); (119893, 119893); (119965, 119965); (119968, 119969);
   (119971, 119972); (119975, 119976); (119981, 119981); (119994, 119994); (119996, 119996);
   (120004, 120004); (120070, 120070); (120075, 120076); (120085, 120085); (120093, 120093);
   (120122, 120122); (120127, 120127); (120133, 120133); (120135, 120137); (120145, 120145);
   (120486, 120487); (120780, 120781); (121484, 121498); (121504, 121504); (121520, 122623);
   (122655, 122879); (122887, 122887); (122905, 122906); (122914, 122914); (122917, 122917);
   (122923, 123135); (123181, 123183); (123198, 123199); (123210, 123213); (123216, 123535);
   (123567, 123583); (123642, 123646); (123648, 124895); (124903, 124903); (124908, 124908);
   (124911, 124911); (124927, 124927); (125125, 125126); (125143, 125183); (125260, 125263);
   (125274, 125277); (125280, 126064); (126133, 126208); (126270, 126463); (126468, 126468);
   (126496, 126496); (126499, 126499); (126501, 126502); (126504, 126504); (126515, 126515);
   (126520, 126520); (126522, 126522); (126524, 126529); (126531, 126534); (126536, 126536);
   (126538, 126538); (126540, 126540); (126544, 126544); (126547, 126547); (126549, 126550);
   (126552, 126552); (126554, 126554); (126556, 126556); (126558, 126558); (126560, 126560);
   (126563, 126563); (126565, 126566); (126571, 126571); (126579, 126579); (126584, 126584);
   (126589, 126589); (126591, 126591); (126602, 126602); (126620, 126624); (126628, 126628);
   (126634, 126634); (126652, 126703); (126706, 126975); (127020, 127023); (127124, 127135);
   (127151, 127152); (127168, 127168); (127184, 127184); (127222, 127231); (127406, 127461);
   (127491, 127503); (127548, 127551); (127561, 127567); (127570, 127583); (127590, 127743);
   (128728, 128732); (128749, 128751); (128765, 128767); (128884, 128895); (128985, 128991);
   (129004, 129007); (129009, 129023); (129036, 129039); (129096, 129103); (129114, 129119);
   (129160, 129167); (129198, 129199); (129202, 129279); (129620, 129631); (129646, 129647);
   (129653, 129655); (129661, 129663); (129671, 129679); (129709, 129711); (129723, 129727);
   (129734, 129743); (129754, 129759); (129768, 129775); (129783, 129791); (129939, 129939);
   (129995, 130031); (130042, 131071); (173792, 173823); (177977, 177983); (178206, 178207);
   (183970, 183983); (191457, 194559); (195102, 196607); (201547, 917759); (918000, 1114111)].

Definition in_run (c : Z) (r : Z * Z * Z * Z) : bool :=
  let '(first, last, stride, _) := r in
  (first <=? c) && (c <=? last) && ((c - first) mod stride =? 0).

(** The upper case of a code point: one code point or several. *)
Definition upper_cp (c : Z) : list Z :=
  match List.find (fun e => fst e =? c) upper_special with
  | Some (_, l) => l
  | None =>
      match List.find (in_run c) upper_runs with
      | Some (_, _, _, offset) => [c + offset]
      | None => [c]
      end
  end.

(** [str.isprintable] of a code point from 128 on. *)
Definition printable (c : Z) : bool :=
  negb (existsb (fun r => (fst r <=? c) && (c <=? snd r)) not_printable).

End Unicode.

(** ** Python values and exceptions *)

Module Py.

(** The objects [json.load] produces.  A [str] is kept as the bytes of its
    UTF-8 encoding ([Unicode]); a [dict] is an association list in insertion
    order whose first binding of a key is the live one; a [float] is an IEEE
    binary64 number ([spec_float] at precision 53, maximal exponent 1024). *)
Inductive value : Type :=
  | VNone
  | VBool (b : bool)
  | VInt (z : Z)
  | VFloat (f : spec_float)
  | VStr (s : string)
  | VList (l : list value)
  | VDict (d : list (string * value)).

Abbreviation dict := (list (string * value)).

Inductive exn : Type :=
  | KeyError (key : string)
  | TypeError
  | ValueError
  | AttributeError
  | ZeroDivisionError
  | OverflowError
  | AssertionError
  | IndexError
  | OSError.

(** The outcome of an expression: a value, or a raised exception. *)
Inductive res (A : Type) : Type :=
  | Ok (a : A)
  | Raise (e : exn).
Arguments Ok {A} a.
Arguments Raise {A} e.

Definition bind {A B} (m : res A) (k : A -> res B) : res B :=
  match m with
  | Ok a => k a
  | Raise e => Raise e
  end.

Notation "'let*' x := m 'in' k" := (bind m (fun x => k))
  (at level 10, x name, m at level 100, k at level 200).

(** [d[key]] and [d.get(key)] on a dict. *)
Fixpoint lookup_key (key : string) (d : dict) : option value :=
  match d with
  | [] => None
  | (k, v) :: d' => if String.eqb k key then Some v else lookup_key key d'
  end.

Definition dict_get (d : dict) (key : string) : value :=
  match lookup_key key d with
  | Some v => v
  | None => VNone
  end.

(** [obj[key]] with a [str] key: only a dict can be subscripted that way. *)
Definition getitem (obj : value) (key : string) : res value :=
  match obj with
  | VDict d =>
      match lookup_key key d with
      | Some v => Ok v
      | None => Raise (KeyError key)
      end
  | _ => Raise TypeError
  end.

Definition is_none (v : value) : bool :=
  match v with
  | VNone => true
  | _ => false
  end.

(** [v == s] and [v != s] for a [str] object [s]. *)
Definition eq_str (v : value) (s : string) : bool :=
  match v with
  | VStr t => String.eqb t s
  | _ => false
  end.

Definition ne_str (v : value) (s : string) : bool := negb (eq_str v s).

(** *** [str] methods and renderings *)

Definition upper_item (i : Unicode.item) : list Unicode.item :=
  match i with
  | Unicode.Cp c => List.map Unicode.Cp (Unicode.upper_cp c)
  | Unicode.Raw a => [Unicode.Raw a]
  end.

(** [s.upper()]: each character is replaced by its upper case. *)
Definition upper (s : string) : string :=
  Unicode.encode (concat (List.map upper_item (Unicode.decode s))).

(** [v.upper()]: only a [str] has the method. *)
Definition upper_method (v : value) : res value :=
  match v with
  | VStr s => Ok (VStr (upper s))
  | _ => Raise AttributeError
  end.

Fixpoint has_char (c : ascii) (s : string) : bool :=
  match s with
  | "" => false
  | String c' s' => Ascii.eqb c c' || has_char c s'
  end.

Definition squote : ascii := "039"%char.
Definition dquote : ascii := "034"%char.
Definition backslash : ascii := "092"%char.

Definition hex_digit (n : Z) : ascii :=
  if n <? 10 then Unicode.chr (48 + n) else Unicode.chr (87 + n).

(** The last [digits] hexadecimal digits of [n], in lower case. *)
Fixpoint hex (digits : nat) (n : Z) : string :=
  match digits with
  | O => ""
  | S digits' => hex digits' (n / 16) +:+ String (hex_digit (n mod 16)) ""
  end.

(** One character of a [repr]: the quote and the backslash take a
    backslash, tab, newline and carriage return their letter, a character
    that is not printable its code in hexadecimal. *)
Definition escape_char (quote : ascii) (i : Unicode.item) : string :=
  match i with
  | Unicode.Raw a => String a ""
  | Unicode.Cp c =>
      if (c =? Unicode.byte quote) || (c =? Unicode.byte backslash)
      then String backslash (String (Unicode.chr c) "")
      else if c =? 9 then String backslash "t"
      else if c =? 10 then String backslash "n"
      else if c =? 13 then String backslash "r"
      else if (c <? 32) || (c =? 127) then String backslash ("x" +:+ hex 2 c)
      else if c <? 128 then String (Unicode.chr c) ""
      else if Unicode.printable c then Unicode.encode_cp c
      else if c <? 256 then String backslash ("x" +:+ hex 2 c)
      else if c <? 65536 then String backslash ("u" +:+ hex 4 c)
      else String backslash ("U" +:+ hex 8 c)
  end.

Fixpoint escape_items (quote : ascii) (l : list Unicode.item) : string :=
  match l with
  | [] => ""
  | i :: l' => escape_char quote i +:+ escape_items quote l'
  end.

Definition escape (quote : ascii) (s : string) : string :=
  escape_items quote (Unicode.decode s).

(** [repr(s)] of a [str]: single quotes, unless the text has a single quote
    and no double quote. *)
Definition repr_str (s : string) : string :=
  let quote := if has_char squote s && negb (has_char dquote s) then dquote else squote in
  String quote (escape quote s +:+ String quote "").

Fixpoint join (sep : string) (parts : list string) : string :=
  match parts with
  | [] => ""
  | [x] => x
  | x :: rest => x +:+ sep +:+ join sep rest
  end.

Fixpoint repr (v : value) : string :=
  match v with
  | VNone => "None"
  | VBool true => "True"
  | VBool false => "False"
  | VInt z => pretty z
  | VFloat f => Num.repr_float f
  | VStr s => repr_str s
  | VList l => "[" +:+ join ", " (List.map repr l) +:+ "]"
  | VDict d =>
      "{" +:+ join ", " (List.map (fun kv => repr_str (fst kv) +:+ ": " +:+ repr (snd kv)) d) +:+ "}"
  end.

(** [str(v)]: the text itself for a [str], [repr(v)] for the other objects. *)
Definition py_str (v : value) : string :=
  match v with
  | VStr s => s
  | _ => repr v
  end.

(** *** Numbers *)

(** The operand of a float operation: [bool] is a subclass of [int], and an
    [int] too large for a float raises. *)
Definition as_int (v : value) : option Z :=
  match v with
  | VInt z => Some z
  | VBool b => Some (if b then 1 else 0)
  | _ => None
  end.

Definition float_of_int (z : Z) : res spec_float :=
  match Num.of_int z with
  | S754_infinity _ => Raise OverflowError
  | f => Ok f
  end.

Definition is_zero (f : spec_float) : bool :=
  match f with
  | S754_zero _ => true
  | _ => false
  end.

Definition float_div (a b : spec_float) : res value :=
  if is_zero b then Raise ZeroDivisionError
  else Ok (VFloat (SFdiv Num.prec Num.emax a b)).

(** [a / b], true division. *)
Definition truediv (a b : value) : res value :=
  match as_int a, as_int b, a, b with
  | Some x, Some y, _, _ =>
      if y =? 0 then Raise ZeroDivisionError
      else match Num.div_int x y with
           | S754_infinity _ => Raise OverflowError
           | f => Ok (VFloat f)
           end
  | Some x, None, _, VFloat g => let* f := float_of_int x in float_div f g
  | None, Some y, VFloat f, _ => let* g := float_of_int y in float_div f g
  | None, None, VFloat f, VFloat g => float_div f g
  | _, _, _, _ => Raise TypeError
  end.

(** The replacement field [{:3g}]: general format with the default six
    significant digits in a field at least three characters wide. *)
Definition format_3g (v : value) : res string :=
  match v with
  | VFloat f => Ok (Num.pad_left 3 (Num.repr_g 6 f))
  | VInt _ | VBool _ =>
      match as_int v with
      | Some z => let* f := float_of_int z in Ok (Num.pad_left 3 (Num.repr_g 6 f))
      | None => Raise TypeError
      end
  | VStr _ => Raise ValueError
  | _ => Raise TypeError
  end.

End Py.

(** ** Sacred run records and the helpers of [imitation.util.sacred] *)

Module Sacred.
Import Py.

(** The parsed documents of one run directory: [config.json] and [run.json]. *)
Record SacredDicts : Type := {
  sacred_dir : string;
  config : dict;
  run : dict
}.

(** [nested_key.split(".")]. *)
Fixpoint split_dot (s : string) : list string :=
  match s with
  | "" => [""]
  | String c s' =>
      if Ascii.eqb c "."%char then "" :: split_dot s'
      else match split_dot s' with
           | h :: t => String c h :: t
           | [] => [String c ""]
           end
  end.

(** Modelled from the spec: the nested-key helper [dict_get_nested] of
    [imitation.util.sacred], imported as [get].  It walks the path key by
    key and returns [None] as soon as a key is not in the current mapping;
    the only failure is a type mismatch at an intermediate object that is not
    a mapping. *)
Fixpoint resolve (curr : value) (path : list string) : res value :=
  match path with
  | [] => Ok curr
  | key :: path' =>
      match curr with
      | VDict d =>
          match lookup_key key d with
          | Some v => resolve v path'
          | None => Ok VNone
          end
      | _ => Raise TypeError
      end
  end.

Definition get (d : dict) (nested_key : string) : res value :=
  resolve (VDict d) (split_dot nested_key).

(** What [SacredDicts.load_from_dir] does at one directory: it returns the
    record, fails to parse a document, or fails in another way. *)
Inductive load_outcome : Type :=
  | Loaded (sd : SacredDicts)
  | JSONDecodeError
  | LoadError (e : exn).

(** The filesystem as the script sees it through [filter_subdirs] and
    [SacredDicts.load_from_dir]. *)
Record world : Type := {
  filter_subdirs : string -> list string;
  load_from_dir : string -> load_outcome
}.

End Sacred.

(** ** Paths: [str.rstrip] and [os.path] on POSIX

    The separator is the ASCII slash, so the functions act on the bytes of a
    path as they act on its characters. *)

Module Path.

Definition is_sep (c : ascii) : bool := Ascii.eqb c "/"%char.

(** [s.rstrip("/")]: the text without its trailing slashes. *)
Fixpoint rstrip_sep (s : string) : string :=
  match s with
  | "" => ""
  | String c s' =>
      match rstrip_sep s' with
      | "" => if is_sep c then "" else String c ""
      | rest => String c rest
      end
  end.

(** The text cut after its last slash: [(p[:i], p[i:])] for
    [i = p.rfind("/") + 1]. *)
Fixpoint rsplit_sep (p : string) : string * string :=
  match p with
  | "" => ("", "")
  | String c p' =>
      let '(head, tail) := rsplit_sep p' in
      match head with
      | "" => if is_sep c then (String c "", tail) else ("", String c tail)
      | _ => (String c head, tail)
      end
  end.

Fixpoint all_sep (s : string) : bool :=
  match s with
  | "" => true
  | String c s' => is_sep c && all_sep s'
  end.

(** [os.path.dirname(p)]: the head, without its trailing slashes unless it
    is made of slashes only. *)
Definition dirname (p : string) : string :=
  let head := fst (rsplit_sep p) in
  if negb (String.eqb head "") && negb (all_sep head) then rstrip_sep head
  else head.

(** [os.path.basename(p)]. *)
Definition basename (p : string) : string := snd (rsplit_sep p).

Definition starts_with_sep (s : string) : bool :=
  match s with
  | String c _ => is_sep c
  | "" => false
  end.

Fixpoint ends_with_sep (s : string) : bool :=
  match s with
  | "" => false
  | String c "" => is_sep c
  | String _ s' => ends_with_sep s'
  end.

(** [os.path.join(a, b)]. *)
Definition join (a b : string) : string :=
  if starts_with_sep b then b
  else if String.eqb a "" || ends_with_sep a then a +:+ b
  else a +:+ "/" +:+ b.

End Path.

(** ** [imitation.scripts.analyze] *)

Module Analyze.
Import Py Sacred.

(** *** Gathering and filtering *)

(** The loop over [sacred_dirs]: a record is appended, a [JSONDecodeError]
    is turned into a [RuntimeWarning], any other exception propagates.  The
    warnings issued so far are threaded along with the list. *)
Fixpoint load_loop (w : world) (sacred_dirs : list string)
    (sacred_dicts : list SacredDicts) (warned : list string)
    : list string * res (list SacredDicts) :=
  match sacred_dirs with
  | [] => (warned, Ok sacred_dicts)
  | sacred_dir :: rest =>
      match load_from_dir w sacred_dir with
      | Loaded sd => load_loop w rest (sacred_dicts ++ [sd]) warned
      | JSONDecodeError =>
          load_loop w rest sacred_dicts
            (warned ++ ["Invalid JSON file in " +:+ sacred_dir])
      | LoadError e => (warned, Raise e)
      end
  end.

Definition pred : Type := SacredDicts -> res bool.

Definition run_name_pred (run_name : string) : pred :=
  fun sd => let* v := get (run sd) "experiment.name" in Ok (eq_str v run_name).

Definition env_name_pred (env_name : string) : pred :=
  fun sd => let* v := get (config sd) "env_name" in Ok (eq_str v env_name).

Definition not_failed_pred : pred :=
  fun sd => let* v := get (run sd) "status" in Ok (ne_str v "FAILED").

(** The [filter] objects wrapped around [sacred_dicts] by the three [if]
    statements, innermost first. *)
Definition filter_stages (run_name env_name : option string)
    (skip_failed_runs : bool) : list pred :=
  match run_name with Some rn => [run_name_pred rn] | None => [] end
  ++ match env_name with Some en => [env_name_pred en] | None => [] end
  ++ (if skip_failed_runs then [not_failed_pred] else []).

(** One record pulled through the chain of lazy filters: it reaches a stage
    only if every stage before kept it. *)
Fixpoint passes (stages : list pred) (sd : SacredDicts) : res bool :=
  match stages with
  | [] => Ok true
  | p :: stages' =>
      let* b := p sd in
      if b then passes stages' sd else Ok false
  end.

(** [list(sacred_dicts)]: the records are pulled in order. *)
Fixpoint list_of (stages : list pred) (sds : list SacredDicts)
    : res (list SacredDicts) :=
  match sds with
  | [] => Ok []
  | sd :: sds' =>
      let* b := passes stages sd in
      let* rest := list_of stages sds' in
      Ok (if b then sd :: rest else rest)
  end.

(** The arguments Sacred captures for [_gather_sacred_dicts]. *)
Record gather_args : Type := {
  source_dirs : list string;
  run_name : option string;
  env_name : option string;
  skip_failed_runs : bool
}.

Definition _gather_sacred_dicts (w : world) (a : gather_args)
    : list string * res (list SacredDicts) :=
  let sacred_dirs := concat (List.map (filter_subdirs w) (source_dirs a)) in
  let '(warned, loaded) := load_loop w sacred_dirs [] [] in
  (warned,
   let* sacred_dicts := loaded in
   list_of (filter_stages (run_name a) (env_name a) (skip_failed_runs a))
     sacred_dicts).

(** *** Derived columns *)

Definition _get_exp_command (sd : SacredDicts) : string :=
  py_str (dict_get (run sd) "command").

Definition _get_algo_name (sd : SacredDicts) : res value :=
  let exp_command := _get_exp_command sd in
  if String.eqb exp_command "train_adversarial" then
    let* algo := get (config sd) "algorithm" in
    if negb (is_none algo) then upper_method algo else Ok algo
  else if String.eqb exp_command "train_bc" then Ok (VStr "BC")
  else if String.eqb exp_command "train_dagger" then Ok (VStr "DAgger")
  else Ok (VStr ("??exp_command=" +:+ exp_command)).

Definition _make_return_summary (stats : value) (prefix : string) : res string :=
  let* mean := getitem stats (prefix +:+ "return_mean") in
  let* std := getitem stats (prefix +:+ "return_std") in
  let* n := getitem stats "n_traj" in
  let* mean_s := format_3g mean in
  let* std_s := format_3g std in
  Ok (mean_s +:+ " ± " +:+ std_s +:+ " (n=" +:+ py_str n +:+ ")").

(** The dict that [_return_summaries] returns. *)
Record summaries : Type := {
  expert_stats : value;
  imit_stats : value;
  expert_return_summary : value;
  imit_return_summary : value;
  imit_expert_ratio : value
}.

Definition _return_summaries (sd : SacredDicts) : res summaries :=
  let* imit := get (run sd) "result.imit_stats" in
  let* expert := get (run sd) "result.expert_stats" in
  let* expert_summary :=
    if negb (is_none expert)
    then let* s := _make_return_summary expert "" in Ok (VStr s)
    else Ok VNone in
  let* imit_summary :=
    if negb (is_none imit)
    then let* s := _make_return_summary imit "monitor_" in Ok (VStr s)
    else Ok VNone in
  let* ratio :=
    if negb (is_none imit) && negb (is_none expert)
    then let* a := getitem imit "monitor_return_mean" in
         let* b := getitem expert "return_mean" in
         truediv a b
    else Ok VNone in
  Ok {| expert_stats := expert;
        imit_stats := imit;
        expert_return_summary := expert_summary;
        imit_return_summary := imit_summary;
        imit_expert_ratio := ratio |}.

(** *** The column registry and the verbosity tiers *)

Definition entry_fn : Type := SacredDicts -> res value.

(** An [OrderedDict] with [str] keys: the items in insertion order. *)
Abbreviation odict A := (list (string * A)).

Definition od_keys {A} (od : odict A) : list string := List.map fst od.

(** [od[k] = v]: a key already there keeps its place, a new one goes last. *)
Definition od_set {A} (k : string) (v : A) (od : odict A) : odict A :=
  if existsb (String.eqb k) (od_keys od)
  then List.map (fun kv => if String.eqb (fst kv) k then (k, v) else kv) od
  else od ++ [(k, v)].

Definition table_entry_fns : odict entry_fn :=
  [ ("status", fun sd => get (run sd) "status");
    ("exp_command", fun sd => Ok (VStr (_get_exp_command sd)));
    ("algo", _get_algo_name);
    ("env_name", fun sd => get (config sd) "env_name");
    ("n_expert_demos", fun sd => get (config sd) "n_expert_demos");
    ("run_name", fun sd => get (run sd) "experiment.name");
    ("expert_return_summary",
      fun sd => let* r := _return_summaries sd in Ok (expert_return_summary r));
    ("imit_return_summary",
      fun sd => let* r := _return_summaries sd in Ok (imit_return_summary r));
    ("imit_expert_ratio",
      fun sd => let* r := _return_summaries sd in Ok (imit_expert_ratio r)) ].

(** [l[-1]] of a list of sets. *)
Definition last_set (l : list (gset string)) : gset string :=
  default ∅ (last l).

Definition verbosity_0 : gset string :=
  {[ "algo"; "env_name"; "expert_return_summary"; "imit_return_summary" ]}.

(** The module-level list after its three [append] calls. *)
Definition table_verbosity_mapping : list (gset string) :=
  let m0 := [] ++ [verbosity_0] in
  let m1 := m0 ++ [last_set m0 ∪ {[ "n_expert_demos" ]}] in
  m1 ++ [last_set m1 ∪ {[ "status"; "imit_expert_ratio"; "exp_command"; "run_name" ]}].

(** The loop over [table_entry_fns.items()] that fills [result]. *)
Fixpoint subset_loop (keys_subset : gset string) (items : odict entry_fn)
    (result : odict entry_fn) : odict entry_fn :=
  match items with
  | [] => result
  | (k, v) :: items' =>
      if decide (k ∈ keys_subset)
      then subset_loop keys_subset items' (od_set k v result)
      else subset_loop keys_subset items' result
  end.

Definition _get_table_entry_fns_subset (table_verbosity : Z)
    : res (odict entry_fn) :=
  if negb (0 <=? table_verbosity) then Raise AssertionError
  else if Z.of_nat (length table_verbosity_mapping) <=? table_verbosity
  then Ok table_entry_fns
  else
    match table_verbosity_mapping !! Z.to_nat table_verbosity with
    | Some keys_subset => Ok (subset_loop keys_subset table_entry_fns [])
    | None => Raise IndexError
    end.

(** *** Building the table *)

Abbreviation row := (odict value).

(** The inner loop: one cell per selected column. *)
Fixpoint row_loop (items : odict entry_fn) (sd : SacredDicts) (r : row)
    : res row :=
  match items with
  | [] => Ok r
  | (col_name, make_entry_fn) :: items' =>
      let* cell := make_entry_fn sd in
      row_loop items' sd (od_set col_name cell r)
  end.

(** The outer loop: one row per gathered record, appended to [rows]. *)
Fixpoint rows_loop (subset : odict entry_fn) (sds : list SacredDicts)
    (rows : list row) : res (list row) :=
  match sds with
  | [] => Ok rows
  | sd :: sds' =>
      let* r := row_loop subset sd [] in
      rows_loop subset sds' (rows ++ [r])
  end.

(** The cell of a row in a column of the frame; a row without the column
    holds a missing value there. *)
Definition cell (col : string) (r : row) : value :=
  match lookup_key col r with
  | Some v => v
  | None => VNone
  end.

Definition sort_key (by_cols : list string) (r : row) : list value :=
  List.map (fun col => cell col r) by_cols.

(** [DataFrame.sort_values] is taken from pandas.  With several [by]
    columns it factorizes each of them, which raises [TypeError] on a cell
    that cannot be hashed (a list or a dict), and then orders the rows by the
    cells of the [by] columns, the first column first, rows with equal cells
    staying in their order.  [cell_le] is the order pandas has on the cells
    of a column; columns whose cells pandas cannot order against each other
    are outside this model. *)
Section SortValues.
Variable cell_le : value -> value -> bool.

(** Lexicographic order of two sort keys. *)
Fixpoint key_le (k1 k2 : list value) : bool :=
  match k1, k2 with
  | a :: k1', b :: k2' =>
      if cell_le a b then (if cell_le b a then key_le k1' k2' else true)
      else false
  | _, _ => true
  end.

Definition row_le (by_cols : list string) : relation row :=
  fun r1 r2 => key_le (sort_key by_cols r1) (sort_key by_cols r2) = true.

#[export] Instance row_le_dec by_cols : RelDecision (row_le by_cols).
Proof. intros r1 r2. unfold row_le. apply _. Defined.

(** A [by] column that the frame does not have is a [KeyError]. *)
Fixpoint missing_column (by_cols columns : list string) : option string :=
  match by_cols with
  | [] => None
  | c :: by_cols' =>
      if existsb (String.eqb c) columns then missing_column by_cols' columns
      else Some c
  end.

(** A cell that can be hashed: anything but a list or a dict. *)
Definition hashable (v : value) : bool :=
  match v with
  | VList _ | VDict _ => false
  | _ => true
  end.

(** A row put into an ordered list of rows, before the first row that is
    not below it. *)
Fixpoint insert_row (by_cols : list string) (r : row) (sorted : list row)
    : list row :=
  match sorted with
  | [] => [r]
  | x :: rest =>
      if key_le (sort_key by_cols r) (sort_key by_cols x) then r :: sorted
      else x :: insert_row by_cols r rest
  end.

(** The rows in the order of their keys, rows with equal keys in the order
    they had. *)
Definition stable_sort (by_cols : list string) (df : list row) : list row :=
  List.fold_right (insert_row by_cols) [] df.

Definition sort_values (by_cols : list string) (df : list row)
    : res (list row) :=
  let columns := match df with r :: _ => od_keys r | [] => [] end in
  match missing_column by_cols columns with
  | Some c => Raise (KeyError c)
  | None =>
      if forallb (fun r => forallb hashable (sort_key by_cols r)) df
      then Ok (stable_sort by_cols df)
      else Raise TypeError
  end.

(** [analyze_imitation] called without output paths and with [print_table]
    false, so that nothing is written or printed after the sort: the frame
    that it builds, sorts and returns, as the list of its rows, with the
    warnings that gathering issued.  The frame is represented by the rows as
    they were built: the conversion that pandas applies to the cells of a
    column (a missing value or an integer in a column of numbers) is not
    represented. *)
Definition analyze_imitation (w : world) (a : gather_args)
    (table_verbosity : Z) : list string * res (list row) :=
  match _get_table_entry_fns_subset table_verbosity with
  | Raise e => ([], Raise e)
  | Ok table_entry_fns_subset =>
      let '(warned, gathered) := _gather_sacred_dicts w a in
      (warned,
       let* sds := gathered in
       let* rows := rows_loop table_entry_fns_subset sds [] in
       if (0 <? Z.of_nat (length rows))
       then sort_values ["algo"; "env_name"] rows
       else Ok rows)
  end.
End SortValues.

(** *** Gathering the TensorBoard directories *)

(** The operating system as [gather_tb_directories] calls it, over a state
    [fs] of the filesystem: [os.makedirs(path, exist_ok=True)],
    [tempfile.mkdtemp(dir=path)], [os.symlink(src, dst)] and the search
    [filter_subdirs(parent_dir, filter_fn)] of [imitation.util.sacred].
    Each call may raise. *)
Record os_api (fs : Type) : Type := {
  makedirs : string -> fs -> res fs;
  mkdtemp : string -> fs -> res (string * fs);
  symlink : string -> string -> fs -> res fs;
  filter_subdirs_by : string -> (string -> bool) -> fs -> res (list string)
}.
Arguments makedirs {fs} _ _ _.
Arguments mkdtemp {fs} _ _ _.
Arguments symlink {fs} _ _ _.
Arguments filter_subdirs_by {fs} _ _ _ _.

(** The state of the loops: the filesystem, the counter [tb_dirs_count],
    and a record of the symbolic links made so far, as the pairs of source
    and link path of the completed [os.symlink] calls. *)
Record tb_state (fs : Type) : Type := {
  tb_fs : fs;
  tb_links : list (string * string);
  tb_dirs_count : Z
}.
Arguments tb_fs {fs} _.
Arguments tb_links {fs} _.
Arguments tb_dirs_count {fs} _.

(** The dict that [gather_tb_directories] returns. *)
Record tb_result : Type := {
  n_tb_dirs : Z;
  gather_dir : string
}.

(** The run directory and the run name of a record: two levels above its
    Sacred directory, trailing slashes apart. *)
Definition tb_run_dir (sd : SacredDicts) : string :=
  let sacred_dir := Path.rstrip_sep (Sacred.sacred_dir sd) in
  Path.dirname (Path.dirname sacred_dir).

Definition tb_run_name (sd : SacredDicts) : string :=
  Path.basename (tb_run_dir sd).

Definition has_basename (basename : string) : string -> bool :=
  fun path => String.eqb (Path.basename path) basename.

(** The loop over the three kinds of TensorBoard directory of one run. *)
Fixpoint basename_loop {fs} (os : os_api fs) (tmp_dir run_dir run_name : string)
    (basenames : list string) (st : tb_state fs) : res (tb_state fs) :=
  match basenames with
  | [] => Ok st
  | basename :: rest =>
      let* tb_src_dirs :=
        filter_subdirs_by os run_dir (has_basename basename) (tb_fs st) in
      match tb_src_dirs with
      | [] => basename_loop os tmp_dir run_dir run_name rest st
      | tb_src_dir :: _ =>
          if negb (Nat.eqb (length tb_src_dirs) 1) then Raise AssertionError
          else
            let symlinks_dir := Path.join tmp_dir basename in
            let* fs1 := makedirs os symlinks_dir (tb_fs st) in
            let tb_symlink := Path.join symlinks_dir run_name in
            let* fs2 := symlink os tb_src_dir tb_symlink fs1 in
            basename_loop os tmp_dir run_dir run_name rest
              {| tb_fs := fs2;
                 tb_links := tb_links st ++ [(tb_src_dir, tb_symlink)];
                 tb_dirs_count := tb_dirs_count st + 1 |}
      end
  end.

Definition tb_basenames : list string := ["rl"; "tb"; "sb_tb"].

(** The loop over the gathered records. *)
Fixpoint tb_loop {fs} (os : os_api fs) (tmp_dir : string)
    (sds : list SacredDicts) (st : tb_state fs) : res (tb_state fs) :=
  match sds with
  | [] => Ok st
  | sd :: sds' =>
      let* st' :=
        basename_loop os tmp_dir (tb_run_dir sd) (tb_run_name sd)
          tb_basenames st in
      tb_loop os tmp_dir sds' st'
  end.

(** [gather_tb_directories], from the filesystem state [fs0]: the warnings
    of gathering, and the returned dict with the final state.  The two
    [logging.info] messages before the return are left out. *)
Definition gather_tb_directories {fs} (os : os_api fs) (w : world)
    (a : gather_args) (fs0 : fs)
    : list string * res (tb_result * tb_state fs) :=
  match makedirs os "/tmp/analysis_tb" fs0 with
  | Raise e => ([], Raise e)
  | Ok fs1 =>
      match mkdtemp os "/tmp/analysis_tb/" fs1 with
      | Raise e => ([], Raise e)
      | Ok (tmp_dir, fs2) =>
          let '(warned, gathered) := _gather_sacred_dicts w a in
          (warned,
           let* sds := gathered in
           let* st :=
             tb_loop os tmp_dir sds
               {| tb_fs := fs2; tb_links := []; tb_dirs_count := 0 |} in
           Ok ({| n_tb_dirs := tb_dirs_count st; gather_dir := tmp_dir |}, st))
      end
  end.

End Analyze.

(** * Vocabulary of the properties *)

Import Py Sacred Analyze.

(** [s] occurs in [t]. *)
Definition occurs_in (s t : string) : Prop :=
  exists before after, t = before +:+ s +:+ after.

(** A value that the [g] format accepts: a float, or an [int] or [bool] in
    the range of a float. *)
Definition numeric (v : value) : bool :=
  match format_3g v with
  | Ok _ => true
  | Raise _ => false
  end.

(** A stats sub-document as the script expects it: a mapping with numeric
    mean and std under the prefixed keys and an [n_traj] entry. *)
Definition well_formed_stats (prefix : string) (stats : value) : bool :=
  match stats with
  | VDict d =>
      match lookup_key (prefix +:+ "return_mean") d,
            lookup_key (prefix +:+ "return_std") d,
            lookup_key "n_traj" d with
      | Some mean, Some std, Some _ => numeric mean && numeric std
      | _, _, _ => false
      end
  | _ => false
  end.

Definition absent_or_well_formed (prefix : string) (stats : value) : bool :=
  is_none stats || well_formed_stats prefix stats.

(** The records of the directories that load, and the directories whose
    documents do not parse, both in scan order. *)
Fixpoint parsed (w : world) (dirs : list string) : list SacredDicts :=
  match dirs with
  | [] => []
  | d :: dirs' =>
      match load_from_dir w d with
      | Loaded sd => sd :: parsed w dirs'
      | _ => parsed w dirs'
      end
  end.

Fixpoint malformed (w : world) (dirs : list string) : list string :=
  match dirs with
  | [] => []
  | d :: dirs' =>
      match load_from_dir w d with
      | JSONDecodeError => d :: malformed w dirs'
      | _ => malformed w dirs'
      end
  end.

Definition invalid_json (d : string) : string := "Invalid JSON file in " +:+ d.

(** Every directory of the scan loads or fails to parse. *)
Definition loads_or_malformed (w : world) (dirs : list string) : Prop :=
  forall d e, In d dirs -> load_from_dir w d <> LoadError e.

(** The field at [path] is missing from the document: a key on the way is
    not in its mapping. *)
Fixpoint field_missing (d : dict) (path : list string) : bool :=
  match path with
  | [] => false
  | key :: path' =>
      match lookup_key key d with
      | None => true
      | Some (VDict d') => field_missing d' path'
      | Some _ => false
      end
  end.

Definition selected_names (table_verbosity : Z) : res (list string) :=
  let* subset := _get_table_entry_fns_subset table_verbosity in
  Ok (od_keys subset).

(** A decidable inclusion of lists of names. *)
Definition all_among (l1 l2 : list string) : bool :=
  forallb (fun x => existsb (String.eqb x) l2) l1.

Definition total_order (cell_le : value -> value -> bool) : Prop :=
  forall a b, cell_le a b = true \/ cell_le b a = true.

Definition transitive_order (cell_le : value -> value -> bool) : Prop :=
  forall a b c, cell_le a b = true -> cell_le b c = true -> cell_le a c = true.

(** The list [rows] of [analyze_imitation] when its loop over the gathered
    records is done, before a frame is made of it. *)
Definition built_rows (w : world) (a : gather_args) (table_verbosity : Z)
    : res (list row) :=
  let* subset := _get_table_entry_fns_subset table_verbosity in
  let* sds := snd (_gather_sacred_dicts w a) in
  rows_loop subset sds [].

(** An order of cells that holds text: by code points, with the missing
    value after every text. *)
Definition text_cell_le (a b : value) : bool :=
  match a, b with
  | VStr s, VStr t => String.leb s t
  | _, VNone => true
  | VNone, _ => false
  | _, _ => true
  end.

(** * Example records *)

Definition sd_bc : SacredDicts :=
  {| sacred_dir := "output/sacred/train_bc/1";
     config := [("algorithm", VStr "gail"); ("env_name", VStr "CartPole-v1")];
     run := [("command", VStr "train_bc"); ("status", VStr "COMPLETED")] |}.

(** Adversarial runs: one whose [algorithm] is a text outside ASCII, one
    whose [algorithm] is a number. *)
Definition sd_gail_diaeresis : SacredDicts :=
  {| sacred_dir := "output/sacred/train_adversarial/5";
     config := [("algorithm", VStr "gaïl"); ("env_name", VStr "CartPole-v1")];
     run := [("command", VStr "train_adversarial");
             ("status", VStr "COMPLETED")] |}.

Definition sd_algorithm_number : SacredDicts :=
  {| sacred_dir := "output/sacred/train_adversarial/6";
     config := [("algorithm", VInt 5); ("env_name", VStr "CartPole-v1")];
     run := [("command", VStr "train_adversarial");
             ("status", VStr "COMPLETED")] |}.

(** A run of a command that the script does not know. *)
Definition sd_train_rl : SacredDicts :=
  {| sacred_dir := "output/sacred/train_rl/2";
     config := [("algorithm", VStr "gail")];
     run := [("command", VStr "train_rl")] |}.

Definition sd_no_command : SacredDicts :=
  {| sacred_dir := "output/sacred/unknown/7";
     config := [("env_name", VStr "CartPole-v1")];
     run := [("status", VStr "COMPLETED")] |}.

(** The floats that the literals [5.123456], [0.987654] and [0.7] denote. *)
Definition float_5_123456 : spec_float := S754_finite false 5768498633112283 (-50).
Definition float_0_987654 : spec_float := S754_finite false 8895996372741960 (-53).
Definition float_0_7 : spec_float := S754_finite false 6305039478318694 (-53).

Definition stats_example : dict :=
  [("return_mean", VFloat float_5_123456);
   ("return_std", VFloat float_0_987654);
   ("n_traj", VInt 10)].

Definition expert_10 : value :=
  VDict [("return_mean", VInt 10); ("return_std", VFloat float_0_987654);
         ("n_traj", VInt 5)].

Definition imit_7 : value :=
  VDict [("monitor_return_mean", VInt 7);
         ("monitor_return_std", VFloat float_0_987654); ("n_traj", VInt 5)].

Definition sd_seven_of_ten : SacredDicts :=
  {| sacred_dir := "output/sacred/train_adversarial/3";
     config := [("algorithm", VStr "gail")];
     run := [("command", VStr "train_adversarial");
             ("result", VDict [("imit_stats", imit_7);
                               ("expert_stats", expert_10)])] |}.

Definition sd_expert_only : SacredDicts :=
  {| sacred_dir := "output/sacred/train_adversarial/4";
     config := [];
     run := [("result", VDict [("expert_stats", expert_10)])] |}.

(** A record whose imitation sub-document is present but empty, and a record
    whose expert mean is zero. *)
Definition sd_imit_empty : SacredDicts :=
  {| sacred_dir := "output/sacred/train_adversarial/5";
     config := [];
     run := [("result", VDict [("imit_stats", VDict [])])] |}.

Definition expert_0 : value :=
  VDict [("return_mean", VInt 0); ("return_std", VInt 0); ("n_traj", VInt 5)].

Definition sd_expert_zero : SacredDicts :=
  {| sacred_dir := "output/sacred/train_adversarial/6";
     config := [];
     run := [("result", VDict [("imit_stats", imit_7);
                               ("expert_stats", expert_0)])] |}.

(** Three run directories: the first does not parse, the second failed, the
    third completed. *)
Definition sd_failed : SacredDicts :=
  {| sacred_dir := "runs/b";
     config := [("env_name", VStr "CartPole-v1")];
     run := [("command", VStr "train_bc"); ("status", VStr "FAILED")] |}.

Definition sd_completed : SacredDicts :=
  {| sacred_dir := "runs/c";
     config := [("env_name", VStr "CartPole-v1")];
     run := [("command", VStr "train_bc"); ("status", VStr "COMPLETED")] |}.

Definition three_runs : world :=
  {| filter_subdirs := fun root =>
       if String.eqb root "runs" then ["runs/a"; "runs/b"; "runs/c"] else [];
     load_from_dir := fun d =>
       if String.eqb d "runs/b" then Loaded sd_failed
       else if String.eqb d "runs/c" then Loaded sd_completed
       else JSONDecodeError |}.

Definition skip_failed_args : gather_args :=
  {| source_dirs := ["runs"]; run_name := None; env_name := None;
     skip_failed_runs := true |}.

(** A record with neither names nor status in its documents. *)
Definition sd_bare : SacredDicts :=
  {| sacred_dir := "runs/bare";
     config := [("n_expert_demos", VInt 10)];
     run := [("command", VStr "train_bc"); ("experiment", VDict [])] |}.

Definition cartpole_failed_filter : list SacredDicts -> res (list SacredDicts) :=
  list_of (filter_stages None (Some "CartPole-v1") true).

Definition sd_dagger_hopper : SacredDicts :=
  {| sacred_dir := "runs/1";
     config := [("env_name", VStr "Hopper-v2")];
     run := [("command", VStr "train_dagger")] |}.

Definition sd_bc_walker : SacredDicts :=
  {| sacred_dir := "runs/2";
     config := [("env_name", VStr "Walker2d-v2")];
     run := [("command", VStr "train_bc")] |}.

Definition sd_bc_ant : SacredDicts :=
  {| sacred_dir := "runs/3";
     config := [("env_name", VStr "Ant-v2")];
     run := [("command", VStr "train_bc")] |}.

Definition unsorted_runs : world :=
  {| filter_subdirs := fun _ => ["runs/1"; "runs/2"; "runs/3"];
     load_from_dir := fun d =>
       if String.eqb d "runs/1" then Loaded sd_dagger_hopper
       else if String.eqb d "runs/2" then Loaded sd_bc_walker
       else Loaded sd_bc_ant |}.

Definition all_runs_args : gather_args :=
  {| source_dirs := ["runs"]; run_name := None; env_name := None;
     skip_failed_runs := false |}.

Definition summary_row (algo env : string) : row :=
  [("algo", VStr algo); ("env_name", VStr env);
   ("expert_return_summary", VNone); ("imit_return_summary", VNone)].

Definition sorted_table : list row :=
  [summary_row "BC" "Ant-v2"; summary_row "BC" "Walker2d-v2";
   summary_row "DAgger" "Hopper-v2"].

(** * Vocabulary of the further properties *)

(** The same captured arguments with other source directories. *)
Definition with_source_dirs (a : gather_args) (dirs : list string) : gather_args :=
  {| source_dirs := dirs;
     run_name := run_name a;
     env_name := env_name a;
     skip_failed_runs := skip_failed_runs a |}.

(** The directories that a gathering call scans, in scan order. *)
Definition scanned (w : world) (a : gather_args) : list string :=
  concat (List.map (filter_subdirs w) (source_dirs a)).

(** What the enabled filters ask of a record, in terms of what the nested
    lookups give: the run name and the environment name are the requested
    texts, and the status is not the text ["FAILED"]. *)
Definition kept_by (rn en : option string) (skip : bool) (sd : SacredDicts) : Prop :=
  (forall r, rn = Some r -> get (run sd) "experiment.name" = Ok (VStr r)) /\
  (forall e, en = Some e -> get (config sd) "env_name" = Ok (VStr e)) /\
  (skip = true -> get (run sd) "status" <> Ok (VStr "FAILED")).


(** The items of the registry whose name is in a set of names. *)
Definition by_keys (keys : gset string) (kv : string * entry_fn) : bool :=
  bool_decide (fst kv ∈ keys).

(** The row of a record under a selection of columns: it has the selected
    column names in their order, and each cell is what the column's entry
    function returns for the record. *)
Definition row_of (subset : odict entry_fn) (sd : SacredDicts) (r : row) : Prop :=
  od_keys r = od_keys subset /\
  forall k f, In (k, f) subset -> f sd = Ok (cell k r).

(** A text without a slash, and a path segment: a text without a slash
    that is not empty. *)
Fixpoint slash_free (s : string) : bool :=
  match s with
  | "" => true
  | String c s' => negb (Path.is_sep c) && slash_free s'
  end.

Definition segment (s : string) : Prop := s <> "" /\ slash_free s = true.

(** The link that [gather_tb_directories] makes for a kind of directory
    and a record. *)
Definition tb_link_path (tmp_dir kind : string) (sd : SacredDicts) : string :=
  Path.join (Path.join tmp_dir kind) (tb_run_name sd).

(** What is known of a link that [gather_tb_directories] made: it is for a
    gathered record and one of the three kinds, at the link path of that
    kind and record, and its source is the only directory that the search
    under the record's run directory found for the kind. *)
Definition link_of {fs} (os : os_api fs) (tmp_dir : string)
    (sds : list SacredDicts) (link : string * string) : Prop :=
  exists sd kind state,
    In sd sds /\ In kind tb_basenames /\
    snd link = tb_link_path tmp_dir kind sd /\
    filter_subdirs_by os (tb_run_dir sd) (has_basename kind) state
    = Ok [fst link].

(** The searches of [gather_tb_directories] for a list of records find no
    directory. *)
Definition nothing_found {fs} (os : os_api fs) (sds : list SacredDicts) : Prop :=
  forall sd kind state,
    In sd sds -> In kind tb_basenames ->
    filter_subdirs_by os (tb_run_dir sd) (has_basename kind) state = Ok [].

(** A float or a boolean: the numbers that always fit a float. *)
Definition float_or_bool (v : value) : bool :=
  match v with
  | VFloat _ | VBool _ => true
  | _ => false
  end.

(** * Further example records *)

(** The rows of [unsorted_runs] at verbosity 0, as they are built. *)
Definition unsorted_table : list row :=
  [summary_row "DAgger" "Hopper-v2"; summary_row "BC" "Walker2d-v2";
   summary_row "BC" "Ant-v2"].

(** Three run directories: the first does not parse, the second cannot be
    read, the third loads. *)
Definition runs_with_gone : world :=
  {| filter_subdirs := fun _ => ["runs/a"; "runs/gone"; "runs/c"];
     load_from_dir := fun d =>
       if String.eqb d "runs/a" then JSONDecodeError
       else if String.eqb d "runs/gone" then LoadError OSError
       else Loaded sd_completed |}.

(** A scan that finds a completed run and a run whose imitation
    sub-document is empty, and a scan that finds only a directory that does
    not parse. *)
Definition runs_with_bad_stats : world :=
  {| filter_subdirs := fun _ => ["runs/c"; "runs/5"];
     load_from_dir := fun d =>
       if String.eqb d "runs/c" then Loaded sd_completed
       else Loaded sd_imit_empty |}.

Definition only_malformed : world :=
  {| filter_subdirs := fun _ => ["runs/a"];
     load_from_dir := fun _ => JSONDecodeError |}.

(** An imitation sub-document that carries its fields under the names of
    an expert sub-document, and a record that holds it. *)
Definition imit_unprefixed : dict :=
  [("return_mean", VInt 7); ("return_std", VInt 1); ("n_traj", VInt 5);
   ("monitor_n_traj", VInt 5)].

Definition sd_imit_unprefixed : SacredDicts :=
  {| sacred_dir := "runs/8";
     config := [];
     run := [("result", VDict [("imit_stats", VDict imit_unprefixed);
                               ("expert_stats", expert_10)])] |}.

(** A small filesystem: the state is the list of the paths made so far, a
    link cannot be made where a path exists, and the searches look through a
    fixed tree of TensorBoard directories. *)
Definition tb_tree : list string :=
  ["exp/run1/rl"; "exp/run1/tb"; "exp/run2/tb"; "exp/run2/old/tb"].

Definition listed_os : os_api (list string) :=
  {| makedirs := fun path made =>
       Ok (if existsb (String.eqb path) made then made else made ++ [path]);
     mkdtemp := fun dir made => Ok (dir +:+ "tmp0", made ++ [dir +:+ "tmp0"]);
     symlink := fun src dst made =>
       if existsb (String.eqb dst) made then Raise OSError
       else Ok (made ++ [dst]);
     filter_subdirs_by := fun parent filter_fn made =>
       Ok (List.filter (fun p => String.prefix parent p && filter_fn p) tb_tree) |}.

Definition sd_run1 : SacredDicts :=
  {| sacred_dir := "exp/run1/sacred/1//"; config := []; run := [] |}.

Definition sd_run2 : SacredDicts :=
  {| sacred_dir := "exp/run2/sacred/1"; config := []; run := [] |}.

Definition sd_run3 : SacredDicts :=
  {| sacred_dir := "exp/run3/sacred/1"; config := []; run := [] |}.

Definition tb_world (sds : list SacredDicts) : world :=
  {| filter_subdirs := fun _ => List.map sacred_dir sds;
     load_from_dir := fun d =>
       match List.find (fun sd => String.eqb (sacred_dir sd) d) sds with
       | Some sd => Loaded sd
       | None => JSONDecodeError
       end |}.

Definition linked_run1 : tb_result * tb_state (list string) :=
  ({| n_tb_dirs := 2; gather_dir := "/tmp/analysis_tb/tmp0" |},
   {| tb_fs := ["/tmp/analysis_tb"; "/tmp/analysis_tb/tmp0";
                "/tmp/analysis_tb/tmp0/rl"; "/tmp/analysis_tb/tmp0/rl/run1";
                "/tmp/analysis_tb/tmp0/tb"; "/tmp/analysis_tb/tmp0/tb/run1"];
      tb_links := [("exp/run1/rl", "/tmp/analysis_tb/tmp0/rl/run1");
                   ("exp/run1/tb", "/tmp/analysis_tb/tmp0/tb/run1")];
      tb_dirs_count := 2 |}).

(** * Properties *)

(** ** The error monad *)

Lemma bind_Ok {A B} (m : res A) (k : A -> res B) (b : B) :
  bind m k = Ok b -> exists a, m = Ok a /\ k a = Ok b.
Proof. destruct m as [a|e]; simpl; intros H; [eauto | discriminate]. Qed.

Lemma string_eqb_true (s t : string) : String.eqb s t = true <-> s = t.
Proof. apply String.eqb_eq. Qed.

Lemma string_eqb_false (s t : string) : String.eqb s t = false <-> s <> t.
Proof. apply String.eqb_neq. Qed.

Lemma str_app_assoc (a b c : string) : (a +:+ b) +:+ c = a +:+ b +:+ c.
Proof.
  induction a as [|x a IH]; [reflexivity|].
  change (String x ((a +:+ b) +:+ c) = String x (a +:+ b +:+ c)).
  now rewrite IH.
Qed.

(** ** The algorithm name *)

(** The command kind of a record whose [run.json] names a command as text is
    that text. *)
Lemma exp_command_of_str (sd : SacredDicts) (kind : string) :
  lookup_key "command" (run sd) = Some (VStr kind) ->
  _get_exp_command sd = kind.
Proof. unfold _get_exp_command, dict_get. intros ->. reflexivity. Qed.

Lemma app_empty_r (s : string) : s +:+ "" = s.
Proof.
  induction s as [|c s IH]; [reflexivity|].
  change (String c (s +:+ "") = String c s). now rewrite IH.
Qed.

(** C4, as the code has it: [_get_algo_name] dispatches on the command
    kind, which is the text of the run's [command] field.  Kind [train_bc]
    gives [BC] and kind [train_dagger] gives [DAgger] whatever the config
    holds; kind
    [train_adversarial] gives the config's [algorithm] field in upper case
    when it is a text, [None] when it is [None] or absent, and raises
    [AttributeError] for any other [algorithm]; every other kind gives,
    without raising, the text [??exp_command=] followed by the kind, in
    which the kind occurs. *)
Theorem algo_name_dispatch (sd : SacredDicts) (kind : string) :
  _get_exp_command sd = kind ->
  (forall k, lookup_key "command" (run sd) = Some (VStr k) -> kind = k) /\
  (kind = "train_bc" -> _get_algo_name sd = Ok (VStr "BC")) /\
  (kind = "train_dagger" -> _get_algo_name sd = Ok (VStr "DAgger")) /\
  (kind = "train_adversarial" ->
     (forall s, get (config sd) "algorithm" = Ok (VStr s) ->
                _get_algo_name sd = Ok (VStr (upper s))) /\
     (get (config sd) "algorithm" = Ok VNone ->
      _get_algo_name sd = Ok VNone) /\
     (lookup_key "algorithm" (config sd) = None ->
      _get_algo_name sd = Ok VNone) /\
     (forall v, get (config sd) "algorithm" = Ok v ->
                v <> VNone -> (forall s, v <> VStr s) ->
                _get_algo_name sd = Raise AttributeError)) /\
  (kind <> "train_adversarial" -> kind <> "train_bc" ->
   kind <> "train_dagger" ->
     _get_algo_name sd = Ok (VStr ("??exp_command=" +:+ kind)) /\
     occurs_in kind ("??exp_command=" +:+ kind)).
Proof.
  intros Hkind. split.
  { intros k Hk. rewrite <- Hkind. now apply exp_command_of_str. }
  unfold _get_algo_name. rewrite Hkind.
  split; [|split; [|split]].
  - intros ->. reflexivity.
  - intros ->. reflexivity.
  - intros ->. simpl. split; [|split; [|split]].
    + intros s Hs. rewrite Hs. reflexivity.
    + intros Hs. rewrite Hs. reflexivity.
    + intros Hs. unfold get. simpl. rewrite Hs. reflexivity.
    + intros v Hv Hnone Hstr. rewrite Hv. cbn [bind].
      destruct v; try reflexivity; [now elim Hnone | now elim (Hstr s)].
  - intros Ha Hb Hd. split.
    + apply string_eqb_false in Ha, Hb, Hd. rewrite Ha, Hb, Hd. reflexivity.
    + exists "??exp_command=", "". now rewrite app_empty_r.
Qed.

Lemma algo_name_dispatch_witness :
  _get_algo_name sd_seven_of_ten = Ok (VStr "GAIL") /\
  _get_algo_name sd_gail_diaeresis = Ok (VStr "GAÏL") /\
  _get_algo_name sd_algorithm_number = Raise AttributeError /\
  _get_algo_name sd_bc = Ok (VStr "BC") /\
  _get_algo_name sd_train_rl = Ok (VStr "??exp_command=train_rl").
Proof.
  pose proof (algo_name_dispatch sd_seven_of_ten "train_adversarial" eq_refl)
    as (_ & _ & _ & Hgail & _).
  pose proof (algo_name_dispatch sd_gail_diaeresis "train_adversarial" eq_refl)
    as (_ & _ & _ & Hdiaeresis & _).
  pose proof (algo_name_dispatch sd_algorithm_number "train_adversarial"
                eq_refl) as (_ & _ & _ & Hnumber & _).
  pose proof (algo_name_dispatch sd_bc "train_bc" eq_refl)
    as (_ & Hbc & _).
  pose proof (algo_name_dispatch sd_train_rl "train_rl" eq_refl)
    as (_ & _ & _ & _ & Hrl).
  split; [|split; [|split; [|split]]].
  - exact (proj1 (Hgail eq_refl) "gail" eq_refl).
  - exact (proj1 (Hdiaeresis eq_refl) "gaïl" eq_refl).
  - apply (proj2 (proj2 (proj2 (Hnumber eq_refl))) (VInt 5) eq_refl);
      [discriminate | intros s; discriminate].
  - exact (Hbc eq_refl).
  - apply (Hrl ltac:(discriminate) ltac:(discriminate) ltac:(discriminate)).
Defined.

(** C4 as stated fails: a record of kind [train_adversarial] whose
    [algorithm] is the number 5 has no upper-cased algorithm; for it
    [_get_algo_name] raises [AttributeError] instead of returning a name. *)
Lemma algo_name_dispatch_counterexample :
  _get_exp_command sd_algorithm_number = "train_adversarial" /\
  get (config sd_algorithm_number) "algorithm" = Ok (VInt 5) /\
  _get_algo_name sd_algorithm_number = Raise AttributeError /\
  ~ exists v, _get_algo_name sd_algorithm_number = Ok v.
Proof.
  assert (H : _get_algo_name sd_algorithm_number = Raise AttributeError)
    by reflexivity.
  repeat split; try assumption.
  intros [v Hv]. rewrite H in Hv. discriminate.
Qed.

(** C10: a record whose run document has no [command] field gets the
    algorithm name [??exp_command=None]: the absent command is rendered as
    the text [None] and falls through to the last branch. *)
Theorem algo_name_without_command (sd : SacredDicts) :
  lookup_key "command" (run sd) = None ->
  _get_exp_command sd = "None" /\
  _get_algo_name sd = Ok (VStr "??exp_command=None").
Proof.
  intros Hcmd.
  assert (Hk : _get_exp_command sd = "None").
  { unfold _get_exp_command, dict_get. rewrite Hcmd. reflexivity. }
  split; [exact Hk|].
  unfold _get_algo_name. rewrite Hk. reflexivity.
Qed.

Lemma algo_name_without_command_witness :
  lookup_key "command" (run sd_no_command) = None /\
  _get_algo_name sd_no_command = Ok (VStr "??exp_command=None").
Proof.
  split; [reflexivity|].
  apply (algo_name_without_command sd_no_command). reflexivity.
Defined.

(** ** The return summary *)

Lemma float_literals :
  Num.of_decimal 5123456 (-6) = float_5_123456 /\
  Num.of_decimal 987654 (-6) = float_0_987654 /\
  Num.of_decimal 7 (-1) = float_0_7.
Proof. vm_compute. auto. Qed.

(** Three significant digits would give the short rendering. *)
Lemma three_significant_digits :
  Num.repr_g 3 float_5_123456 = "5.12" /\ Num.repr_g 3 float_0_987654 = "0.988".
Proof. vm_compute. auto. Qed.

(** C1: for a stats sub-document with mean 5.123456, std 0.987654 and count
    10 the formatter of the source, whose fields are [{:3g}], produces
    ["5.12346 ± 0.987654 (n=10)"], six significant digits in a field of
    width three, and not the three-digit ["5.12 ± 0.988 (n=10)"]. *)
Theorem make_return_summary_six_digits (d : dict) (prefix : string) :
  lookup_key (prefix +:+ "return_mean") d = Some (VFloat float_5_123456) ->
  lookup_key (prefix +:+ "return_std") d = Some (VFloat float_0_987654) ->
  lookup_key "n_traj" d = Some (VInt 10) ->
  _make_return_summary (VDict d) prefix = Ok "5.12346 ± 0.987654 (n=10)" /\
  _make_return_summary (VDict d) prefix <> Ok "5.12 ± 0.988 (n=10)".
Proof.
  intros Hm Hs Hn.
  assert (H : _make_return_summary (VDict d) prefix
              = Ok "5.12346 ± 0.987654 (n=10)").
  { unfold _make_return_summary. simpl. rewrite Hm, Hs, Hn. simpl.
    vm_compute. reflexivity. }
  split; [exact H|]. rewrite H. discriminate.
Qed.

Lemma make_return_summary_six_digits_witness :
  _make_return_summary (VDict stats_example) "" = Ok "5.12346 ± 0.987654 (n=10)".
Proof.
  apply (make_return_summary_six_digits stats_example ""); reflexivity.
Defined.

(** ** The return summaries of a record *)

Lemma make_return_summary_total (prefix : string) (stats : value) :
  well_formed_stats prefix stats = true ->
  exists s, _make_return_summary stats prefix = Ok s.
Proof.
  unfold well_formed_stats, _make_return_summary, numeric.
  destruct stats as [| | | | |l|d]; try discriminate. simpl.
  destruct (lookup_key (prefix +:+ "return_mean") d) as [mean|]; [|discriminate].
  destruct (lookup_key (prefix +:+ "return_std") d) as [std|]; [|discriminate].
  destruct (lookup_key "n_traj" d) as [n|]; [|discriminate]. simpl.
  destruct (format_3g mean) as [ms|]; [|discriminate].
  destruct (format_3g std) as [ss|]; [|discriminate]. simpl. eauto.
Qed.

Lemma well_formed_not_none (prefix : string) (stats : value) :
  well_formed_stats prefix stats = true -> is_none stats = false.
Proof. destruct stats; simpl; congruence. Qed.

Lemma truediv_floats (f g : spec_float) :
  is_zero g = false ->
  truediv (VFloat f) (VFloat g) = Ok (VFloat (SFdiv Num.prec Num.emax f g)).
Proof.
  intros Hg. unfold truediv. simpl as_int. cbv iota. unfold float_div.
  now rewrite Hg.
Qed.

(** On numeric operands the division yields a float, unless the divisor is
    zero or an integer quotient is out of the range of a float. *)
Lemma truediv_numeric (a b : value) :
  numeric a = true -> numeric b = true ->
  truediv a b = Raise ZeroDivisionError \/
  truediv a b = Raise OverflowError \/
  exists f, truediv a b = Ok (VFloat f).
Proof.
  assert (Hdiv : forall f g,
            float_div f g = Raise ZeroDivisionError \/
            exists h, float_div f g = Ok (VFloat h)).
  { intros f g. unfold float_div. destruct (is_zero g); eauto. }
  assert (Hquot : forall x y,
            (if y =? 0 then Raise ZeroDivisionError
             else match Num.div_int x y with
                  | S754_infinity _ => Raise OverflowError
                  | f => Ok (VFloat f)
                  end) = Raise ZeroDivisionError \/
            (if y =? 0 then Raise ZeroDivisionError
             else match Num.div_int x y with
                  | S754_infinity _ => Raise OverflowError
                  | f => Ok (VFloat f)
                  end) = Raise OverflowError \/
            exists f,
              (if y =? 0 then Raise ZeroDivisionError
               else match Num.div_int x y with
                    | S754_infinity _ => Raise OverflowError
                    | f => Ok (VFloat f)
                    end) = Ok (VFloat f)).
  { intros x y. destruct (y =? 0); [auto|].
    destruct (Num.div_int x y); eauto. }
  assert (Hnum : forall v z,
            as_int v = Some z -> numeric v = true ->
            exists f, float_of_int z = Ok f).
  { intros v z Hz Hn. unfold numeric, format_3g in Hn.
    destruct v; try discriminate; rewrite Hz in Hn;
      destruct (float_of_int z); eauto; discriminate. }
  unfold truediv.
  destruct a as [|ca|x|f|sa|la|da], b as [|cb|y|g|sb|lb|db];
    try discriminate; intros Ha Hb; simpl as_int; cbv iota;
    try apply Hquot.
  - destruct (Hnum (VBool ca) _ eq_refl Ha) as [f' ->]. cbn [bind].
    destruct (Hdiv f' g) as [H|H]; auto.
  - destruct (Hnum (VInt x) _ eq_refl Ha) as [f' ->]. cbn [bind].
    destruct (Hdiv f' g) as [H|H]; auto.
  - destruct (Hnum (VBool cb) _ eq_refl Hb) as [g' ->]. cbn [bind].
    destruct (Hdiv f g') as [H|H]; auto.
  - destruct (Hnum (VInt y) _ eq_refl Hb) as [g' ->]. cbn [bind].
    destruct (Hdiv f g') as [H|H]; auto.
  - destruct (Hdiv f g) as [H|H]; auto.
Qed.

(** The summary of an optional sub-document, as [_return_summaries] computes
    it for each of the two. *)
Lemma optional_summary_total (prefix : string) (stats : value) :
  absent_or_well_formed prefix stats = true ->
  exists v,
    (if negb (is_none stats)
     then let* s := _make_return_summary stats prefix in Ok (VStr s)
     else Ok VNone) = Ok v.
Proof.
  unfold absent_or_well_formed. intros H.
  destruct (is_none stats) eqn:Hn; simpl in *; [eauto|].
  destruct (make_return_summary_total _ _ H) as [s ->]. simpl. eauto.
Qed.

(** C3, as the code has it: for every record whose two stats lookups resolve
    and whose present stats sub-documents are well formed,
    [imit_expert_ratio] is [None] whenever the expert or the imitation
    sub-document is absent, and when both are present it is the quotient of
    the imitation mean by the expert mean wherever that division is defined
    (a zero expert mean raises). *)
Theorem return_summaries_ratio (sd : SacredDicts) (imit expert : value) :
  get (run sd) "result.imit_stats" = Ok imit ->
  get (run sd) "result.expert_stats" = Ok expert ->
  absent_or_well_formed "monitor_" imit = true ->
  absent_or_well_formed "" expert = true ->
  (is_none imit || is_none expert = true ->
   exists r, _return_summaries sd = Ok r /\ imit_expert_ratio r = VNone) /\
  (is_none imit = false -> is_none expert = false ->
   forall a b q,
     getitem imit "monitor_return_mean" = Ok a ->
     getitem expert "return_mean" = Ok b ->
     truediv a b = Ok q ->
     exists r, _return_summaries sd = Ok r /\ imit_expert_ratio r = q).
Proof.
  intros Hi He Wi We.
  destruct (optional_summary_total _ _ Wi) as [si Hsi].
  destruct (optional_summary_total _ _ We) as [se Hse].
  unfold _return_summaries. rewrite Hi, He. cbn [bind].
  rewrite Hse. cbn [bind]. rewrite Hsi. cbn [bind].
  split.
  - intros Hnone.
    assert (Hb : negb (is_none imit) && negb (is_none expert) = false).
    { destruct (is_none imit), (is_none expert); simpl in *; congruence. }
    rewrite Hb. simpl. eauto.
  - intros Hni Hne a b q Ha Hb Hq.
    rewrite Hni, Hne. cbn [negb andb]. rewrite Ha. cbn [bind].
    rewrite Hb. cbn [bind]. rewrite Hq. cbn [bind]. eauto.
Qed.

Lemma return_summaries_ratio_witness :
  (exists r, _return_summaries sd_seven_of_ten = Ok r /\
             imit_expert_ratio r = VFloat float_0_7) /\
  (exists r, _return_summaries sd_expert_only = Ok r /\
             imit_expert_ratio r = VNone).
Proof.
  split.
  - apply (proj2 (return_summaries_ratio sd_seven_of_ten imit_7 expert_10
                    eq_refl eq_refl eq_refl eq_refl)
             eq_refl eq_refl (VInt 7) (VInt 10) (VFloat float_0_7)
             eq_refl eq_refl eq_refl).
  - apply (proj1 (return_summaries_ratio sd_expert_only VNone expert_10
                    eq_refl eq_refl eq_refl eq_refl) eq_refl).
Defined.

(** C3 as stated fails: with the expert sub-document absent and an imitation
    sub-document that lacks its fields, [_return_summaries] raises instead of
    yielding a [None] ratio; with both sub-documents present and a zero
    expert mean it raises instead of yielding a quotient. *)
Lemma return_summaries_ratio_counterexample :
  (get (run sd_imit_empty) "result.expert_stats" = Ok VNone /\
   _return_summaries sd_imit_empty = Raise (KeyError "monitor_return_mean") /\
   ~ exists r, _return_summaries sd_imit_empty = Ok r /\
               imit_expert_ratio r = VNone) /\
  (get (run sd_expert_zero) "result.imit_stats" = Ok imit_7 /\
   get (run sd_expert_zero) "result.expert_stats" = Ok expert_0 /\
   _return_summaries sd_expert_zero = Raise ZeroDivisionError /\
   ~ exists r, _return_summaries sd_expert_zero = Ok r).
Proof.
  assert (H1 : _return_summaries sd_imit_empty
               = Raise (KeyError "monitor_return_mean")) by (vm_compute; reflexivity).
  assert (H2 : _return_summaries sd_expert_zero = Raise ZeroDivisionError)
    by (vm_compute; reflexivity).
  repeat split; try assumption.
  - intros [r [Hr _]]. rewrite H1 in Hr. discriminate.
  - intros [r Hr]. rewrite H2 in Hr. discriminate.
Qed.

(** ** Scanning the run directories *)

Lemma load_loop_spec (w : world) (dirs : list string) :
  loads_or_malformed w dirs ->
  forall acc warned,
    load_loop w dirs acc warned
    = (warned ++ List.map invalid_json (malformed w dirs),
       Ok (acc ++ parsed w dirs)).
Proof.
  induction dirs as [|d dirs IH]; intros Hok acc warned; simpl.
  - now rewrite !app_nil_r.
  - assert (Hrest : loads_or_malformed w dirs).
    { intros d' e Hin. apply Hok. now right. }
    destruct (load_from_dir w d) as [sd| |e] eqn:Hd.
    + rewrite (IH Hrest). now rewrite <- app_assoc.
    + rewrite (IH Hrest). simpl. now rewrite <- app_assoc.
    + exfalso. apply (Hok d e); [now left | exact Hd].
Qed.

Lemma parsed_app (w : world) (l1 l2 : list string) :
  parsed w (l1 ++ l2) = parsed w l1 ++ parsed w l2.
Proof.
  induction l1 as [|d l1 IH]; simpl; [reflexivity|].
  destruct (load_from_dir w d); simpl; now rewrite IH.
Qed.

Lemma malformed_app (w : world) (l1 l2 : list string) :
  malformed w (l1 ++ l2) = malformed w l1 ++ malformed w l2.
Proof.
  induction l1 as [|d l1 IH]; simpl; [reflexivity|].
  destruct (load_from_dir w d); simpl; now rewrite IH.
Qed.

(** C5: when the directories of a scan load or fail to parse, gathering
    does not abort: it issues one warning for each directory whose documents
    fail to parse, in scan order, and passes to the filters the records of
    all the other directories; a malformed directory contributes its warning
    and leaves the records of the directories around it in place. *)
Theorem gather_skips_malformed (w : world) (a : gather_args) :
  let dirs := concat (List.map (filter_subdirs w) (source_dirs a)) in
  loads_or_malformed w dirs ->
  _gather_sacred_dicts w a
  = (List.map invalid_json (malformed w dirs),
     list_of (filter_stages (run_name a) (env_name a) (skip_failed_runs a))
       (parsed w dirs)) /\
  forall before d after,
    dirs = before ++ d :: after ->
    load_from_dir w d = JSONDecodeError ->
    parsed w dirs = parsed w before ++ parsed w after /\
    malformed w dirs = malformed w before ++ d :: malformed w after.
Proof.
  intros dirs Hok. split.
  - unfold _gather_sacred_dicts. fold dirs.
    rewrite (load_loop_spec w dirs Hok). reflexivity.
  - intros before d after -> Hd.
    rewrite parsed_app, malformed_app. simpl. now rewrite Hd.
Qed.

Lemma three_runs_load : loads_or_malformed three_runs ["runs/a"; "runs/b"; "runs/c"].
Proof.
  intros d e [<-|[<-|[<-|[]]]]; discriminate.
Qed.

Lemma gather_skips_malformed_witness :
  _gather_sacred_dicts three_runs skip_failed_args
  = (["Invalid JSON file in runs/a"], Ok [sd_completed]).
Proof.
  exact (proj1 (gather_skips_malformed three_runs skip_failed_args three_runs_load)).
Defined.

(** ** The filters *)

Lemma bind_ret_r {A} (m : res A) : bind m Ok = m.
Proof. now destruct m. Qed.

Lemma bind_assoc {A B C} (m : res A) (f : A -> res B) (g : B -> res C) :
  bind (bind m f) g = bind m (fun a => bind (f a) g).
Proof. now destruct m. Qed.

Lemma bind_ext {A B} (m : res A) (f g : A -> res B) :
  (forall a, f a = g a) -> bind m f = bind m g.
Proof. intros H. destruct m; simpl; auto. Qed.

Lemma list_of_app (stages : list pred) (l1 l2 : list SacredDicts) :
  list_of stages (l1 ++ l2)
  = let* a := list_of stages l1 in
    let* b := list_of stages l2 in
    Ok (a ++ b).
Proof.
  induction l1 as [|sd l1 IH]; simpl.
  - now rewrite bind_ret_r.
  - rewrite IH. destruct (passes stages sd) as [b|e]; simpl; [|reflexivity].
    destruct (list_of stages l1) as [r1|e]; simpl; [|reflexivity].
    destruct (list_of stages l2) as [r2|e]; simpl; [|reflexivity].
    now destruct b.
Qed.

(** A record that the chain rejects leaves no trace in the output. *)
Lemma list_of_excluded (stages : list pred) (sd : SacredDicts)
    (before after : list SacredDicts) :
  passes stages sd = Ok false ->
  list_of stages (before ++ sd :: after) = list_of stages (before ++ after).
Proof.
  intros Hsd. rewrite !list_of_app. apply bind_ext. intros a.
  simpl. rewrite Hsd. simpl. now rewrite bind_ret_r.
Qed.

(** A record that the chain accepts stays in its place. *)
Lemma list_of_kept (stages : list pred) (sd : SacredDicts)
    (before after : list SacredDicts) :
  passes stages sd = Ok true ->
  list_of stages (before ++ sd :: after)
  = let* a := list_of stages before in
    let* b := list_of stages after in
    Ok (a ++ sd :: b).
Proof.
  intros Hsd. rewrite list_of_app. apply bind_ext. intros a.
  simpl. rewrite Hsd. simpl. now destruct (list_of stages after).
Qed.

Lemma resolve_missing (path : list string) :
  forall d, field_missing d path = true -> resolve (VDict d) path = Ok VNone.
Proof.
  induction path as [|key path IH]; intros d; simpl; [discriminate|].
  destruct (lookup_key key d) as [[| | | | | |d']|]; try discriminate; auto.
Qed.

(** A single key of a document always resolves. *)
Lemma get_single (d : dict) (key : string) :
  split_dot key = [key] -> get d key = Ok (dict_get d key).
Proof.
  intros Hk. unfold get, dict_get. rewrite Hk. simpl.
  now destruct (lookup_key key d).
Qed.

(** C2, as the code has it: a record whose run name field is missing is
    rejected by the run-name predicate, and one whose environment-name field
    is missing by the environment-name predicate, without raising, and the
    record is then left out of the output; a record whose run document has
    no status field is accepted by the failure-status predicate, since its
    status is not ["FAILED"], and stays in the output. *)
Theorem filter_missing_field (sd : SacredDicts) :
  (field_missing (run sd) ["experiment"; "name"] = true ->
   forall rn,
     run_name_pred rn sd = Ok false /\
     forall en skip before after,
       list_of (filter_stages (Some rn) en skip) (before ++ sd :: after)
       = list_of (filter_stages (Some rn) en skip) (before ++ after)) /\
  (field_missing (config sd) ["env_name"] = true ->
   forall en,
     env_name_pred en sd = Ok false /\
     forall skip before after,
       list_of (filter_stages None (Some en) skip) (before ++ sd :: after)
       = list_of (filter_stages None (Some en) skip) (before ++ after)) /\
  (field_missing (run sd) ["status"] = true ->
   not_failed_pred sd = Ok true /\
   forall before after,
     list_of (filter_stages None None true) (before ++ sd :: after)
     = let* a := list_of (filter_stages None None true) before in
       let* b := list_of (filter_stages None None true) after in
       Ok (a ++ sd :: b)).
Proof.
  split; [|split].
  - intros Hm rn.
    assert (Hp : run_name_pred rn sd = Ok false).
    { unfold run_name_pred, get.
      change (split_dot "experiment.name") with ["experiment"; "name"].
      now rewrite (resolve_missing _ _ Hm). }
    split; [exact Hp|]. intros en skip before after.
    apply list_of_excluded. simpl. now rewrite Hp.
  - intros Hm en.
    assert (Hp : env_name_pred en sd = Ok false).
    { unfold env_name_pred, get.
      change (split_dot "env_name") with ["env_name"].
      now rewrite (resolve_missing _ _ Hm). }
    split; [exact Hp|]. intros skip before after.
    apply list_of_excluded. simpl. now rewrite Hp.
  - intros Hm.
    assert (Hp : not_failed_pred sd = Ok true).
    { unfold not_failed_pred, get.
      change (split_dot "status") with ["status"].
      now rewrite (resolve_missing _ _ Hm). }
    split; [exact Hp|]. intros before after.
    apply list_of_kept. simpl. now rewrite Hp.
Qed.

Lemma filter_missing_field_witness :
  field_missing (run sd_bare) ["experiment"; "name"] = true /\
  field_missing (config sd_bare) ["env_name"] = true /\
  field_missing (run sd_bare) ["status"] = true /\
  run_name_pred "expert_demos" sd_bare = Ok false /\
  env_name_pred "CartPole-v1" sd_bare = Ok false /\
  not_failed_pred sd_bare = Ok true.
Proof.
  pose proof (filter_missing_field sd_bare) as [H1 [H2 H3]].
  split; [reflexivity|]. split; [reflexivity|]. split; [reflexivity|].
  split; [exact (proj1 (H1 eq_refl "expert_demos"))|].
  split; [exact (proj1 (H2 eq_refl "CartPole-v1"))|].
  exact (proj1 (H3 eq_refl)).
Defined.

(** C2 as stated fails for the failure-status filter: with that filter
    enabled, a record whose run document has no status field is not
    excluded. *)
Lemma failure_filter_counterexample :
  field_missing (run sd_bare) ["status"] = true /\
  not_failed_pred sd_bare = Ok true /\
  list_of (filter_stages None None true) [sd_bare] = Ok [sd_bare] /\
  snd (_gather_sacred_dicts
         {| filter_subdirs := fun _ => ["runs/bare"];
            load_from_dir := fun _ => Loaded sd_bare |}
         skip_failed_args) = Ok [sd_bare].
Proof. repeat split. Qed.

(** The environment-name and failure-status predicates look up a single key
    and never raise. *)
Lemma env_name_pred_total (en : string) (sd : SacredDicts) :
  exists b, env_name_pred en sd = Ok b.
Proof. unfold env_name_pred. rewrite get_single by reflexivity. simpl. eauto. Qed.

Lemma not_failed_pred_total (sd : SacredDicts) :
  exists b, not_failed_pred sd = Ok b.
Proof. unfold not_failed_pred. rewrite get_single by reflexivity. simpl. eauto. Qed.

Lemma passes_total (rn en : option string) (skip : bool) (sd : SacredDicts) :
  (exists v, get (run sd) "experiment.name" = Ok v) ->
  exists b, passes (filter_stages rn en skip) sd = Ok b.
Proof.
  intros [v Hv].
  assert (Hskip : exists b,
            passes (if skip then [not_failed_pred] else []) sd = Ok b).
  { destruct skip; simpl; [|eauto].
    destruct (not_failed_pred_total sd) as [b ->]. simpl. destruct b; eauto. }
  assert (Hen : exists b,
            passes (match en with Some e => [env_name_pred e] | None => [] end
                    ++ (if skip then [not_failed_pred] else [])) sd = Ok b).
  { destruct en as [e|]; simpl; [|exact Hskip].
    destruct (env_name_pred_total e sd) as [b ->]. simpl.
    destruct b; [exact Hskip | eauto]. }
  unfold filter_stages. destruct rn as [r|]; simpl; [|exact Hen].
  unfold run_name_pred. rewrite Hv. simpl.
  destruct (eq_str v r); [exact Hen | eauto].
Qed.

Lemma list_of_sublist (stages : list pred) (sds : list SacredDicts) :
  forall out, list_of stages sds = Ok out -> out `sublist_of` sds.
Proof.
  induction sds as [|sd sds IH]; simpl; intros out H.
  - injection H as <-. constructor.
  - destruct (passes stages sd) as [b|e]; simpl in H; [|discriminate].
    destruct (list_of stages sds) as [rest|e]; simpl in H; [|discriminate].
    injection H as <-. specialize (IH rest eq_refl).
    destruct b; [now apply sublist_skip | now apply sublist_cons].
Qed.

Lemma list_of_total (stages : list pred) (sds : list SacredDicts) :
  (forall sd, In sd sds -> exists b, passes stages sd = Ok b) ->
  exists out, list_of stages sds = Ok out.
Proof.
  induction sds as [|sd sds IH]; simpl; intros H; [eauto|].
  destruct (H sd (or_introl eq_refl)) as [b ->].
  destruct IH as [rest ->]; [intros; apply H; now right|]. simpl. eauto.
Qed.

(** C8: for every sequence of records and every combination of enabled
    filters, an output of the filters is a subsequence of the input: its
    records are input records, in the input's order, each taken at most once.
    The filters produce that output whenever the run-name path resolves in
    every record. *)
Theorem filter_output_subsequence (rn en : option string) (skip : bool)
    (sds : list SacredDicts) :
  (forall out,
     list_of (filter_stages rn en skip) sds = Ok out -> out `sublist_of` sds) /\
  ((forall sd, In sd sds -> exists v, get (run sd) "experiment.name" = Ok v) ->
   exists out,
     list_of (filter_stages rn en skip) sds = Ok out /\ out `sublist_of` sds).
Proof.
  split; [apply list_of_sublist|].
  intros H.
  destruct (list_of_total (filter_stages rn en skip) sds) as [out Hout].
  { intros sd Hin. apply passes_total. now apply H. }
  exists out. split; [exact Hout | exact (list_of_sublist _ _ _ Hout)].
Qed.

Lemma filter_output_subsequence_witness :
  cartpole_failed_filter [sd_failed; sd_bare; sd_completed; sd_completed]
    = Ok [sd_completed; sd_completed] /\
  [sd_completed; sd_completed]
    `sublist_of` [sd_failed; sd_bare; sd_completed; sd_completed].
Proof.
  split; [reflexivity|].
  apply (proj1 (filter_output_subsequence None (Some "CartPole-v1") true
                  [sd_failed; sd_bare; sd_completed; sd_completed])).
  reflexivity.
Defined.

(** ** The verbosity tiers *)

Lemma tier_count : length table_verbosity_mapping = 3%nat.
Proof. reflexivity. Qed.

Lemma selected_names_0 :
  selected_names 0
  = Ok ["algo"; "env_name"; "expert_return_summary"; "imit_return_summary"].
Proof. vm_compute. reflexivity. Qed.

Lemma selected_names_1 :
  selected_names 1
  = Ok ["algo"; "env_name"; "n_expert_demos"; "expert_return_summary";
        "imit_return_summary"].
Proof. vm_compute. reflexivity. Qed.

Lemma selected_names_2 : selected_names 2 = Ok (od_keys table_entry_fns).
Proof. vm_compute. reflexivity. Qed.

(** Assigning a key that the ordered dict does not have appends it. *)
Lemma od_set_fresh {A} (k : string) (v : A) (od : odict A) :
  ~ In k (od_keys od) -> od_set k v od = od ++ [(k, v)].
Proof.
  intros Hk. unfold od_set.
  destruct (existsb (String.eqb k) (od_keys od)) eqn:He; [|reflexivity].
  apply existsb_exists in He as [k' [Hin Heq]].
  apply String.eqb_eq in Heq. subst k'. contradiction.
Qed.

(** The selection loop keeps the items whose key is in the tier, in the
    order of the registry, as long as the keys are distinct. *)
Lemma subset_loop_filter (keys_subset : gset string) (items : odict entry_fn) :
  forall result,
    NoDup (od_keys result ++ od_keys items) ->
    subset_loop keys_subset items result
    = result ++ List.filter (fun kv => bool_decide (fst kv ∈ keys_subset)) items.
Proof.
  induction items as [|[k v] items IH]; intros result Hnd; simpl.
  - now rewrite app_nil_r.
  - assert (Hk : ~ In k (od_keys result)).
    { apply NoDup_app in Hnd as (_ & Hdisj & _).
      intros Hin. apply list_elem_of_In in Hin.
      apply (Hdisj k Hin). simpl. left. }
    assert (Hrest : NoDup (od_keys result ++ od_keys items)).
    { apply NoDup_app in Hnd as (H1 & H2 & H3). apply NoDup_app.
      split; [exact H1|]. split.
      - intros x Hx Hx'. apply (H2 x Hx). simpl. now right.
      - now apply NoDup_cons in H3 as [_ H3]. }
    destruct (decide (k ∈ keys_subset)) as [Hin|Hout].
    + rewrite bool_decide_true by exact Hin.
      rewrite IH.
      * rewrite od_set_fresh by exact Hk. now rewrite <- app_assoc.
      * rewrite od_set_fresh by exact Hk.
        unfold od_keys in *. rewrite map_app, <- app_assoc. exact Hnd.
    + rewrite bool_decide_false by exact Hout. now apply IH.
Qed.

Lemma table_entry_fns_distinct : NoDup (od_keys table_entry_fns).
Proof. apply (bool_decide_unpack _). vm_compute. exact I. Qed.

(** Within the tier table, the selection is the registry restricted to the
    names of the tier, in registry order. *)
Lemma selection_in_registry_order (table_verbosity : Z) (keys_subset : gset string) :
  0 <= table_verbosity ->
  table_verbosity_mapping !! Z.to_nat table_verbosity = Some keys_subset ->
  _get_table_entry_fns_subset table_verbosity
  = Ok (List.filter (fun kv => bool_decide (fst kv ∈ keys_subset))
          table_entry_fns).
Proof.
  intros H0 Hk. unfold _get_table_entry_fns_subset.
  assert (Hlt : (Z.to_nat table_verbosity < length table_verbosity_mapping)%nat)
    by (apply lookup_lt_is_Some; eauto).
  replace (0 <=? table_verbosity) with true by (symmetry; apply Z.leb_le; lia).
  replace (Z.of_nat (length table_verbosity_mapping) <=? table_verbosity)
    with false by (symmetry; apply Z.leb_gt; lia).
  simpl negb. cbv iota. rewrite Hk.
  now rewrite subset_loop_filter by (simpl; apply table_entry_fns_distinct).
Qed.

Lemma all_among_subseteq (l1 l2 : list string) :
  all_among l1 l2 = true -> l1 ⊆ l2.
Proof.
  unfold all_among. rewrite forallb_forall. intros H x Hx.
  apply list_elem_of_In in Hx. specialize (H x Hx).
  apply existsb_exists in H as [y [Hy Heq]].
  apply String.eqb_eq in Heq. subst y. now apply list_elem_of_In.
Qed.

(** C6: for tiers [k1 < k2] of the tier table, every column name selected
    at tier [k1] is selected at tier [k2]. *)
Theorem tiers_monotone (k1 k2 : Z) :
  0 <= k1 -> k1 < k2 -> k2 < Z.of_nat (length table_verbosity_mapping) ->
  exists names1 names2,
    selected_names k1 = Ok names1 /\
    selected_names k2 = Ok names2 /\
    names1 ⊆ names2.
Proof.
  rewrite tier_count. intros H0 H12 H2.
  assert (Hcases : (k1 = 0 /\ k2 = 1) \/ (k1 = 0 /\ k2 = 2) \/ (k1 = 1 /\ k2 = 2))
    by lia.
  destruct Hcases as [[-> ->]|[[-> ->]|[-> ->]]];
    do 2 eexists;
    (split; [first [apply selected_names_0 | apply selected_names_1]|]);
    (split; [first [apply selected_names_1 | apply selected_names_2]|]);
    apply all_among_subseteq; reflexivity.
Qed.

Lemma tiers_monotone_witness :
  exists names1 names2,
    selected_names 0 = Ok names1 /\ selected_names 1 = Ok names2 /\
    names1 ⊆ names2.
Proof. apply (tiers_monotone 0 1); [lia | lia | rewrite tier_count; lia]. Defined.

(** From the number of defined tiers on, the selection is the registry. *)
Lemma full_registry_beyond_tiers_aux (table_verbosity : Z) :
  3 <= table_verbosity ->
  _get_table_entry_fns_subset table_verbosity = Ok table_entry_fns /\
  selected_names table_verbosity = Ok (od_keys table_entry_fns).
Proof.
  intros H. unfold selected_names, _get_table_entry_fns_subset.
  assert (H0 : (0 <=? table_verbosity) = true) by (apply Z.leb_le; lia).
  assert (H3 : (Z.of_nat (length table_verbosity_mapping) <=? table_verbosity)
               = true) by (apply Z.leb_le; rewrite tier_count; lia).
  rewrite H0, H3. simpl. auto.
Qed.

(** C7: at every tier from the number of defined tiers on, the selection is
    the whole registry in registry order, however large the tier is; so tier
    5 and tier 1000 select the same. *)
Theorem full_registry_beyond_tiers (table_verbosity : Z) :
  Z.of_nat (length table_verbosity_mapping) <= table_verbosity ->
  _get_table_entry_fns_subset table_verbosity = Ok table_entry_fns /\
  _get_table_entry_fns_subset table_verbosity = _get_table_entry_fns_subset 5 /\
  _get_table_entry_fns_subset 5 = _get_table_entry_fns_subset 1000.
Proof.
  rewrite tier_count. intros H.
  rewrite (proj1 (full_registry_beyond_tiers_aux table_verbosity H)).
  rewrite (proj1 (full_registry_beyond_tiers_aux 5 ltac:(lia))).
  rewrite (proj1 (full_registry_beyond_tiers_aux 1000 ltac:(lia))).
  auto.
Qed.

Lemma full_registry_beyond_tiers_witness :
  Z.of_nat (length table_verbosity_mapping) <= 1000 /\
  _get_table_entry_fns_subset 1000 = Ok table_entry_fns.
Proof.
  split; [rewrite tier_count; lia|].
  apply (full_registry_beyond_tiers 1000). rewrite tier_count. lia.
Defined.

(** ** The order of the rows *)

Lemma key_le_total (cell_le : value -> value -> bool) :
  total_order cell_le ->
  forall k1 k2, key_le cell_le k1 k2 = true \/ key_le cell_le k2 k1 = true.
Proof.
  intros Htot. induction k1 as [|a k1 IH]; intros [|b k2]; simpl; auto.
  destruct (cell_le a b) eqn:Hab, (cell_le b a) eqn:Hba; auto.
  destruct (Htot a b); congruence.
Qed.

Lemma row_le_total (cell_le : value -> value -> bool) (by_cols : list string) :
  total_order cell_le -> Total (row_le cell_le by_cols).
Proof. intros Htot r1 r2. unfold row_le. now apply key_le_total. Qed.

Lemma key_le_trans (cell_le : value -> value -> bool) :
  transitive_order cell_le ->
  forall k1 k2 k3,
    length k1 = length k2 -> length k2 = length k3 ->
    key_le cell_le k1 k2 = true -> key_le cell_le k2 k3 = true ->
    key_le cell_le k1 k3 = true.
Proof.
  intros Htr. induction k1 as [|a k1 IH]; intros [|b k2] [|c k3];
    simpl; try discriminate; auto.
  intros L1 L2.
  destruct (cell_le a b) eqn:Hab; [|discriminate].
  destruct (cell_le b c) eqn:Hbc; [|intros _; discriminate].
  rewrite (Htr a b c Hab Hbc).
  destruct (cell_le c a) eqn:Hca; [|reflexivity].
  rewrite (Htr b c a Hbc Hca), (Htr c a b Hca Hab).
  apply IH; congruence.
Qed.

Lemma row_le_trans (cell_le : value -> value -> bool) (by_cols : list string) :
  transitive_order cell_le -> Transitive (row_le cell_le by_cols).
Proof.
  intros Htr r1 r2 r3. unfold row_le, sort_key.
  apply key_le_trans; [exact Htr | |]; now rewrite !length_map.
Qed.

Lemma insert_row_permutation (cell_le : value -> value -> bool)
    (by_cols : list string) (r : row) (l : list row) :
  insert_row cell_le by_cols r l ≡ₚ r :: l.
Proof.
  induction l as [|x l IH]; simpl; [reflexivity|].
  destruct (key_le cell_le _ _); [reflexivity|].
  rewrite IH. apply perm_swap.
Qed.

Lemma stable_sort_permutation (cell_le : value -> value -> bool)
    (by_cols : list string) (df : list row) :
  stable_sort cell_le by_cols df ≡ₚ df.
Proof.
  unfold stable_sort. induction df as [|r df IH]; simpl; [reflexivity|].
  rewrite insert_row_permutation. now rewrite IH.
Qed.

Lemma insert_row_sorted (cell_le : value -> value -> bool)
    (by_cols : list string) (r : row) (l : list row) :
  total_order cell_le ->
  Sorted (row_le cell_le by_cols) l ->
  Sorted (row_le cell_le by_cols) (insert_row cell_le by_cols r l).
Proof.
  intros Htot. induction l as [|x l IH]; simpl; intros Hs.
  - repeat constructor.
  - destruct (key_le cell_le (sort_key by_cols r) (sort_key by_cols x)) eqn:E.
    + constructor; [exact Hs|]. constructor. exact E.
    + apply Sorted_inv in Hs as [Hl Hx]. constructor; [now apply IH|].
      assert (Hxr : row_le cell_le by_cols x r).
      { destruct (key_le_total cell_le Htot (sort_key by_cols r)
                    (sort_key by_cols x)) as [H|H]; [congruence | exact H]. }
      destruct l as [|y l]; simpl.
      * constructor. exact Hxr.
      * destruct (key_le cell_le (sort_key by_cols r) (sort_key by_cols y));
          constructor; [exact Hxr|]. now apply HdRel_inv in Hx.
Qed.

Lemma stable_sort_sorted (cell_le : value -> value -> bool)
    (by_cols : list string) (df : list row) :
  total_order cell_le ->
  Sorted (row_le cell_le by_cols) (stable_sort cell_le by_cols df).
Proof.
  intros Htot. unfold stable_sort.
  induction df as [|r df IH]; simpl; [constructor|].
  now apply insert_row_sorted.
Qed.

Lemma sort_values_sorted (cell_le : value -> value -> bool)
    (by_cols : list string) (df out : list row) :
  total_order cell_le ->
  sort_values cell_le by_cols df = Ok out ->
  Sorted (row_le cell_le by_cols) out /\ out ≡ₚ df.
Proof.
  intros Htot. unfold sort_values.
  destruct (missing_column _ _); [discriminate|].
  destruct (forallb _ df); [|discriminate].
  intros H. injection H as <-. split.
  - now apply stable_sort_sorted.
  - apply stable_sort_permutation.
Qed.

(** C9: every table that [analyze_imitation] returns is sorted ascending by
    the pair of its [algo] and [env_name] cells, for every total order of
    cells: each row is below the next one in the lexicographic order of the
    pairs, and below all later rows when the cell order is transitive; the
    table holds the built rows, rearranged. *)
Theorem analyze_imitation_sorted (cell_le : value -> value -> bool)
    (w : world) (a : gather_args) (table_verbosity : Z)
    (warned : list string) (df : list row) :
  total_order cell_le ->
  analyze_imitation cell_le w a table_verbosity = (warned, Ok df) ->
  Sorted (row_le cell_le ["algo"; "env_name"]) df /\
  (transitive_order cell_le ->
   StronglySorted (row_le cell_le ["algo"; "env_name"]) df) /\
  exists rows, built_rows w a table_verbosity = Ok rows /\ df ≡ₚ rows.
Proof.
  intros Htot H.
  assert (Hmain : Sorted (row_le cell_le ["algo"; "env_name"]) df /\
                  exists rows, built_rows w a table_verbosity = Ok rows /\
                               df ≡ₚ rows).
  { unfold analyze_imitation, built_rows in *.
    destruct (_get_table_entry_fns_subset table_verbosity) as [subset|e];
      [|discriminate].
    destruct (_gather_sacred_dicts w a) as [warned' gathered].
    injection H as _ H. cbn [bind snd].
    destruct gathered as [sds|e]; [|discriminate]. cbn [bind] in *.
    destruct (rows_loop subset sds []) as [rows|e]; [|discriminate].
    cbn [bind] in H.
    destruct (0 <? Z.of_nat (length rows)) eqn:Hlen.
    - destruct (sort_values_sorted _ _ _ _ Htot H) as [Hs Hp]. eauto.
    - injection H as <-. destruct rows; [|discriminate].
      split; [constructor | eauto]. }
  destruct Hmain as [Hs Hrows]. split; [exact Hs|]. split; [|exact Hrows].
  intros Htr.
  apply (@Sorted_StronglySorted _ _ (row_le_trans cell_le _ Htr)). exact Hs.
Qed.

(** The two sort columns are among the selected ones at every tier. *)
Lemma sort_columns_selected (table_verbosity : Z) :
  0 <= table_verbosity ->
  exists names,
    selected_names table_verbosity = Ok names /\
    In "algo" names /\ In "env_name" names.
Proof.
  intros H0.
  destruct (Z_lt_le_dec table_verbosity 3) as [Hlt|Hge].
  - assert (Hc : table_verbosity = 0 \/ table_verbosity = 1 \/ table_verbosity = 2)
      by lia.
    destruct Hc as [-> | [-> | ->]]; eexists;
      (split; [first [apply selected_names_0 | apply selected_names_1
                     | apply selected_names_2]|]);
      simpl; tauto.
  - exists (od_keys table_entry_fns). split; [|simpl; tauto].
    unfold selected_names.
    rewrite (proj1 (full_registry_beyond_tiers_aux table_verbosity Hge)).
    reflexivity.
Qed.

Lemma text_cell_le_total : total_order text_cell_le.
Proof.
  intros a b. destruct a, b; simpl; auto. apply String.leb_total.
Qed.

Lemma analyze_imitation_sorted_witness :
  total_order text_cell_le /\
  analyze_imitation text_cell_le unsorted_runs all_runs_args 0
    = ([], Ok sorted_table) /\
  Sorted (row_le text_cell_le ["algo"; "env_name"]) sorted_table.
Proof.
  assert (H : analyze_imitation text_cell_le unsorted_runs all_runs_args 0
              = ([], Ok sorted_table)) by (vm_compute; reflexivity).
  split; [exact text_cell_le_total|]. split; [exact H|].
  exact (proj1 (analyze_imitation_sorted text_cell_le unsorted_runs
                  all_runs_args 0 [] sorted_table text_cell_le_total H)).
Defined.

(** * Further properties *)

(** ** Gathering *)

Lemma load_loop_abort (w : world) (e : exn) (d : string) (after : list string) :
  load_from_dir w d = LoadError e ->
  forall before acc warned,
    loads_or_malformed w before ->
    load_loop w (before ++ d :: after) acc warned
    = (warned ++ List.map invalid_json (malformed w before), Raise e).
Proof.
  intros Hd. induction before as [|b before IH]; intros acc warned Hok; simpl.
  - rewrite Hd. now rewrite app_nil_r.
  - assert (Hrest : loads_or_malformed w before).
    { intros d' e' Hin. apply Hok. now right. }
    destruct (load_from_dir w b) as [sd| |e'] eqn:Hb.
    + now rewrite IH.
    + rewrite IH by exact Hrest. simpl. now rewrite <- app_assoc.
    + exfalso. apply (Hok b e'); [now left | exact Hb].
Qed.

Lemma load_loop_ok_inv (w : world) (dirs : list string) :
  forall acc warned warned' l,
    load_loop w dirs acc warned = (warned', Ok l) ->
    loads_or_malformed w dirs.
Proof.
  induction dirs as [|d dirs IH]; intros acc warned warned' l H; simpl in H.
  - intros d' e [].
  - destruct (load_from_dir w d) as [sd| |e] eqn:Hd; try discriminate;
      apply IH in H; intros d' e' [<-|Hin]; try congruence; now apply H.
Qed.

Lemma parsed_malformed_length (w : world) (dirs : list string) :
  loads_or_malformed w dirs ->
  (length (malformed w dirs) + length (parsed w dirs) = length dirs)%nat.
Proof.
  induction dirs as [|d dirs IH]; intros Hok; simpl; [reflexivity|].
  assert (Hrest : loads_or_malformed w dirs).
  { intros d' e Hin. apply Hok. now right. }
  specialize (IH Hrest).
  destruct (load_from_dir w d) as [sd| |e] eqn:Hd; simpl; try lia.
  exfalso. apply (Hok d e); [now left | exact Hd].
Qed.

Lemma list_of_no_stage (sds : list SacredDicts) : list_of [] sds = Ok sds.
Proof.
  induction sds as [|sd sds IH]; simpl; [reflexivity|]. now rewrite IH.
Qed.

(** X1: a directory whose loading fails with another exception than a JSON
    parse error aborts gathering: the exception propagates, the warnings of
    the directories scanned before it have been issued, and no record is
    returned, whatever the filters and the directories after it. *)
Theorem gather_aborts_on_load_error (w : world) (a : gather_args)
    (before after : list string) (d : string) (e : exn) :
  scanned w a = before ++ d :: after ->
  loads_or_malformed w before ->
  load_from_dir w d = LoadError e ->
  _gather_sacred_dicts w a
  = (List.map invalid_json (malformed w before), Raise e).
Proof.
  intros Hdirs Hok Hd. unfold _gather_sacred_dicts.
  unfold scanned in Hdirs. rewrite Hdirs.
  rewrite (load_loop_abort w e d after Hd before [] [] Hok). reflexivity.
Qed.

Lemma runs_with_gone_before : loads_or_malformed runs_with_gone ["runs/a"].
Proof. intros d e [<-|[]]. discriminate. Qed.

Lemma gather_aborts_on_load_error_witness :
  _gather_sacred_dicts runs_with_gone skip_failed_args
  = (["Invalid JSON file in runs/a"], Raise OSError).
Proof.
  exact (gather_aborts_on_load_error runs_with_gone skip_failed_args
           ["runs/a"] ["runs/c"] "runs/gone" OSError
           eq_refl runs_with_gone_before eq_refl).
Defined.

(** X2: when no directory fails in another way than by a parse error and no
    filter is enabled, every scanned directory is accounted for once: the
    warnings and the returned records together are as many as the
    directories. *)
Theorem gather_accounts_for_every_directory (w : world) (a : gather_args) :
  loads_or_malformed w (scanned w a) ->
  run_name a = None -> env_name a = None -> skip_failed_runs a = false ->
  exists warned sds,
    _gather_sacred_dicts w a = (warned, Ok sds) /\
    sds = parsed w (scanned w a) /\
    (length warned + length sds = length (scanned w a))%nat.
Proof.
  intros Hok Hrn Hen Hskip.
  exists (List.map invalid_json (malformed w (scanned w a))),
         (parsed w (scanned w a)).
  split; [|split; [reflexivity|]].
  - unfold _gather_sacred_dicts. fold (scanned w a).
    rewrite (load_loop_spec w _ Hok), Hrn, Hen, Hskip. simpl.
    now rewrite list_of_no_stage.
  - rewrite length_map. now apply parsed_malformed_length.
Qed.

Lemma gather_accounts_for_every_directory_witness :
  exists warned sds,
    _gather_sacred_dicts three_runs all_runs_args = (warned, Ok sds) /\
    sds = [sd_failed; sd_completed] /\
    (length warned + length sds = 3)%nat.
Proof.
  exact (gather_accounts_for_every_directory three_runs all_runs_args
           three_runs_load eq_refl eq_refl eq_refl).
Defined.

(** X3: gathering over two lists of source directories put one after the
    other gives, when each of the two gatherings returns, the warnings of
    the first followed by those of the second and the records of the first
    followed by those of the second. *)
Theorem gather_concatenates (w : world) (a : gather_args)
    (dirs1 dirs2 warned1 warned2 : list string) (sds1 sds2 : list SacredDicts) :
  _gather_sacred_dicts w (with_source_dirs a dirs1) = (warned1, Ok sds1) ->
  _gather_sacred_dicts w (with_source_dirs a dirs2) = (warned2, Ok sds2) ->
  _gather_sacred_dicts w (with_source_dirs a (dirs1 ++ dirs2))
  = (warned1 ++ warned2, Ok (sds1 ++ sds2)).
Proof.
  unfold _gather_sacred_dicts. simpl. intros H1 H2.
  set (l1 := concat (List.map (filter_subdirs w) dirs1)) in *.
  set (l2 := concat (List.map (filter_subdirs w) dirs2)) in *.
  assert (Hok : forall l, (exists wr r,
              load_loop w l [] [] = (wr, Ok r)) -> loads_or_malformed w l).
  { intros l (wr & r & H). exact (load_loop_ok_inv w l _ _ _ _ H). }
  destruct (load_loop w l1 [] []) as [wa [la|ea]] eqn:E1;
    [|simpl in H1; discriminate].
  destruct (load_loop w l2 [] []) as [wb [lb|eb]] eqn:E2;
    [|simpl in H2; discriminate].
  assert (Hok1 : loads_or_malformed w l1) by (apply Hok; eauto).
  assert (Hok2 : loads_or_malformed w l2) by (apply Hok; eauto).
  rewrite (load_loop_spec w l1 Hok1) in E1.
  rewrite (load_loop_spec w l2 Hok2) in E2.
  injection E1 as <- <-. injection E2 as <- <-.
  injection H1 as <- H1. injection H2 as <- H2. simpl in H1, H2.
  rewrite map_app, concat_app. fold l1 l2.
  assert (Hok12 : loads_or_malformed w (l1 ++ l2)).
  { intros d e Hin. apply in_app_or in Hin as [Hin|Hin];
      [now apply Hok1 | now apply Hok2]. }
  rewrite (load_loop_spec w _ Hok12). simpl.
  rewrite malformed_app, parsed_app, map_app, list_of_app, H1, H2.
  reflexivity.
Qed.

Lemma gather_concatenates_witness :
  _gather_sacred_dicts three_runs
    (with_source_dirs skip_failed_args (["runs"] ++ ["runs"]))
  = (["Invalid JSON file in runs/a"] ++ ["Invalid JSON file in runs/a"],
     Ok ([sd_completed] ++ [sd_completed])).
Proof.
  exact (gather_concatenates three_runs skip_failed_args ["runs"] ["runs"]
           _ _ _ _ eq_refl eq_refl).
Defined.

(** ** What the filters keep *)

Lemma eq_str_spec (v : value) (s : string) : eq_str v s = true <-> v = VStr s.
Proof.
  destruct v; simpl; try (split; [discriminate | congruence]).
  rewrite String.eqb_eq. split; congruence.
Qed.

Lemma run_name_pred_spec (r : string) (sd : SacredDicts) (b : bool) :
  run_name_pred r sd = Ok b ->
  (b = true <-> get (run sd) "experiment.name" = Ok (VStr r)).
Proof.
  unfold run_name_pred.
  destruct (get (run sd) "experiment.name") as [v|e]; simpl; [|discriminate].
  intros H. injection H as <-. rewrite eq_str_spec. split; congruence.
Qed.

Lemma env_name_pred_spec (e : string) (sd : SacredDicts) (b : bool) :
  env_name_pred e sd = Ok b ->
  (b = true <-> get (config sd) "env_name" = Ok (VStr e)).
Proof.
  unfold env_name_pred.
  destruct (get (config sd) "env_name") as [v|x]; simpl; [|discriminate].
  intros H. injection H as <-. rewrite eq_str_spec. split; congruence.
Qed.

Lemma not_failed_pred_spec (sd : SacredDicts) (b : bool) :
  not_failed_pred sd = Ok b ->
  (b = true <-> get (run sd) "status" <> Ok (VStr "FAILED")).
Proof.
  unfold not_failed_pred, ne_str.
  destruct (get (run sd) "status") as [v|x]; simpl; [|discriminate].
  intros H. injection H as <-.
  destruct (eq_str v "FAILED") eqn:E; simpl.
  - apply eq_str_spec in E. subst v. split; [discriminate | congruence].
  - split; [|reflexivity]. intros _ Hv. injection Hv as ->.
    assert (eq_str (VStr "FAILED") "FAILED" = true) by reflexivity. congruence.
Qed.

Lemma forall_some {A} (x : A) (P : A -> Prop) :
  (forall y, Some x = Some y -> P y) <-> P x.
Proof. split; [auto | intros H y [= <-]; exact H]. Qed.

Lemma forall_none {A} (P : A -> Prop) :
  (forall y, @None A = Some y -> P y) <-> True.
Proof. split; [auto | intros _ y; discriminate]. Qed.

(** A record passes the chain exactly when the enabled filters keep it. *)
Lemma passes_spec (rn en : option string) (skip : bool) (sd : SacredDicts)
    (b : bool) :
  passes (filter_stages rn en skip) sd = Ok b ->
  (b = true <-> kept_by rn en skip sd).
Proof.
  unfold filter_stages, kept_by.
  destruct rn as [r|], en as [e|], skip; simpl;
    rewrite ?forall_some, ?forall_none;
    try (destruct (run_name_pred r sd) as [[|]|] eqn:E1; simpl;
         try apply run_name_pred_spec in E1);
    try (destruct (env_name_pred e sd) as [[|]|] eqn:E2; simpl;
         try apply env_name_pred_spec in E2);
    try (destruct (not_failed_pred sd) as [[|]|] eqn:E3; simpl;
         try apply not_failed_pred_spec in E3);
    intros H; try discriminate; injection H as <-;
    intuition (try discriminate; try congruence).
Qed.

(** X4: the filters compose by conjunction: when the chain of enabled
    filters returns, a record is in the output exactly when it is in the
    input and its run name is the requested one (if a run name is given),
    its environment name is the requested one (if one is given) and its
    status is not ["FAILED"] (if failed runs are skipped). *)
Theorem filters_keep_exactly (rn en : option string) (skip : bool)
    (sds out : list SacredDicts) :
  list_of (filter_stages rn en skip) sds = Ok out ->
  forall sd, In sd out <-> In sd sds /\ kept_by rn en skip sd.
Proof.
  revert out. induction sds as [|x sds IH]; simpl; intros out H sd.
  - injection H as <-. simpl. tauto.
  - destruct (passes (filter_stages rn en skip) x) as [b|e] eqn:Hx;
      simpl in H; [|discriminate].
    destruct (list_of (filter_stages rn en skip) sds) as [rest|e];
      simpl in H; [|discriminate].
    injection H as <-. specialize (IH rest eq_refl sd).
    pose proof (passes_spec rn en skip x b Hx) as Hb.
    destruct b; simpl; rewrite IH.
    + split.
      * intros [<-|[Hin Hk]]; [split; [now left | now apply Hb] | tauto].
      * intros [[<-|Hin] Hk]; [now left | right; tauto].
    + split.
      * intros [Hin Hk]. tauto.
      * intros [[<-|Hin] Hk]; [|tauto].
        apply Hb in Hk. discriminate.
Qed.

Lemma filters_keep_exactly_witness :
  In sd_completed [sd_completed; sd_completed] <->
  In sd_completed [sd_failed; sd_bare; sd_completed; sd_completed] /\
  kept_by None (Some "CartPole-v1") true sd_completed.
Proof.
  exact (filters_keep_exactly None (Some "CartPole-v1") true
           [sd_failed; sd_bare; sd_completed; sd_completed]
           [sd_completed; sd_completed] eq_refl sd_completed).
Defined.

Lemma list_of_all_pass (stages : list pred) (sds : list SacredDicts) :
  forall out,
    list_of stages sds = Ok out ->
    Forall (fun sd => passes stages sd = Ok true) out.
Proof.
  induction sds as [|x sds IH]; simpl; intros out H.
  - injection H as <-. constructor.
  - destruct (passes stages x) as [b|e] eqn:Hx; simpl in H; [|discriminate].
    destruct (list_of stages sds) as [rest|e]; simpl in H; [|discriminate].
    injection H as <-. specialize (IH rest eq_refl).
    destruct b; [constructor; assumption | assumption].
Qed.

Lemma list_of_fixed (stages : list pred) (sds : list SacredDicts) :
  Forall (fun sd => passes stages sd = Ok true) sds ->
  list_of stages sds = Ok sds.
Proof.
  induction 1 as [|x sds Hx _ IH]; simpl; [reflexivity|].
  now rewrite Hx, IH.
Qed.

(** X5: filtering is idempotent: the chain of filters applied to its own
    output returns that output unchanged, for every combination of enabled
    filters. *)
Theorem filters_idempotent (rn en : option string) (skip : bool)
    (sds out : list SacredDicts) :
  list_of (filter_stages rn en skip) sds = Ok out ->
  list_of (filter_stages rn en skip) out = Ok out.
Proof.
  intros H. apply list_of_fixed. exact (list_of_all_pass _ _ _ H).
Qed.

Lemma filters_idempotent_witness :
  cartpole_failed_filter [sd_completed; sd_completed]
  = Ok [sd_completed; sd_completed].
Proof.
  exact (filters_idempotent None (Some "CartPole-v1") true
           [sd_failed; sd_bare; sd_completed; sd_completed]
           [sd_completed; sd_completed] eq_refl).
Defined.

(** ** Selecting the columns *)

Lemma list_filter_sublist {A} (f : A -> bool) (l : list A) :
  List.filter f l `sublist_of` l.
Proof.
  induction l as [|x l IH]; simpl; [constructor|].
  destruct (f x); [now apply sublist_skip | now apply sublist_cons].
Qed.

Lemma sublist_map {A B} (f : A -> B) (l1 l2 : list A) :
  l1 `sublist_of` l2 -> List.map f l1 `sublist_of` List.map f l2.
Proof. induction 1; simpl; now constructor. Qed.

(** The tier table, with its unions written out. *)
Lemma tiers_explicit :
  table_verbosity_mapping
  = [verbosity_0;
     verbosity_0 ∪ {[ "n_expert_demos" ]};
     verbosity_0 ∪ {[ "n_expert_demos" ]}
       ∪ {[ "status"; "imit_expert_ratio"; "exp_command"; "run_name" ]}].
Proof. reflexivity. Qed.

(** At every tier the selection is the registry restricted to a set of
    names that has the names of tier 0. *)
Lemma selection_by_keys (table_verbosity : Z) :
  0 <= table_verbosity ->
  exists keys,
    _get_table_entry_fns_subset table_verbosity
    = Ok (List.filter (by_keys keys) table_entry_fns) /\
    (forall c, c ∈ verbosity_0 -> c ∈ keys).
Proof.
  intros H0.
  destruct (Z_lt_le_dec table_verbosity 3) as [Hlt|Hge].
  - assert (Hc : table_verbosity = 0 \/ table_verbosity = 1 \/ table_verbosity = 2)
      by lia.
    destruct Hc as [-> | [-> | ->]].
    + exists verbosity_0. split; [|auto].
      apply selection_in_registry_order; [lia | reflexivity].
    + exists (verbosity_0 ∪ {[ "n_expert_demos" ]}).
      split; [|intros c Hc; rewrite elem_of_union; auto].
      apply selection_in_registry_order; [lia | reflexivity].
    + exists (verbosity_0 ∪ {[ "n_expert_demos" ]}
              ∪ {[ "status"; "imit_expert_ratio"; "exp_command"; "run_name" ]}).
      split; [|intros c Hc; rewrite !elem_of_union; auto].
      apply selection_in_registry_order; [lia | reflexivity].
  - exists (verbosity_0 ∪ {[ "n_expert_demos" ]}
            ∪ {[ "status"; "imit_expert_ratio"; "exp_command"; "run_name" ]}).
    split; [|intros c Hc; rewrite !elem_of_union; auto].
    rewrite (proj1 (full_registry_beyond_tiers_aux table_verbosity Hge)).
    reflexivity.
Qed.

Lemma selection_nonnegative (table_verbosity : Z) (subset : odict entry_fn) :
  _get_table_entry_fns_subset table_verbosity = Ok subset ->
  0 <= table_verbosity.
Proof.
  intros Hsel.
  destruct (Z_lt_le_dec table_verbosity 0) as [Hneg|]; [|assumption].
  unfold _get_table_entry_fns_subset in Hsel.
  replace (0 <=? table_verbosity) with false in Hsel
    by (symmetry; apply Z.leb_gt; lia). discriminate.
Qed.

Lemma selection_sublist (table_verbosity : Z) (subset : odict entry_fn) :
  _get_table_entry_fns_subset table_verbosity = Ok subset ->
  subset `sublist_of` table_entry_fns /\ NoDup (od_keys subset).
Proof.
  intros Hsel. pose proof (selection_nonnegative _ _ Hsel) as H0.
  destruct (selection_by_keys table_verbosity H0) as [keys [Hs _]].
  assert (Heq : subset = List.filter (by_keys keys) table_entry_fns)
    by congruence.
  subst subset.
  assert (Hsub : List.filter (by_keys keys) table_entry_fns
                 `sublist_of` table_entry_fns) by apply list_filter_sublist.
  split; [exact Hsub|].
  eapply sublist_NoDup; [apply table_entry_fns_distinct|].
  now apply sublist_map.
Qed.

(** X6: a negative verbosity fails the assertion of the selection, and
    [analyze_imitation] then raises before it scans any directory: no
    warning is issued, whatever the filesystem holds. *)
Theorem negative_verbosity_rejected (cell_le : value -> value -> bool)
    (w : world) (a : gather_args) (table_verbosity : Z) :
  table_verbosity < 0 ->
  _get_table_entry_fns_subset table_verbosity = Raise AssertionError /\
  analyze_imitation cell_le w a table_verbosity = ([], Raise AssertionError).
Proof.
  intros Hneg.
  assert (H : _get_table_entry_fns_subset table_verbosity = Raise AssertionError).
  { unfold _get_table_entry_fns_subset.
    replace (0 <=? table_verbosity) with false
      by (symmetry; apply Z.leb_gt; lia). reflexivity. }
  split; [exact H|]. unfold analyze_imitation. now rewrite H.
Qed.

Lemma negative_verbosity_rejected_witness :
  analyze_imitation text_cell_le three_runs skip_failed_args (-1)
  = ([], Raise AssertionError).
Proof.
  exact (proj2 (negative_verbosity_rejected text_cell_le three_runs
                  skip_failed_args (-1) eq_refl)).
Defined.

(** X7: at every verbosity from 0 on the selection succeeds and is a
    subsequence of the registry: its columns are registry columns with their
    own entry functions, in registry order, none of them twice. *)
Theorem selection_subsequence_of_registry (table_verbosity : Z) :
  0 <= table_verbosity ->
  exists subset,
    _get_table_entry_fns_subset table_verbosity = Ok subset /\
    subset `sublist_of` table_entry_fns /\
    NoDup (od_keys subset).
Proof.
  intros H0. destruct (selection_by_keys table_verbosity H0) as [keys [Hs _]].
  eexists. split; [exact Hs|]. exact (selection_sublist _ _ Hs).
Qed.

Lemma selection_subsequence_of_registry_witness :
  exists subset,
    _get_table_entry_fns_subset 1 = Ok subset /\
    subset `sublist_of` table_entry_fns /\
    NoDup (od_keys subset).
Proof. apply (selection_subsequence_of_registry 1). lia. Defined.

Lemma in_filter_by_keys (keys : gset string) (c : string) :
  In c (od_keys (List.filter (by_keys keys) table_entry_fns)) <->
  In c (od_keys table_entry_fns) /\ c ∈ keys.
Proof.
  unfold od_keys. rewrite !in_map_iff. split.
  - intros [kv [<- Hin]]. apply filter_In in Hin as [Hin Hk].
    split; [exists kv; auto|]. unfold by_keys in Hk.
    now apply bool_decide_eq_true in Hk.
  - intros [[kv [<- Hin]] Hk]. exists kv. split; [reflexivity|].
    apply filter_In. split; [exact Hin|]. unfold by_keys.
    now apply bool_decide_eq_true.
Qed.

(** X8: the tier table and the registry agree: at each tier of the table
    the selected column names are exactly the names of the tier's set, so
    every name listed in a tier is a column of the registry. *)
Theorem selection_names_are_tier_names (table_verbosity : Z)
    (keys_subset : gset string) :
  0 <= table_verbosity ->
  table_verbosity_mapping !! Z.to_nat table_verbosity = Some keys_subset ->
  exists names,
    selected_names table_verbosity = Ok names /\
    forall c, In c names <-> c ∈ keys_subset.
Proof.
  intros H0 Hk.
  exists (od_keys (List.filter (by_keys keys_subset) table_entry_fns)).
  split.
  - unfold selected_names.
    now rewrite (selection_in_registry_order _ _ H0 Hk).
  - intros c. rewrite in_filter_by_keys. split; [tauto|].
    intros Hc. split; [|exact Hc].
    rewrite tiers_explicit in Hk.
    destruct (Z.to_nat table_verbosity) as [|[|[|n]]]; simpl in Hk;
      [| | |discriminate]; injection Hk as <-;
      unfold verbosity_0 in Hc;
      rewrite ?elem_of_union, ?elem_of_singleton in Hc;
      simpl; intuition (subst; auto 12).
Qed.

Lemma selection_names_are_tier_names_witness :
  exists names,
    selected_names 1 = Ok names /\
    forall c, In c names <-> c ∈ verbosity_0 ∪ {[ "n_expert_demos" ]}.
Proof.
  exact (selection_names_are_tier_names 1 _ ltac:(lia) eq_refl).
Defined.

(** ** Building the table *)

Lemma lookup_key_app (k : string) (l1 l2 : dict) :
  lookup_key k (l1 ++ l2)
  = match lookup_key k l1 with
    | Some v => Some v
    | None => lookup_key k l2
    end.
Proof.
  induction l1 as [|[k' v] l1 IH]; simpl; [reflexivity|].
  destruct (String.eqb k' k); [reflexivity | exact IH].
Qed.

Lemma lookup_key_absent (k : string) (l : dict) :
  ~ In k (od_keys l) -> lookup_key k l = None.
Proof.
  induction l as [|[k' v] l IH]; simpl; [reflexivity|]. intros Hk.
  destruct (String.eqb k' k) eqn:E.
  - apply String.eqb_eq in E. tauto.
  - apply IH. tauto.
Qed.

Lemma lookup_key_present (k : string) (l : dict) :
  In k (od_keys l) -> exists v, lookup_key k l = Some v.
Proof.
  induction l as [|[k' v] l IH]; simpl; [tauto|]. intros [->|Hk].
  - rewrite String.eqb_refl. eauto.
  - destruct (String.eqb k' k); eauto.
Qed.

(** The inner loop appends one cell per column to the row, under the
    column's name, when the names are distinct. *)
Lemma row_loop_cells (sd : SacredDicts) (items : odict entry_fn) :
  forall r r',
    NoDup (od_keys r ++ od_keys items) ->
    row_loop items sd r = Ok r' ->
    od_keys r' = od_keys r ++ od_keys items /\
    (forall k, In k (od_keys r) -> cell k r' = cell k r) /\
    (forall k f, In (k, f) items -> f sd = Ok (cell k r')).
Proof.
  induction items as [|[k0 f0] items IH]; simpl; intros r r' Hnd H.
  - injection H as <-. rewrite app_nil_r. repeat split; tauto.
  - destruct (f0 sd) as [v|e] eqn:Hf; simpl in H; [|discriminate].
    assert (Hk0 : ~ In k0 (od_keys r)).
    { apply NoDup_app in Hnd as (_ & Hdisj & _). intros Hin.
      apply list_elem_of_In in Hin. apply (Hdisj k0 Hin). simpl. left. }
    rewrite (od_set_fresh k0 v r Hk0) in H.
    assert (Hnd' : NoDup (od_keys (r ++ [(k0, v)]) ++ od_keys items)).
    { unfold od_keys in *. rewrite map_app, <- app_assoc. exact Hnd. }
    destruct (IH _ _ Hnd' H) as (Hkeys & Hold & Hnew).
    assert (Hcell0 : cell k0 r' = v).
    { rewrite (Hold k0).
      - unfold cell. rewrite lookup_key_app, (lookup_key_absent k0 r Hk0).
        simpl. now rewrite String.eqb_refl.
      - unfold od_keys. rewrite map_app. apply in_or_app. right. now left. }
    split; [|split].
    + rewrite Hkeys. unfold od_keys. rewrite map_app, <- app_assoc. reflexivity.
    + intros k Hk. rewrite (Hold k).
      * unfold cell. rewrite lookup_key_app.
        destruct (lookup_key_present k r Hk) as [x ->]. reflexivity.
      * unfold od_keys. rewrite map_app. apply in_or_app. now left.
    + intros k f [Heq|Hin].
      * injection Heq as <- <-. now rewrite Hcell0.
      * now apply Hnew.
Qed.

Lemma row_loop_row_of (subset : odict entry_fn) (sd : SacredDicts) (r : row) :
  NoDup (od_keys subset) ->
  row_loop subset sd [] = Ok r -> row_of subset sd r.
Proof.
  intros Hnd H.
  destruct (row_loop_cells sd subset [] r Hnd H) as (Hk & _ & Hc).
  split; assumption.
Qed.

Lemma rows_loop_rows (subset : odict entry_fn) (sds : list SacredDicts) :
  forall rows out,
    rows_loop subset sds rows = Ok out ->
    exists new,
      out = rows ++ new /\
      Forall2 (fun sd r => row_loop subset sd [] = Ok r) sds new.
Proof.
  induction sds as [|sd sds IH]; simpl; intros rows out H.
  - injection H as <-. exists []. rewrite app_nil_r. split; [reflexivity|constructor].
  - destruct (row_loop subset sd []) as [r|e] eqn:Hr; simpl in H; [|discriminate].
    destruct (IH _ _ H) as (new & -> & Hall).
    exists (r :: new). rewrite <- app_assoc. split; [reflexivity|].
    constructor; assumption.
Qed.

Lemma Forall2_right {A B} (R : A -> B -> Prop) (P : B -> Prop)
    (l1 : list A) (l2 : list B) :
  Forall2 R l1 l2 -> (forall x y, R x y -> P y) -> Forall P l2.
Proof. induction 1; intros HP; constructor; eauto. Qed.

(** The steps of a call of [analyze_imitation] that returns a table. *)
Lemma analyze_imitation_inv (cell_le : value -> value -> bool)
    (w : world) (a : gather_args) (table_verbosity : Z)
    (warned : list string) (df : list row) :
  analyze_imitation cell_le w a table_verbosity = (warned, Ok df) ->
  exists subset sds rows,
    _get_table_entry_fns_subset table_verbosity = Ok subset /\
    _gather_sacred_dicts w a = (warned, Ok sds) /\
    rows_loop subset sds [] = Ok rows /\
    df ≡ₚ rows.
Proof.
  unfold analyze_imitation. intros H.
  destruct (_get_table_entry_fns_subset table_verbosity) as [subset|e];
    [|discriminate].
  destruct (_gather_sacred_dicts w a) as [warned' gathered].
  injection H as -> H.
  destruct gathered as [sds|e]; [|discriminate]. cbn [bind] in H.
  destruct (rows_loop subset sds []) as [rows|e] eqn:Hrows; [|discriminate].
  cbn [bind] in H. exists subset, sds, rows.
  split; [reflexivity|]. split; [reflexivity|]. split; [exact Hrows|].
  destruct (0 <? Z.of_nat (length rows)).
  - unfold sort_values in H. destruct (missing_column _ _); [discriminate|].
    destruct (forallb _ rows); [|discriminate].
    injection H as <-. apply stable_sort_permutation.
  - now injection H as <-.
Qed.

Lemma table_rows_inv (cell_le : value -> value -> bool)
    (w : world) (a : gather_args) (table_verbosity : Z)
    (warned : list string) (df : list row) :
  analyze_imitation cell_le w a table_verbosity = (warned, Ok df) ->
  exists subset sds rows,
    _get_table_entry_fns_subset table_verbosity = Ok subset /\
    _gather_sacred_dicts w a = (warned, Ok sds) /\
    Forall2 (row_of subset) sds rows /\
    df ≡ₚ rows.
Proof.
  intros H.
  destruct (analyze_imitation_inv _ _ _ _ _ _ H)
    as (subset & sds & rows & Hsel & Hg & Hrows & Hperm).
  assert (Hnd : NoDup (od_keys subset)) by apply (selection_sublist _ _ Hsel).
  destruct (rows_loop_rows _ _ _ _ Hrows) as (new & -> & Hall).
  simpl in *.
  exists subset, sds, new.
  split; [assumption|]. split; [assumption|]. split; [|assumption].
  eapply Forall2_impl; [exact Hall|]. intros sd r Hr.
  now apply row_loop_row_of.
Qed.

(** X9: the list of rows that [analyze_imitation] has built when it makes
    a frame of it holds one row for each gathered record, in the order of
    gathering: each row has exactly the selected column names, in registry
    order, and under each name the value that the column's entry function
    returns for that record. *)
Theorem built_rows_project_records (w : world) (a : gather_args)
    (table_verbosity : Z) (rows : list row) :
  built_rows w a table_verbosity = Ok rows ->
  exists subset warned sds,
    _get_table_entry_fns_subset table_verbosity = Ok subset /\
    _gather_sacred_dicts w a = (warned, Ok sds) /\
    Forall2 (row_of subset) sds rows /\
    length rows = length sds /\
    Forall (fun r => od_keys r = od_keys subset) rows.
Proof.
  unfold built_rows. intros H.
  destruct (_get_table_entry_fns_subset table_verbosity) as [subset|e] eqn:Hsel;
    [|discriminate].
  destruct (_gather_sacred_dicts w a) as [warned gathered].
  destruct gathered as [sds|e]; [|discriminate]. cbn [bind snd] in H.
  destruct (rows_loop_rows _ _ _ _ H) as (new & Hnew & Hall).
  simpl in Hnew. subst new.
  assert (Hrow : Forall2 (row_of subset) sds rows).
  { eapply Forall2_impl; [exact Hall|]. intros sd r Hr.
    apply row_loop_row_of; [apply (selection_sublist _ _ Hsel) | exact Hr]. }
  exists subset, warned, sds.
  split; [reflexivity|]. split; [reflexivity|]. split; [exact Hrow|]. split.
  - symmetry. eapply Forall2_length; exact Hrow.
  - eapply Forall2_right; [exact Hrow|]. intros sd r [Hk _]. exact Hk.
Qed.

Lemma built_rows_project_records_witness :
  exists subset warned sds,
    _get_table_entry_fns_subset 0 = Ok subset /\
    _gather_sacred_dicts unsorted_runs all_runs_args = (warned, Ok sds) /\
    Forall2 (row_of subset) sds unsorted_table /\
    length unsorted_table = length sds /\
    Forall (fun r => od_keys r = od_keys subset) unsorted_table.
Proof.
  assert (H : built_rows unsorted_runs all_runs_args 0 = Ok unsorted_table)
    by (vm_compute; reflexivity).
  exact (built_rows_project_records unsorted_runs all_runs_args 0
           unsorted_table H).
Defined.

Lemma verbosity_0_columns :
  "algo" ∈ verbosity_0 /\ "env_name" ∈ verbosity_0 /\
  "expert_return_summary" ∈ verbosity_0 /\ "imit_return_summary" ∈ verbosity_0.
Proof.
  unfold verbosity_0. rewrite !elem_of_union, !elem_of_singleton. tauto.
Qed.

(** The columns of tier 0, with their entry functions, are in every
    selection. *)
Lemma selection_has_tier_0 (table_verbosity : Z) (subset : odict entry_fn) :
  _get_table_entry_fns_subset table_verbosity = Ok subset ->
  forall k f, In (k, f) table_entry_fns -> k ∈ verbosity_0 -> In (k, f) subset.
Proof.
  intros Hsel k f Hin Hk.
  pose proof (selection_nonnegative _ _ Hsel) as H0.
  destruct (selection_by_keys table_verbosity H0) as [keys [Hs Hkeys]].
  assert (Heq : subset = List.filter (by_keys keys) table_entry_fns)
    by congruence.
  subst subset. apply filter_In. split; [exact Hin|].
  unfold by_keys. apply bool_decide_eq_true. now apply Hkeys.
Qed.

Lemma missing_column_none (by_cols columns : list string) :
  (forall c, In c by_cols -> In c columns) ->
  missing_column by_cols columns = None.
Proof.
  induction by_cols as [|c by_cols IH]; simpl; intros H; [reflexivity|].
  assert (He : existsb (String.eqb c) columns = true).
  { apply existsb_exists. exists c. split; [apply H; now left|].
    apply String.eqb_refl. }
  rewrite He. apply IH. intros c' Hc'. apply H. now right.
Qed.

Lemma sort_columns_in_rows (table_verbosity : Z) (subset : odict entry_fn)
    (sds : list SacredDicts) (rows : list row) :
  _get_table_entry_fns_subset table_verbosity = Ok subset ->
  rows_loop subset sds [] = Ok rows ->
  forall r rest, rows = r :: rest ->
    missing_column ["algo"; "env_name"] (od_keys r) = None.
Proof.
  intros Hsel Hrows r rest ->.
  destruct (rows_loop_rows _ _ _ _ Hrows) as (new & Hnew & Hall).
  simpl in Hnew. subst new.
  destruct sds as [|sd sds]; inversion Hall as [|? ? ? ? Hr _]; subst.
  pose proof (row_loop_row_of subset sd r
                (proj2 (selection_sublist _ _ Hsel)) Hr) as [Hk _].
  rewrite Hk. apply missing_column_none. intros c Hc.
  destruct verbosity_0_columns as (Ha & He & _).
  assert (Hpair : exists f, In (c, f) table_entry_fns /\ c ∈ verbosity_0).
  { destruct Hc as [<-|[<-|[]]]; eexists; (split; [|eassumption]);
      simpl; tauto. }
  destruct Hpair as (f & Hin & Hv).
  apply in_map_iff. exists (c, f). split; [reflexivity|].
  now apply (selection_has_tier_0 _ _ Hsel).
Qed.

(** X10: the two columns that [analyze_imitation] sorts by, [algo] and
    [env_name], are in the first tier and so in every selection: at every
    verbosity each built row has an entry under both names, so neither
    column is missing from the frame that is sorted. *)
Theorem sort_columns_in_every_row (w : world) (a : gather_args)
    (table_verbosity : Z) (rows : list row) :
  built_rows w a table_verbosity = Ok rows ->
  Forall (fun r => (exists x, lookup_key "algo" r = Some x) /\
                   (exists y, lookup_key "env_name" r = Some y)) rows /\
  forall r rest, rows = r :: rest ->
    missing_column ["algo"; "env_name"] (od_keys r) = None.
Proof.
  unfold built_rows. intros H.
  destruct (_get_table_entry_fns_subset table_verbosity) as [subset|e] eqn:Hsel;
    [|discriminate].
  destruct (_gather_sacred_dicts w a) as [warned gathered].
  destruct gathered as [sds|e]; [|discriminate]. cbn [bind snd] in H.
  split; [|exact (sort_columns_in_rows _ _ _ _ Hsel H)].
  destruct (rows_loop_rows _ _ _ _ H) as (new & Hnew & Hall).
  simpl in Hnew. subst new.
  eapply Forall2_right; [exact Hall|]. intros sd r Hr. simpl in Hr.
  pose proof (row_loop_row_of subset sd r
                (proj2 (selection_sublist _ _ Hsel)) Hr) as [Hk _].
  destruct verbosity_0_columns as (Ha & He & _).
  split; apply lookup_key_present; rewrite Hk; apply in_map_iff.
  - exists ("algo", _get_algo_name). split; [reflexivity|].
    apply (selection_has_tier_0 _ _ Hsel); [simpl; tauto | exact Ha].
  - eexists ("env_name", _). split; [reflexivity|].
    apply (selection_has_tier_0 _ _ Hsel); [simpl; tauto | exact He].
Qed.

Lemma sort_columns_in_every_row_witness :
  Forall (fun r => (exists x, lookup_key "algo" r = Some x) /\
                   (exists y, lookup_key "env_name" r = Some y))
         unsorted_table /\
  forall r rest, unsorted_table = r :: rest ->
    missing_column ["algo"; "env_name"] (od_keys r) = None.
Proof.
  assert (H : built_rows unsorted_runs all_runs_args 0 = Ok unsorted_table)
    by (vm_compute; reflexivity).
  exact (sort_columns_in_every_row unsorted_runs all_runs_args 0
           unsorted_table H).
Defined.

(** X11: one record whose algorithm name or return summaries cannot be
    computed aborts the whole table: at every verbosity from 0 on, if such
    a record is among the gathered ones, [analyze_imitation] raises. *)
Theorem failing_record_aborts_table (cell_le : value -> value -> bool)
    (w : world) (a : gather_args) (table_verbosity : Z)
    (warned : list string) (sds : list SacredDicts) (sd : SacredDicts)
    (e : exn) :
  0 <= table_verbosity ->
  _gather_sacred_dicts w a = (warned, Ok sds) ->
  In sd sds ->
  _get_algo_name sd = Raise e \/ _return_summaries sd = Raise e ->
  exists e', analyze_imitation cell_le w a table_verbosity = (warned, Raise e').
Proof.
  intros H0 Hg Hin Hbad.
  destruct (analyze_imitation cell_le w a table_verbosity) as [wd out] eqn:Ha.
  assert (Hw : wd = warned).
  { unfold analyze_imitation in Ha.
    destruct (selection_by_keys table_verbosity H0) as [keys [Hs _]].
    rewrite Hs, Hg in Ha. now injection Ha as <- _. }
  subst wd. destruct out as [df|e']; [|eauto]. exfalso.
  destruct (table_rows_inv _ _ _ _ _ _ Ha)
    as (subset & sds' & rows & Hsel & Hg' & Hrow & _).
  assert (Heq : sds' = sds) by congruence. subst sds'.
  assert (Hsd : exists r, row_of subset sd r).
  { clear -Hrow Hin. induction Hrow as [|x r l1 l2 Hx _ IH]; [destruct Hin|].
    destruct Hin as [<-|Hin]; eauto. }
  destruct Hsd as [r [_ Hcells]].
  destruct verbosity_0_columns as (Halgo & _ & Hexp & _).
  destruct Hbad as [Hbad|Hbad].
  - assert (Hc : In ("algo", _get_algo_name) subset).
    { apply (selection_has_tier_0 _ _ Hsel); [simpl; tauto | exact Halgo]. }
    apply Hcells in Hc. congruence.
  - assert (Hc : In ("expert_return_summary",
                     fun sd => let* r := _return_summaries sd in
                               Ok (expert_return_summary r)) subset).
    { apply (selection_has_tier_0 _ _ Hsel); [simpl; tauto | exact Hexp]. }
    apply Hcells in Hc. rewrite Hbad in Hc. discriminate.
Qed.

(** X12: when no record is gathered, [analyze_imitation] returns the empty
    table at every verbosity from 0 on, with the warnings of the scan. *)
Theorem no_record_gives_empty_table (cell_le : value -> value -> bool)
    (w : world) (a : gather_args) (table_verbosity : Z)
    (warned : list string) :
  0 <= table_verbosity ->
  _gather_sacred_dicts w a = (warned, Ok []) ->
  analyze_imitation cell_le w a table_verbosity = (warned, Ok []).
Proof.
  intros H0 Hg. unfold analyze_imitation.
  destruct (selection_by_keys table_verbosity H0) as [keys [Hs _]].
  rewrite Hs, Hg. reflexivity.
Qed.

Lemma failing_record_aborts_table_witness :
  exists e',
    analyze_imitation text_cell_le runs_with_bad_stats all_runs_args 0
    = ([], Raise e').
Proof.
  exact (failing_record_aborts_table text_cell_le runs_with_bad_stats
           all_runs_args 0 [] [sd_completed; sd_imit_empty] sd_imit_empty
           (KeyError "monitor_return_mean")
           ltac:(lia) eq_refl (or_intror (or_introl eq_refl))
           (or_intror eq_refl)).
Defined.

Lemma no_record_gives_empty_table_witness :
  analyze_imitation text_cell_le only_malformed all_runs_args 2
  = (["Invalid JSON file in runs/a"], Ok []).
Proof.
  exact (no_record_gives_empty_table text_cell_le only_malformed
           all_runs_args 2 ["Invalid JSON file in runs/a"]
           ltac:(lia) eq_refl).
Defined.

(** ** The formatter and the summaries *)

(** X13: what the two number fields of [_make_return_summary] accept, for
    a mapping that has the three keys.  A mean that is a text raises
    [ValueError]; a mean that is [None], a list or a mapping raises
    [TypeError]; the mean is formatted first, so its error is the one
    raised whatever the std is.  After a mean that is a float or a boolean,
    a std that is a text raises [ValueError], a std that is [None], a list
    or a mapping raises [TypeError], and a std that is a float or a boolean
    gives a summary.  An integer in either field adds one outcome: it
    raises [OverflowError] when it is too large for a float. *)
Theorem make_return_summary_field_types (d : dict) (prefix : string)
    (mean std n : value) :
  lookup_key (prefix +:+ "return_mean") d = Some mean ->
  lookup_key (prefix +:+ "return_std") d = Some std ->
  lookup_key "n_traj" d = Some n ->
  let out := _make_return_summary (VDict d) prefix in
  ((exists s, mean = VStr s) -> out = Raise ValueError) /\
  (mean = VNone \/ (exists l, mean = VList l) \/ (exists m, mean = VDict m) ->
   out = Raise TypeError) /\
  (float_or_bool mean = true ->
     ((exists s, std = VStr s) -> out = Raise ValueError) /\
     (std = VNone \/ (exists l, std = VList l) \/ (exists m, std = VDict m) ->
      out = Raise TypeError) /\
     (float_or_bool std = true -> exists s, out = Ok (s +:+ py_str n +:+ ")")) /\
     (forall z, std = VInt z ->
        out = Raise OverflowError \/
        exists s, out = Ok (s +:+ py_str n +:+ ")"))) /\
  (forall z, mean = VInt z ->
     out = Raise OverflowError \/
     ((exists s, std = VStr s) -> out = Raise ValueError) /\
     (std = VNone \/ (exists l, std = VList l) \/ (exists m, std = VDict m) ->
      out = Raise TypeError) /\
     (float_or_bool std = true -> exists s, out = Ok (s +:+ py_str n +:+ ")")) /\
     (forall z', std = VInt z' ->
        out = Raise OverflowError \/
        exists s, out = Ok (s +:+ py_str n +:+ ")"))).
Proof.
  intros Hm Hs Hn out. subst out. unfold _make_return_summary.
  cbn [getitem]. rewrite Hm, Hs, Hn. cbn [bind].
  assert (Hfb : forall v, float_or_bool v = true ->
                  exists t, format_3g v = Ok t).
  { intros [| [|] | | f | | |]; try discriminate; intros _;
      [vm_compute; eauto .. | simpl; eauto]. }
  assert (Hint : forall z, format_3g (VInt z) = Raise OverflowError \/
                           exists t, format_3g (VInt z) = Ok t).
  { intros z. unfold format_3g, float_of_int. simpl as_int. cbv iota.
    destruct (Num.of_int z); cbn [bind]; eauto. }
  assert (Hstd : forall ms,
            ((exists s, std = VStr s) ->
             (let* std_s := format_3g std in
              Ok (ms +:+ " ± " +:+ std_s +:+ " (n=" +:+ py_str n +:+ ")"))
             = Raise ValueError) /\
            (std = VNone \/ (exists l, std = VList l) \/
             (exists m, std = VDict m) ->
             (let* std_s := format_3g std in
              Ok (ms +:+ " ± " +:+ std_s +:+ " (n=" +:+ py_str n +:+ ")"))
             = Raise TypeError) /\
            (float_or_bool std = true ->
             exists s,
               (let* std_s := format_3g std in
                Ok (ms +:+ " ± " +:+ std_s +:+ " (n=" +:+ py_str n +:+ ")"))
               = Ok (s +:+ py_str n +:+ ")")) /\
            (forall z, std = VInt z ->
               (let* std_s := format_3g std in
                Ok (ms +:+ " ± " +:+ std_s +:+ " (n=" +:+ py_str n +:+ ")"))
               = Raise OverflowError \/
               exists s,
                 (let* std_s := format_3g std in
                  Ok (ms +:+ " ± " +:+ std_s +:+ " (n=" +:+ py_str n +:+ ")"))
                 = Ok (s +:+ py_str n +:+ ")"))).
  { intros ms.
    assert (Hok : forall t,
              exists s,
                Ok (A := string)
                   (ms +:+ " ± " +:+ t +:+ " (n=" +:+ py_str n +:+ ")")
                = Ok (s +:+ py_str n +:+ ")")).
    { intros t. exists (ms +:+ " ± " +:+ t +:+ " (n=").
      now rewrite !str_app_assoc. }
    split; [|split; [|split]].
    - intros [s ->]. reflexivity.
    - intros [-> | [[l ->] | [m ->]]]; reflexivity.
    - intros Hb. destruct (Hfb _ Hb) as [t ->]. cbn [bind]. apply Hok.
    - intros z ->. destruct (Hint z) as [-> | [t ->]]; cbn [bind];
        [now left | right; apply Hok]. }
  split; [|split; [|split]].
  - intros [s ->]. reflexivity.
  - intros [-> | [[l ->] | [m ->]]]; reflexivity.
  - intros Hb. destruct (Hfb _ Hb) as [t ->]. cbn [bind]. apply Hstd.
  - intros z ->. destruct (Hint z) as [-> | [t ->]]; cbn [bind];
      [now left | right; apply Hstd].
Qed.

Lemma make_return_summary_field_types_witness :
  _make_return_summary
    (VDict [("return_mean", VStr "10.0"); ("return_std", VInt 1);
            ("n_traj", VInt 5)]) ""
  = Raise ValueError /\
  _make_return_summary
    (VDict [("return_mean", VFloat float_0_7); ("return_std", VNone);
            ("n_traj", VInt 5)]) ""
  = Raise TypeError /\
  exists s,
    _make_return_summary
      (VDict [("return_mean", VFloat float_0_7); ("return_std", VBool true);
              ("n_traj", VInt 5)]) ""
    = Ok (s +:+ "5)").
Proof.
  split; [|split].
  - exact (proj1 (make_return_summary_field_types
             [("return_mean", VStr "10.0"); ("return_std", VInt 1);
              ("n_traj", VInt 5)] "" (VStr "10.0") (VInt 1) (VInt 5)
             eq_refl eq_refl eq_refl) (ex_intro _ "10.0" eq_refl)).
  - exact (proj1 (proj2 (proj1 (proj2 (proj2 (make_return_summary_field_types
             [("return_mean", VFloat float_0_7); ("return_std", VNone);
              ("n_traj", VInt 5)] "" (VFloat float_0_7) VNone (VInt 5)
             eq_refl eq_refl eq_refl))) eq_refl)) (or_introl eq_refl)).
  - exact (proj1 (proj2 (proj2 (proj1 (proj2 (proj2
             (make_return_summary_field_types
                [("return_mean", VFloat float_0_7); ("return_std", VBool true);
                 ("n_traj", VInt 5)] "" (VFloat float_0_7) (VBool true)
                (VInt 5) eq_refl eq_refl eq_refl))) eq_refl))) eq_refl).
Defined.

(** X14: the keys that [_make_return_summary] reads: a missing mean raises
    [KeyError] with the prefixed mean key, then a missing std with the
    prefixed std key, then a missing count with the key [n_traj], which is
    never prefixed; an object that is not a mapping raises [TypeError]. *)
Theorem make_return_summary_missing_key (d : dict) (prefix : string) :
  (lookup_key (prefix +:+ "return_mean") d = None ->
   _make_return_summary (VDict d) prefix
   = Raise (KeyError (prefix +:+ "return_mean"))) /\
  (forall mean,
     lookup_key (prefix +:+ "return_mean") d = Some mean ->
     lookup_key (prefix +:+ "return_std") d = None ->
     _make_return_summary (VDict d) prefix
     = Raise (KeyError (prefix +:+ "return_std"))) /\
  (forall mean std,
     lookup_key (prefix +:+ "return_mean") d = Some mean ->
     lookup_key (prefix +:+ "return_std") d = Some std ->
     lookup_key "n_traj" d = None ->
     _make_return_summary (VDict d) prefix = Raise (KeyError "n_traj")) /\
  (forall stats,
     (forall d', stats <> VDict d') ->
     _make_return_summary stats prefix = Raise TypeError).
Proof.
  unfold _make_return_summary. split; [|split; [|split]].
  - intros H. simpl. now rewrite H.
  - intros mean Hm Hs. simpl. now rewrite Hm, Hs.
  - intros mean std Hm Hs Hn. simpl. now rewrite Hm, Hs, Hn.
  - intros stats Hnd. destruct stats; try reflexivity.
    exfalso. now apply (Hnd d0).
Qed.

Lemma make_return_summary_missing_key_witness :
  _make_return_summary
    (VDict [("monitor_return_mean", VInt 7); ("monitor_return_std", VInt 1);
            ("monitor_n_traj", VInt 5)]) "monitor_"
  = Raise (KeyError "n_traj").
Proof.
  exact (proj1 (proj2 (proj2 (make_return_summary_missing_key
           [("monitor_return_mean", VInt 7); ("monitor_return_std", VInt 1);
            ("monitor_n_traj", VInt 5)] "monitor_")))
           (VInt 7) (VInt 1) eq_refl eq_refl eq_refl).
Defined.

Lemma truediv_ok_float (a b q : value) :
  truediv a b = Ok q -> exists f, q = VFloat f.
Proof.
  assert (Hdiv : forall f g q, float_div f g = Ok q -> exists h, q = VFloat h).
  { intros f g q'. unfold float_div. destruct (is_zero g); [discriminate|].
    intros H. injection H as <-. eauto. }
  assert (Hconv : forall z (k : spec_float -> res value) q,
            bind (float_of_int z) k = Ok q ->
            exists f, k f = Ok q).
  { intros z k q'. destruct (float_of_int z); simpl; [eauto | discriminate]. }
  unfold truediv.
  destruct (as_int a) as [x|] eqn:Ea, (as_int b) as [y|] eqn:Eb.
  - destruct (y =? 0); [discriminate|].
    destruct (Num.div_int x y); try discriminate;
      intros H; injection H as <-; eauto.
  - destruct b; try discriminate. intros H.
    apply Hconv in H as [f' H]. eauto.
  - destruct a; try discriminate. intros H.
    apply Hconv in H as [g' H]. eauto.
  - destruct a; try discriminate. destruct b; try discriminate. eauto.
Qed.

Lemma is_none_true (v : value) : is_none v = true <-> v = VNone.
Proof. destruct v; simpl; split; congruence. Qed.

(** X15: in the dict that [_return_summaries] returns, the two stats
    entries are what the nested lookups give, each summary is [None]
    exactly when its sub-document is [None] and is a text otherwise, and the
    ratio is [None] exactly when one of the sub-documents is [None] and is a
    float otherwise. *)
Theorem return_summaries_presence (sd : SacredDicts) (r : summaries) :
  _return_summaries sd = Ok r ->
  get (run sd) "result.imit_stats" = Ok (imit_stats r) /\
  get (run sd) "result.expert_stats" = Ok (expert_stats r) /\
  (expert_return_summary r = VNone <-> expert_stats r = VNone) /\
  (imit_return_summary r = VNone <-> imit_stats r = VNone) /\
  (imit_expert_ratio r = VNone <->
   imit_stats r = VNone \/ expert_stats r = VNone) /\
  (expert_stats r <> VNone -> exists s, expert_return_summary r = VStr s) /\
  (imit_stats r <> VNone -> exists s, imit_return_summary r = VStr s) /\
  (imit_stats r <> VNone -> expert_stats r <> VNone ->
   exists f, imit_expert_ratio r = VFloat f).
Proof.
  unfold _return_summaries. intros H.
  destruct (get (run sd) "result.imit_stats") as [imit|e]; [|discriminate].
  destruct (get (run sd) "result.expert_stats") as [expert|e]; [|discriminate].
  cbn [bind] in H.
  pose proof (is_none_true imit) as Ni. pose proof (is_none_true expert) as Ne.
  destruct (is_none expert) eqn:Ee; cbn [negb bind] in H.
  - destruct (is_none imit) eqn:Ei; cbn [negb andb bind] in H.
    + injection H as <-. simpl.
      repeat split; try tauto; intros; exfalso; tauto.
    + destruct (_make_return_summary imit "monitor_") as [si|e];
        [|discriminate].
      cbn [bind andb] in H. injection H as <-. simpl.
      assert (imit <> VNone) by (intros Hx; apply Ni in Hx; discriminate).
      repeat split; try tauto; try discriminate; eauto;
        intros; exfalso; tauto.
  - destruct (_make_return_summary expert "") as [se|e]; [|discriminate].
    cbn [bind] in H.
    assert (expert <> VNone) by (intros Hx; apply Ne in Hx; discriminate).
    destruct (is_none imit) eqn:Ei; cbn [negb andb bind] in H.
    + injection H as <-. simpl.
      repeat split; try tauto; try discriminate; eauto;
        intros; exfalso; tauto.
    + destruct (_make_return_summary imit "monitor_") as [si|e];
        [|discriminate].
      cbn [bind] in H.
      assert (imit <> VNone) by (intros Hx; apply Ni in Hx; discriminate).
      destruct (getitem imit "monitor_return_mean") as [x|e]; [|discriminate].
      cbn [bind] in H.
      destruct (getitem expert "return_mean") as [y|e]; [|discriminate].
      cbn [bind] in H.
      destruct (truediv x y) as [q|e] eqn:Hq; [|discriminate].
      cbn [bind] in H. injection H as <-. simpl.
      destruct (truediv_ok_float _ _ _ Hq) as [f ->].
      repeat split; try tauto; try discriminate; eauto;
        intros; try (exfalso; tauto); intuition discriminate.
Qed.

Lemma return_summaries_presence_witness :
  exists r,
    _return_summaries sd_expert_only = Ok r /\
    (imit_return_summary r = VNone <-> imit_stats r = VNone) /\
    (imit_expert_ratio r = VNone <->
     imit_stats r = VNone \/ expert_stats r = VNone).
Proof.
  destruct (_return_summaries sd_expert_only) as [r|e] eqn:H.
  - exists r. split; [reflexivity|].
    pose proof (return_summaries_presence sd_expert_only r H)
      as (_ & _ & _ & Hs & Hr & _).
    split; assumption.
  - vm_compute in H. discriminate.
Defined.

(** X16: the imitation summary reads the keys with the prefix [monitor_]:
    an imitation sub-document without [monitor_return_mean] makes
    [_return_summaries] raise [KeyError] with that key, even when it has
    [return_mean], as soon as the expert sub-document is absent or well
    formed. *)
Theorem imit_stats_need_monitor_keys (sd : SacredDicts) (d : dict)
    (expert : value) :
  get (run sd) "result.imit_stats" = Ok (VDict d) ->
  get (run sd) "result.expert_stats" = Ok expert ->
  absent_or_well_formed "" expert = true ->
  lookup_key "monitor_return_mean" d = None ->
  _return_summaries sd = Raise (KeyError "monitor_return_mean").
Proof.
  intros Hi He We Hm.
  destruct (optional_summary_total _ _ We) as [se Hse].
  unfold _return_summaries. rewrite Hi, He. cbn [bind].
  rewrite Hse. cbn [bind is_none negb].
  unfold _make_return_summary.
  change ("monitor_" +:+ "return_mean") with "monitor_return_mean".
  unfold getitem at 1. now rewrite Hm.
Qed.

Lemma imit_stats_need_monitor_keys_witness :
  lookup_key "return_mean" imit_unprefixed = Some (VInt 7) /\
  _return_summaries sd_imit_unprefixed = Raise (KeyError "monitor_return_mean").
Proof.
  split; [reflexivity|].
  exact (imit_stats_need_monitor_keys sd_imit_unprefixed imit_unprefixed
           expert_10 eq_refl eq_refl eq_refl eq_refl).
Defined.

(** X17: [_get_algo_name] returns a text or [None], or raises
    [AttributeError]; it raises only for the kind [train_adversarial] with
    an [algorithm] entry in the config that is neither a text nor [None]. *)
Theorem algo_name_outcomes (sd : SacredDicts) :
  (exists s, _get_algo_name sd = Ok (VStr s)) \/
  _get_algo_name sd = Ok VNone \/
  (_get_algo_name sd = Raise AttributeError /\
   _get_exp_command sd = "train_adversarial" /\
   exists v, lookup_key "algorithm" (config sd) = Some v /\
             v <> VNone /\ forall s, v <> VStr s).
Proof.
  unfold _get_algo_name.
  destruct (String.eqb (_get_exp_command sd) "train_adversarial") eqn:Ek.
  - apply String.eqb_eq in Ek.
    rewrite (get_single (config sd) "algorithm" eq_refl). cbn [bind].
    unfold dict_get.
    destruct (lookup_key "algorithm" (config sd)) as [v|] eqn:Hv;
      [|right; left; reflexivity].
    destruct v; simpl; eauto;
      right; right; (split; [reflexivity|]); (split; [exact Ek|]);
      eexists; (split; [reflexivity|]); split; discriminate.
  - destruct (String.eqb (_get_exp_command sd) "train_bc"); [eauto|].
    destruct (String.eqb (_get_exp_command sd) "train_dagger"); eauto.
Qed.

(** ** Paths *)

Lemma str_app_cons (x : ascii) (a b : string) :
  String x a +:+ b = String x (a +:+ b).
Proof. reflexivity. Qed.

Lemma str_app_nil (b : string) : "" +:+ b = b.
Proof. reflexivity. Qed.

Lemma str_app_empty (a b : string) : a +:+ b = "" -> a = "" /\ b = "".
Proof.
  destruct a; [rewrite str_app_nil; auto | rewrite str_app_cons; discriminate].
Qed.

Lemma rstrip_all_sep (y : string) : Path.all_sep y = true -> Path.rstrip_sep y = "".
Proof.
  induction y as [|c y IH]; simpl; [reflexivity|].
  intros H. apply andb_true_iff in H as [Hc Hy]. now rewrite (IH Hy), Hc.
Qed.

(** Trailing slashes do not count. *)
Lemma rstrip_app_all_sep (x y : string) :
  Path.all_sep y = true -> Path.rstrip_sep (x +:+ y) = Path.rstrip_sep x.
Proof.
  intros Hy. induction x as [|c x IH].
  - rewrite str_app_nil. now apply rstrip_all_sep.
  - rewrite str_app_cons. simpl. now rewrite IH.
Qed.

Lemma rstrip_fixed (t : string) :
  t <> "" -> Path.ends_with_sep t = false -> Path.rstrip_sep t = t.
Proof.
  induction t as [|c t IH]; [congruence|]. intros _ He. simpl in *.
  destruct t as [|c' t'].
  - simpl. now rewrite He.
  - rewrite IH; [reflexivity | discriminate | exact He].
Qed.

Lemma ends_with_sep_app (x t : string) :
  t <> "" -> Path.ends_with_sep (x +:+ t) = Path.ends_with_sep t.
Proof.
  intros Ht. induction x as [|c x IH]; [reflexivity|].
  rewrite str_app_cons. simpl.
  destruct (x +:+ t) eqn:E; [|exact IH].
  apply str_app_empty in E as [_ E]. contradiction.
Qed.

Lemma segment_no_trailing_sep (t : string) :
  segment t -> Path.ends_with_sep t = false.
Proof.
  intros [Hne Hsf]. induction t as [|c t IH]; [congruence|].
  simpl in *. apply andb_true_iff in Hsf as [Hc Ht].
  destruct t as [|c' t'].
  - now apply negb_true_iff.
  - apply IH; [discriminate | exact Ht].
Qed.

Lemma segment_not_all_sep (x t : string) :
  segment t -> Path.all_sep (x +:+ t) = false.
Proof.
  intros [Hne Hsf]. induction x as [|c x IH].
  - rewrite str_app_nil. destruct t as [|c t]; [congruence|].
    simpl in *. apply andb_true_iff in Hsf as [Hc _].
    apply negb_true_iff in Hc. now rewrite Hc.
  - rewrite str_app_cons. simpl. rewrite IH. apply andb_false_r.
Qed.

Lemma all_sep_app_l (x y : string) :
  Path.all_sep x = false -> Path.all_sep (x +:+ y) = false.
Proof.
  induction x as [|c x IH]; [discriminate|]. rewrite str_app_cons. simpl.
  intros H. apply andb_false_iff in H as [H|H].
  - now rewrite H.
  - rewrite (IH H). apply andb_false_r.
Qed.

Lemma rsplit_slash_free (t : string) :
  slash_free t = true -> Path.rsplit_sep t = ("", t).
Proof.
  induction t as [|c t IH]; simpl; [reflexivity|]. intros H.
  apply andb_true_iff in H as [Hc Ht]. rewrite (IH Ht).
  apply negb_true_iff in Hc. now rewrite Hc.
Qed.

(** A path that ends in a slash-free text after a slash is cut there. *)
Lemma rsplit_app (h t : string) :
  Path.ends_with_sep h = true -> slash_free t = true ->
  Path.rsplit_sep (h +:+ t) = (h, t).
Proof.
  intros Hh Ht. induction h as [|c h IH]; [discriminate|].
  rewrite str_app_cons. simpl in *. destruct h as [|c' h'].
  - rewrite str_app_nil, (rsplit_slash_free t Ht). now rewrite Hh.
  - rewrite (IH Hh). reflexivity.
Qed.

(** The parent of [x/t], for a segment [t] and an [x] that ends in a
    segment. *)
Lemma dirname_child (y s t : string) :
  segment s -> slash_free t = true ->
  Path.dirname (((y +:+ s) +:+ "/") +:+ t) = y +:+ s.
Proof.
  intros Hs Ht. unfold Path.dirname.
  assert (Hend : Path.ends_with_sep ((y +:+ s) +:+ "/") = true).
  { now rewrite ends_with_sep_app by discriminate. }
  rewrite (rsplit_app _ _ Hend Ht). cbn [fst].
  assert (Hne : String.eqb ((y +:+ s) +:+ "/") "" = false).
  { apply String.eqb_neq. intros E. apply str_app_empty in E as [_ E].
    discriminate. }
  assert (Hns : Path.all_sep ((y +:+ s) +:+ "/") = false).
  { apply all_sep_app_l. now apply segment_not_all_sep. }
  rewrite Hne, Hns. cbn [negb andb].
  rewrite rstrip_app_all_sep by reflexivity.
  apply rstrip_fixed.
  - intros E. apply str_app_empty in E as [_ E]. now destruct Hs.
  - rewrite ends_with_sep_app by now destruct Hs.
    now apply segment_no_trailing_sep.
Qed.

Lemma basename_last (parent name : string) :
  parent = "" \/ Path.ends_with_sep parent = true ->
  slash_free name = true ->
  Path.basename (parent +:+ name) = name.
Proof.
  intros [->|Hp] Hn; unfold Path.basename.
  - rewrite str_app_nil. now rewrite rsplit_slash_free.
  - now rewrite rsplit_app.
Qed.

(** The run directory of a Sacred directory [<parent><name>/<seg>/<n>]
    with trailing slashes. *)
Lemma tb_run_dir_two_levels_up (sd : SacredDicts)
    (parent name seg n trailing : string) :
  segment name -> segment seg -> segment n ->
  Path.all_sep trailing = true ->
  sacred_dir sd
  = (((((parent +:+ name) +:+ "/") +:+ seg) +:+ "/") +:+ n) +:+ trailing ->
  tb_run_dir sd = parent +:+ name.
Proof.
  intros Hname Hseg Hn Htr Hsd.
  unfold tb_run_dir. rewrite Hsd.
  rewrite rstrip_app_all_sep by exact Htr.
  rewrite rstrip_fixed.
  - rewrite (dirname_child ((parent +:+ name) +:+ "/") seg n Hseg (proj2 Hn)).
    apply (dirname_child parent name seg Hname (proj2 Hseg)).
  - intros E. apply str_app_empty in E as [_ E]. now destruct Hn.
  - rewrite ends_with_sep_app by now destruct Hn.
    now apply segment_no_trailing_sep.
Qed.

Lemma tb_run_name_two_levels_up (sd : SacredDicts)
    (parent name seg n trailing : string) :
  parent = "" \/ Path.ends_with_sep parent = true ->
  segment name -> segment seg -> segment n ->
  Path.all_sep trailing = true ->
  sacred_dir sd
  = (((((parent +:+ name) +:+ "/") +:+ seg) +:+ "/") +:+ n) +:+ trailing ->
  tb_run_name sd = name.
Proof.
  intros Hp Hname Hseg Hn Htr Hsd. unfold tb_run_name.
  rewrite (tb_run_dir_two_levels_up sd parent name seg n trailing
             Hname Hseg Hn Htr Hsd).
  apply basename_last; [exact Hp | exact (proj2 Hname)].
Qed.

(** X18: the run directory and the run name that [gather_tb_directories]
    derives from a Sacred directory [<parent><name>/<seg>/<n>], with any
    number of trailing slashes, are [<parent><name>] and [<name>]: the name
    of the directory two levels up, whatever the parent and the last two
    segments are. *)
Theorem run_name_two_levels_up (sd : SacredDicts)
    (parent name seg n trailing : string) :
  parent = "" \/ Path.ends_with_sep parent = true ->
  segment name -> segment seg -> segment n ->
  Path.all_sep trailing = true ->
  sacred_dir sd
  = (((((parent +:+ name) +:+ "/") +:+ seg) +:+ "/") +:+ n) +:+ trailing ->
  tb_run_dir sd = parent +:+ name /\ tb_run_name sd = name.
Proof.
  intros Hp Hname Hseg Hn Htr Hsd. split.
  - now apply (tb_run_dir_two_levels_up sd parent name seg n trailing).
  - now apply (tb_run_name_two_levels_up sd parent name seg n trailing).
Qed.

Lemma run_name_two_levels_up_witness :
  tb_run_dir sd_run1 = "exp/run1" /\ tb_run_name sd_run1 = "run1".
Proof.
  apply (run_name_two_levels_up sd_run1 "exp/" "run1" "sacred" "1" "//").
  - right. reflexivity.
  - split; [discriminate | reflexivity].
  - split; [discriminate | reflexivity].
  - split; [discriminate | reflexivity].
  - reflexivity.
  - reflexivity.
Defined.

(** ** Gathering the TensorBoard directories *)

(** One run: the links made are counted, at most one per kind, each at the
    link path of its kind. *)
Lemma basename_loop_inv {fs} (os : os_api fs) (tmp_dir run_dir run_name : string)
    (basenames : list string) :
  forall st st',
    basename_loop os tmp_dir run_dir run_name basenames st = Ok st' ->
    exists new,
      tb_links st' = tb_links st ++ new /\
      tb_dirs_count st' = tb_dirs_count st + Z.of_nat (length new) /\
      (length new <= length basenames)%nat /\
      Forall (fun link =>
                exists kind state,
                  In kind basenames /\
                  snd link = Path.join (Path.join tmp_dir kind) run_name /\
                  filter_subdirs_by os run_dir (has_basename kind) state
                  = Ok [fst link]) new.
Proof.
  induction basenames as [|kind rest IH]; simpl; intros st st' H.
  - injection H as <-. exists []. rewrite app_nil_r. simpl.
    split; [reflexivity|]. split; [lia|]. split; [lia | constructor].
  - destruct (filter_subdirs_by os run_dir (has_basename kind) (tb_fs st))
      as [[|src more]|e] eqn:Hsearch; simpl in H; [| |discriminate].
    + destruct (IH _ _ H) as (new & Hl & Hc & Hlen & Hall).
      exists new. split; [exact Hl|]. split; [exact Hc|].
      split; [simpl; lia|].
      eapply Forall_impl; [exact Hall|].
      intros link (k & state & Hk & Hp & Hs). exists k, state. auto.
    + destruct more as [|src2 more]; simpl in H; [|discriminate].
      destruct (makedirs os (Path.join tmp_dir kind) (tb_fs st)) as [fs1|e];
        simpl in H; [|discriminate].
      destruct (symlink os src (Path.join (Path.join tmp_dir kind) run_name) fs1)
        as [fs2|e]; simpl in H; [|discriminate].
      destruct (IH _ _ H) as (new & Hl & Hc & Hlen & Hall). simpl in Hl, Hc.
      exists ((src, Path.join (Path.join tmp_dir kind) run_name) :: new).
      split; [now rewrite Hl, <- app_assoc|].
      split; [rewrite Hc; simpl length; lia|].
      split; [simpl; lia|].
      constructor.
      * exists kind, (tb_fs st). simpl. auto.
      * eapply Forall_impl; [exact Hall|].
        intros link (k & state & Hk & Hp & Hs). exists k, state. auto.
Qed.

Lemma tb_loop_inv {fs} (os : os_api fs) (tmp_dir : string)
    (sds : list SacredDicts) :
  forall st st',
    tb_loop os tmp_dir sds st = Ok st' ->
    exists new,
      tb_links st' = tb_links st ++ new /\
      tb_dirs_count st' = tb_dirs_count st + Z.of_nat (length new) /\
      (length new <= 3 * length sds)%nat /\
      Forall (link_of os tmp_dir sds) new.
Proof.
  induction sds as [|sd sds IH]; cbn [tb_loop]; intros st st' H.
  - injection H as <-. exists []. rewrite app_nil_r. simpl.
    split; [reflexivity|]. split; [lia|]. split; [lia | constructor].
  - destruct (basename_loop os tmp_dir (tb_run_dir sd) (tb_run_name sd)
                tb_basenames st) as [st1|e] eqn:H1; cbn [bind] in H;
      [|discriminate].
    destruct (basename_loop_inv _ _ _ _ _ _ _ H1) as (n1 & Hl1 & Hc1 & Hlen1 & Hall1).
    destruct (IH _ _ H) as (n2 & Hl2 & Hc2 & Hlen2 & Hall2).
    exists (n1 ++ n2).
    split; [now rewrite Hl2, Hl1, <- app_assoc|].
    split; [rewrite Hc2, Hc1, length_app; lia|].
    split; [rewrite length_app; simpl length in *; lia|].
    apply Forall_app. split.
    + eapply Forall_impl; [exact Hall1|].
      intros link (k & state & Hk & Hp & Hs).
      exists sd, k, state. split; [now left|]. auto.
    + eapply Forall_impl; [exact Hall2|].
      intros link (sd' & k & state & Hin & Hk & Hp & Hs).
      exists sd', k, state. split; [now right|]. auto.
Qed.

(** X19: when [gather_tb_directories] returns, the count [n_tb_dirs] is the
    number of symbolic links it made, at most three for each gathered
    record, and [gather_dir] is the fresh directory; each link is for a
    gathered record and a kind among [rl], [tb] and [sb_tb], lies at
    [<gather_dir>/<kind>/<run name>], and points to the only directory that
    the search under the run directory found for the kind. *)
Theorem tb_links_counted {fs} (os : os_api fs) (w : world) (a : gather_args)
    (fs0 : fs) (warned : list string) (result : tb_result) (st : tb_state fs) :
  gather_tb_directories os w a fs0 = (warned, Ok (result, st)) ->
  exists sds fs1 fs2,
    makedirs os "/tmp/analysis_tb" fs0 = Ok fs1 /\
    mkdtemp os "/tmp/analysis_tb/" fs1 = Ok (gather_dir result, fs2) /\
    _gather_sacred_dicts w a = (warned, Ok sds) /\
    n_tb_dirs result = Z.of_nat (length (tb_links st)) /\
    (length (tb_links st) <= 3 * length sds)%nat /\
    Forall (link_of os (gather_dir result) sds) (tb_links st).
Proof.
  unfold gather_tb_directories. intros H.
  destruct (makedirs os "/tmp/analysis_tb" fs0) as [fs1|e] eqn:Hmk;
    [|discriminate].
  destruct (mkdtemp os "/tmp/analysis_tb/" fs1) as [[tmp_dir fs2]|e] eqn:Htmp;
    [|discriminate].
  destruct (_gather_sacred_dicts w a) as [warned' gathered].
  injection H as -> H.
  destruct gathered as [sds|e]; [|discriminate]. cbn [bind] in H.
  destruct (tb_loop os tmp_dir sds _) as [st'|e] eqn:Hloop; [|discriminate].
  cbn [bind] in H. injection H as <- <-.
  destruct (tb_loop_inv _ _ _ _ _ Hloop) as (new & Hl & Hc & Hlen & Hall).
  simpl in Hl, Hc. exists sds, fs1, fs2. simpl.
  rewrite Hl, Hc.
  split; [reflexivity|]. split; [exact Htmp|]. split; [reflexivity|].
  split; [lia|]. split; [exact Hlen | exact Hall].
Qed.

Lemma tb_links_counted_witness :
  gather_tb_directories listed_os (tb_world [sd_run1; sd_run3]) all_runs_args []
  = ([], Ok linked_run1) /\
  n_tb_dirs (fst linked_run1) = Z.of_nat (length (tb_links (snd linked_run1))).
Proof.
  assert (H : gather_tb_directories listed_os (tb_world [sd_run1; sd_run3])
                all_runs_args [] = ([], Ok linked_run1))
    by (vm_compute; reflexivity).
  split; [exact H|].
  destruct (tb_links_counted listed_os _ _ _ _ _ _ H)
    as (sds & fs1 & fs2 & _ & _ & _ & Hn & _).
  exact Hn.
Defined.

(** A search that finds two directories or more fails the assertion, once
    the kinds before it found nothing. *)
Lemma basename_loop_assert {fs} (os : os_api fs) (tmp_dir run_dir run_name : string)
    (kind d1 d2 : string) (more after : list string) :
  forall before st,
    (forall k, In k before ->
       filter_subdirs_by os run_dir (has_basename k) (tb_fs st) = Ok []) ->
    filter_subdirs_by os run_dir (has_basename kind) (tb_fs st)
    = Ok (d1 :: d2 :: more) ->
    basename_loop os tmp_dir run_dir run_name (before ++ kind :: after) st
    = Raise AssertionError.
Proof.
  induction before as [|k before IH]; intros st Hbefore Hkind; simpl.
  - now rewrite Hkind.
  - rewrite (Hbefore k (or_introl eq_refl)). simpl.
    apply IH; [|exact Hkind]. intros k' Hk'. apply Hbefore. now right.
Qed.

(** X20: more than one TensorBoard directory of a kind under a run directory
    fails the assertion: when, for the first gathered record, the search for
    a kind finds two directories or more and the searches for the kinds
    before it find none, [gather_tb_directories] raises [AssertionError]. *)
Theorem two_tb_dirs_fail_assertion {fs} (os : os_api fs) (w : world)
    (a : gather_args) (fs0 fs1 fs2 : fs) (tmp_dir : string)
    (warned : list string) (sd : SacredDicts) (sds : list SacredDicts)
    (before after more : list string) (kind d1 d2 : string) :
  makedirs os "/tmp/analysis_tb" fs0 = Ok fs1 ->
  mkdtemp os "/tmp/analysis_tb/" fs1 = Ok (tmp_dir, fs2) ->
  _gather_sacred_dicts w a = (warned, Ok (sd :: sds)) ->
  tb_basenames = before ++ kind :: after ->
  (forall k, In k before ->
     filter_subdirs_by os (tb_run_dir sd) (has_basename k) fs2 = Ok []) ->
  filter_subdirs_by os (tb_run_dir sd) (has_basename kind) fs2
  = Ok (d1 :: d2 :: more) ->
  gather_tb_directories os w a fs0 = (warned, Raise AssertionError).
Proof.
  intros Hmk Htmp Hg Hkinds Hbefore Hkind.
  unfold gather_tb_directories. rewrite Hmk, Htmp, Hg. cbn [bind tb_loop].
  rewrite Hkinds.
  rewrite (basename_loop_assert os tmp_dir _ _ kind d1 d2 more after before);
    [reflexivity | exact Hbefore | exact Hkind].
Qed.

Lemma two_tb_dirs_fail_assertion_witness :
  gather_tb_directories listed_os (tb_world [sd_run2; sd_run1]) all_runs_args []
  = ([], Raise AssertionError).
Proof.
  apply (two_tb_dirs_fail_assertion listed_os (tb_world [sd_run2; sd_run1])
           all_runs_args [] ["/tmp/analysis_tb"]
           ["/tmp/analysis_tb"; "/tmp/analysis_tb/tmp0"]
           "/tmp/analysis_tb/tmp0" [] sd_run2 [sd_run1]
           ["rl"] ["sb_tb"] [] "tb" "exp/run2/tb" "exp/run2/old/tb");
    try reflexivity.
  intros k [<-|[]]. reflexivity.
Defined.

Lemma basename_loop_nothing {fs} (os : os_api fs) (tmp_dir run_dir run_name : string)
    (st : tb_state fs) :
  forall basenames,
    (forall k, In k basenames ->
       filter_subdirs_by os run_dir (has_basename k) (tb_fs st) = Ok []) ->
    basename_loop os tmp_dir run_dir run_name basenames st = Ok st.
Proof.
  induction basenames as [|k rest IH]; intros H; simpl; [reflexivity|].
  rewrite (H k (or_introl eq_refl)). simpl. apply IH.
  intros k' Hk'. apply H. now right.
Qed.

(** X21: when the searches find no TensorBoard directory for any gathered
    record, in particular when no record is gathered,
    [gather_tb_directories] returns the count 0 and the fresh directory, and
    has made no link and no directory under it. *)
Theorem nothing_found_nothing_linked {fs} (os : os_api fs) (w : world)
    (a : gather_args) (fs0 fs1 fs2 : fs) (tmp_dir : string)
    (warned : list string) (sds : list SacredDicts) :
  makedirs os "/tmp/analysis_tb" fs0 = Ok fs1 ->
  mkdtemp os "/tmp/analysis_tb/" fs1 = Ok (tmp_dir, fs2) ->
  _gather_sacred_dicts w a = (warned, Ok sds) ->
  nothing_found os sds ->
  gather_tb_directories os w a fs0
  = (warned,
     Ok ({| n_tb_dirs := 0; gather_dir := tmp_dir |},
         {| tb_fs := fs2; tb_links := []; tb_dirs_count := 0 |})).
Proof.
  intros Hmk Htmp Hg Hnone.
  unfold gather_tb_directories. rewrite Hmk, Htmp, Hg. cbn [bind].
  assert (Hloop : forall st,
            tb_fs st = fs2 -> tb_loop os tmp_dir sds st = Ok st).
  { clear Hg. induction sds as [|sd sds IH]; intros st Hst; cbn [tb_loop];
      [reflexivity|].
    rewrite basename_loop_nothing.
    - cbn [bind]. apply IH; [|exact Hst].
      intros sd' k state Hin Hk. apply Hnone; [now right | exact Hk].
    - intros k Hk. apply Hnone; [now left | exact Hk]. }
  rewrite Hloop by reflexivity. reflexivity.
Qed.

Lemma nothing_found_nothing_linked_witness :
  gather_tb_directories listed_os (tb_world [sd_run3]) all_runs_args []
  = ([],
     Ok ({| n_tb_dirs := 0; gather_dir := "/tmp/analysis_tb/tmp0" |},
         {| tb_fs := ["/tmp/analysis_tb"; "/tmp/analysis_tb/tmp0"];
            tb_links := []; tb_dirs_count := 0 |})).
Proof.
  apply (nothing_found_nothing_linked listed_os (tb_world [sd_run3])
           all_runs_args [] ["/tmp/analysis_tb"]
           ["/tmp/analysis_tb"; "/tmp/analysis_tb/tmp0"]
           "/tmp/analysis_tb/tmp0" [] [sd_run3]); try reflexivity.
  intros sd kind state [<-|[]] Hk.
  destruct Hk as [<-|[<-|[<-|[]]]]; reflexivity.
Defined.

(** X22: the link path depends on the run name only: two records whose
    Sacred directories lie two levels under directories of the same name get
    the same link path for every kind, whatever their parents and their last
    two segments are. *)
Theorem same_run_name_same_link (sd1 sd2 : SacredDicts) (tmp_dir kind : string)
    (name parent1 seg1 n1 trailing1 parent2 seg2 n2 trailing2 : string) :
  segment name ->
  parent1 = "" \/ Path.ends_with_sep parent1 = true ->
  segment seg1 -> segment n1 -> Path.all_sep trailing1 = true ->
  parent2 = "" \/ Path.ends_with_sep parent2 = true ->
  segment seg2 -> segment n2 -> Path.all_sep trailing2 = true ->
  sacred_dir sd1
  = (((((parent1 +:+ name) +:+ "/") +:+ seg1) +:+ "/") +:+ n1) +:+ trailing1 ->
  sacred_dir sd2
  = (((((parent2 +:+ name) +:+ "/") +:+ seg2) +:+ "/") +:+ n2) +:+ trailing2 ->
  tb_link_path tmp_dir kind sd1 = tb_link_path tmp_dir kind sd2.
Proof.
  intros Hname Hp1 Hs1 Hn1 Ht1 Hp2 Hs2 Hn2 Ht2 H1 H2. unfold tb_link_path.
  rewrite (tb_run_name_two_levels_up sd1 parent1 name seg1 n1 trailing1)
    by assumption.
  rewrite (tb_run_name_two_levels_up sd2 parent2 name seg2 n2 trailing2)
    by assumption.
  reflexivity.
Qed.

Lemma same_run_name_same_link_witness :
  tb_link_path "/tmp/analysis_tb/tmp0" "tb" sd_run1
  = tb_link_path "/tmp/analysis_tb/tmp0" "tb"
      {| sacred_dir := "other/run1/sacred/2"; config := []; run := [] |}.
Proof.
  apply (same_run_name_same_link sd_run1 _ _ _ "run1"
           "exp/" "sacred" "1" "//" "other/" "sacred" "2" "");
    try reflexivity; try (right; reflexivity);
    split; try discriminate; reflexivity.
Defined.

(** ** The width of the number fields *)

Lemma string_length_app (a b : string) :
  String.length (a +:+ b) = (String.length a + String.length b)%nat.
Proof.
  induction a as [|c a IH]; [reflexivity|].
  rewrite str_app_cons. simpl. now rewrite IH.
Qed.

Lemma string_of_list_length (l : list ascii) :
  String.length (string_of_list_ascii l) = length l.
Proof. induction l as [|c l IH]; simpl; [reflexivity | now rewrite IH]. Qed.

Lemma pad_left_length (width : nat) (s : string) :
  (width <= String.length (Num.pad_left width s))%nat /\
  (String.length s <= String.length (Num.pad_left width s))%nat.
Proof.
  unfold Num.pad_left.
  rewrite string_length_app, string_of_list_length, length_replicate. lia.
Qed.

Lemma format_3g_width (v : value) (s : string) :
  format_3g v = Ok s -> (3 <= String.length s)%nat.
Proof.
  unfold format_3g.
  destruct v; try discriminate.
  - destruct (as_int (VBool b)) as [z|]; [|discriminate].
    destruct (float_of_int z) as [f|]; simpl; [|discriminate].
    intros H. injection H as <-. apply pad_left_length.
  - destruct (as_int (VInt z)) as [z'|]; [|discriminate].
    destruct (float_of_int z') as [f|]; simpl; [|discriminate].
    intros H. injection H as <-. apply pad_left_length.
  - intros H. injection H as <-. apply pad_left_length.
Qed.

(** X23: every summary that [_make_return_summary] returns has the shape
    [<mean> ± <std> (n=<count>)] where the mean and the std fields are at
    least three characters wide, as the width 3 of their format asks, and
    the count is the text of the [n_traj] entry. *)
Theorem summary_fields_three_wide (d : dict) (prefix s : string) :
  _make_return_summary (VDict d) prefix = Ok s ->
  exists mean_s std_s n,
    s = mean_s +:+ " ± " +:+ std_s +:+ " (n=" +:+ py_str n +:+ ")" /\
    lookup_key "n_traj" d = Some n /\
    (3 <= String.length mean_s)%nat /\
    (3 <= String.length std_s)%nat.
Proof.
  unfold _make_return_summary. simpl.
  destruct (lookup_key (prefix +:+ "return_mean") d) as [mean|]; [|discriminate].
  destruct (lookup_key (prefix +:+ "return_std") d) as [std|]; [|discriminate].
  destruct (lookup_key "n_traj" d) as [n|]; [|discriminate]. simpl.
  destruct (format_3g mean) as [ms|] eqn:Hm; [|discriminate].
  destruct (format_3g std) as [ss|] eqn:Hs; [|discriminate]. simpl.
  intros H. injection H as <-. exists ms, ss, n.
  split; [reflexivity|]. split; [reflexivity|].
  split; [exact (format_3g_width _ _ Hm) | exact (format_3g_width _ _ Hs)].
Qed.

Lemma summary_fields_three_wide_witness :
  exists mean_s std_s n,
    "  7 ±   1 (n=5)" = mean_s +:+ " ± " +:+ std_s +:+ " (n=" +:+ py_str n +:+ ")" /\
    lookup_key "n_traj"
      [("return_mean", VInt 7); ("return_std", VInt 1); ("n_traj", VInt 5)]
    = Some n /\
    (3 <= String.length mean_s)%nat /\
    (3 <= String.length std_s)%nat.
Proof.
  exact (summary_fields_three_wide
           [("return_mean", VInt 7); ("return_std", VInt 1); ("n_traj", VInt 5)]
           "" "  7 ±   1 (n=5)" eq_refl).
Defined.
